(** * kaleidomining: the mining bot and its coordinator (src/miner.js)

    A shallow embedding of [KaleidoMiningBot] and [MiningCoordinator].

    - JavaScript numbers are IEEE 754 binary64 values, taken from the
      Standard Library's [spec_float] with its correctly rounded operations.
    - JavaScript values are a small tagged union ([jsval]); property reads,
      truthiness, [typeof] and the arithmetic operators follow ECMAScript.
    - Methods are computations in a state-and-exception monad over the bot
      (the object [this]) and the world around it: the remote API, the
      session files and the console. *)

From Stdlib Require Import ZArith NArith List String Ascii Bool Lia.
From Stdlib Require Import SpecFloat.
From stdpp Require Import base option list gmap.

Import ListNotations.
Local Open Scope Z_scope.

(** ** Numbers *)

Module Num.

Definition number := spec_float.

Definition prec : Z := 53.
Definition emax : Z := 1024.

Definition add : number -> number -> number := SFadd prec emax.
Definition sub : number -> number -> number := SFsub prec emax.
Definition mul : number -> number -> number := SFmul prec emax.
Definition div : number -> number -> number := SFdiv prec emax.

(** The double nearest to the integer [z] (exact below 2^53). *)
Definition of_Z (z : Z) : number := binary_normalize prec emax z 0 false.

(** The double nearest to [m * 2^e]. *)
Definition dyadic (m e : Z) : number := binary_normalize prec emax m e false.

Definition zero : number := S754_zero false.
Definition neg_zero : number := S754_zero true.
Definition one : number := of_Z 1.
Definition nan : number := S754_nan.
Definition infinity : number := S754_infinity false.
Definition neg_infinity : number := S754_infinity true.

Definition isNaN (x : number) : bool :=
  match x with S754_nan => true | _ => false end.

Definition isFinite (x : number) : bool :=
  match x with S754_nan | S754_infinity _ => false | _ => true end.

Definition isZero (x : number) : bool :=
  match x with S754_zero _ => true | _ => false end.

(** [x === y], [x < y], [x >= y] on numbers. *)
Definition eqb (x y : number) : bool := SFeqb x y.
Definition ltb (x y : number) : bool := SFltb x y.
Definition geb (x y : number) : bool := SFleb y x.

(** A double in the sense of IEEE 754: mantissa and exponent in range. *)
Definition valid (x : number) : bool := valid_binary prec emax x.

End Num.

Abbreviation number := Num.number.

(** ** Strings

    A JavaScript string is a sequence of UTF-16 code units. *)

Definition jsstring := list N.

Definition js (s : string) : jsstring :=
  map N_of_ascii (list_ascii_of_string s).

(** ** Values *)

#[local] Set Warnings "-register-all".

Inductive jsval : Type :=
| JUndefined
| JNull
| JBool (b : bool)
| JNum (x : number)
| JStr (s : jsstring)
| JArr (items : list jsval)
| JObj (fields : list (jsstring * jsval)).

Definition jsstring_eqb (a b : jsstring) : bool := bool_decide (a = b).

(** Own property [k] of a plain object; the fields carry distinct names. *)
Fixpoint lookup_field (k : jsstring) (fields : list (jsstring * jsval)) : jsval :=
  match fields with
  | [] => JUndefined
  | (k', v) :: rest => if jsstring_eqb k k' then v else lookup_field k rest
  end.

(** [typeof v] *)
Definition typeof (v : jsval) : jsstring :=
  match v with
  | JUndefined => js "undefined"
  | JNull => js "object"
  | JBool _ => js "boolean"
  | JNum _ => js "number"
  | JStr _ => js "string"
  | JArr _ | JObj _ => js "object"
  end.

(** ToBoolean: what [if (v)], [!v] and [v || w] test. *)
Definition truthy (v : jsval) : bool :=
  match v with
  | JUndefined | JNull => false
  | JBool b => b
  | JNum x => negb (Num.isZero x || Num.isNaN x)
  | JStr s => negb (bool_decide (s = []))
  | JArr _ | JObj _ => true
  end.

(** [a || b] *)
Definition js_or (a b : jsval) : jsval := if truthy a then a else b.

(** [typeof v === name] *)
Definition js_typeof_is (v : jsval) (name : string) : bool :=
  jsstring_eqb (typeof v) (js name).

(** ** Conversions and operators

    [Number::toString] and [StringToNumber] belong to the JavaScript engine
    and are parameters of the semantics; they only matter once a string
    meets a number. *)

Record Conversions : Type := {
  NumberToString : number -> jsstring;
  StringToNumber : jsstring -> number
}.

Fixpoint join_comma (parts : list jsstring) : jsstring :=
  match parts with
  | [] => []
  | [p] => p
  | p :: rest => p ++ js "," ++ join_comma rest
  end.

(** Lexicographic order on code units: the [<] of two strings. *)
Fixpoint jsstring_ltb (a b : jsstring) : bool :=
  match a, b with
  | _, [] => false
  | [], _ :: _ => true
  | x :: a', y :: b' => if N.ltb x y then true else if N.ltb y x then false else jsstring_ltb a' b'
  end.

Section Operators.

Context (host : Conversions).

(** ToString; an array joins its elements, an object prints its tag. *)
Fixpoint to_string (v : jsval) : jsstring :=
  match v with
  | JUndefined => js "undefined"
  | JNull => js "null"
  | JBool b => if b then js "true" else js "false"
  | JNum x => NumberToString host x
  | JStr s => s
  | JArr items =>
      join_comma (map (fun item =>
                         match item with
                         | JUndefined | JNull => []
                         | _ => to_string item
                         end) items)
  | JObj _ => js "[object Object]"
  end.

(** ToPrimitive: arrays and plain objects go through [toString]. *)
Definition to_primitive (v : jsval) : jsval :=
  match v with
  | JArr _ | JObj _ => JStr (to_string v)
  | _ => v
  end.

(** ToNumber *)
Definition to_number (v : jsval) : number :=
  match to_primitive v with
  | JUndefined => Num.nan
  | JNull => Num.zero
  | JBool b => if b then Num.one else Num.zero
  | JNum x => x
  | JStr s => StringToNumber host s
  | JArr _ | JObj _ => Num.nan
  end.

(** [a + b]: concatenation as soon as one side is a string. *)
Definition js_add (a b : jsval) : jsval :=
  let pa := to_primitive a in
  let pb := to_primitive b in
  match pa, pb with
  | JStr _, _ | _, JStr _ => JStr (to_string pa ++ to_string pb)
  | _, _ => JNum (Num.add (to_number pa) (to_number pb))
  end.

Definition js_sub (a b : jsval) : jsval := JNum (Num.sub (to_number a) (to_number b)).
Definition js_mul (a b : jsval) : jsval := JNum (Num.mul (to_number a) (to_number b)).
Definition js_div (a b : jsval) : jsval := JNum (Num.div (to_number a) (to_number b)).

(** [a >= b] *)
Definition js_ge (a b : jsval) : bool :=
  match to_primitive a, to_primitive b with
  | JStr s, JStr t => negb (jsstring_ltb s t)
  | pa, pb => Num.geb (to_number pa) (to_number pb)
  end.

(** The global [isNaN] and [isFinite]: both convert their argument first. *)
Definition js_isNaN (v : jsval) : bool := Num.isNaN (to_number v).
Definition js_isFinite (v : jsval) : bool := Num.isFinite (to_number v).

End Operators.

(** ** Exceptions and the monad of methods *)

Inductive exn : Type :=
| HttpStatusError (status : Z) (data : jsval)  (* axios rejection; [error.response] is set *)
| NetworkError (message : jsstring)            (* axios rejection without a response *)
| TypeError (message : jsstring)
| SyntaxError (message : jsstring)             (* JSON.parse *)
| IOError (message : jsstring)                 (* fs/promises *)
| Error (message : jsstring).                  (* [new Error(message)] *)

(** [error.response], as the [catch] blocks test it. *)
Definition error_response (e : exn) : option (Z * jsval) :=
  match e with
  | HttpStatusError status data => Some (status, data)
  | _ => None
  end.

Inductive result (A : Type) : Type :=
| Ok (a : A)
| Throw (e : exn).

Arguments Ok {A} a.
Arguments Throw {A} e.

(** [v.k]: reading a property of [undefined] or [null] throws; the names the
    program reads ([startTime], [earnings], [total], [data], ...) are own
    properties of plain objects only. *)
Definition get_prop (v : jsval) (k : string) : result jsval :=
  match v with
  | JUndefined | JNull => Throw (TypeError (js "Cannot read properties of " ++ js k))
  | JObj fields => Ok (lookup_field (js k) fields)
  | _ => Ok JUndefined
  end.

Definition M (St A : Type) : Type := St -> result A * St.

Definition ret {St A} (a : A) : M St A := fun s => (Ok a, s).

Definition bind {St A B} (c : M St A) (k : A -> M St B) : M St B :=
  fun s =>
    match c s with
    | (Ok a, s') => k a s'
    | (Throw e, s') => (Throw e, s')
    end.

Definition throw {St A} (e : exn) : M St A := fun s => (Throw e, s).

(** [try { body } catch (error) { handler }] *)
Definition try_catch {St A} (body : M St A) (handler : exn -> M St A) : M St A :=
  fun s =>
    match body s with
    | (Ok a, s') => (Ok a, s')
    | (Throw e, s') => handler e s'
    end.

Definition get_state {St} : M St St := fun s => (Ok s, s).
Definition modify {St} (f : St -> St) : M St unit := fun s => (Ok tt, f s).
Definition lift {St A} (r : result A) : M St A := fun s => (r, s).

Declare Scope js_scope.
Delimit Scope js_scope with js.
Notation "x <- c ;; k" := (bind c (fun x => k))
  (at level 100, c at next level, right associativity) : js_scope.
Notation "c ;; k" := (bind c (fun _ => k))
  (at level 100, right associativity) : js_scope.
Local Open Scope js_scope.

(** ** The world around a bot *)

Inductive request : Type :=
| GET (path : jsstring)
| POST (path : jsstring) (body : jsval).

Inductive outcome : Type :=
| Resolves (response : jsval)
| Rejects (error : exn).

(** Console lines, one constructor per message of the source. *)
Inductive log_line : Type :=
| SessionLoaded
| SaveSessionFailed
| MiningStarted (resumed : bool)
| InitHttpError
| InitFailed
| Retrying (operationName : jsstring) (attempt retries : nat)
| MissingStartTime
| InvalidEarnings
| UpdateRejected
| ApiError
| UpdateFailed
| Status (final : bool)
| AlreadyRunning
| Banner
| WalletsUnreadable
| NoValidWallets
| LoadedWallets (count : nat)
| ShuttingDown
| FinalSummary.

Inductive event : Type :=
| Log (line : log_line)
| Sleep (ms : Z)                (* an awaited [setTimeout] *)
| Spawn (botIndex : nat)        (* [bot.initialize()] started, not awaited *)
| OnSigint.                     (* [process.on('SIGINT', ...)] *)

(** A session file is represented by what reading and parsing it yields:
    [fs.readFile] may reject, [JSON.parse] may throw, or a value comes out. *)
Inductive session_file : Type :=
| Unreadable
| NotJson
| Parsed (doc : jsval).

Record World : Type := {
  (** the remote API: its answer to a request, given every request sent so
      far (the newest first, the current one included) *)
  server : list request -> outcome;
  sent : list request;
  (** session files by name; a name not in the map is a missing file *)
  sessions : gmap jsstring session_file;
  writable : jsstring -> bool;
  (** [wallets.txt] decoded as UTF-8, if it can be read *)
  wallets_txt : option jsstring;
  (** console lines and timers, in order *)
  trace : list event
}.

Definition emit_in (e : event) (w : World) : World :=
  {| server := server w; sent := sent w; sessions := sessions w;
     writable := writable w; wallets_txt := wallets_txt w;
     trace := trace w ++ [e] |}.

Definition send_in (r : request) (w : World) : World :=
  {| server := server w; sent := r :: sent w; sessions := sessions w;
     writable := writable w; wallets_txt := wallets_txt w;
     trace := trace w |}.

Definition store_in (name : jsstring) (f : session_file) (w : World) : World :=
  {| server := server w; sent := sent w; sessions := <[name := f]> (sessions w);
     writable := writable w; wallets_txt := wallets_txt w;
     trace := trace w |}.

(** ** The bot *)

Record MiningState : Type := {
  isActive : bool;
  startTime : jsval
}.

(** The fields of the object that change or are read: [stats.hashrate] is a
    constant (below); the worker and pool names, the other statistics and the
    axios instance are never read back. *)
Record Bot : Type := {
  wallet : jsstring;
  botIndex : nat;
  currentEarnings : jsval;
  miningState : MiningState;
  referralBonus : jsval;
  sessionFile : jsstring
}.

(** [this.stats.hashrate], never reassigned. *)
Definition hashrate : number := Num.dyadic 151 (-1).        (* 75.5 *)
(** The literal [0.0001]: the double nearest to 1/10000. *)
Definition base_factor : number := Num.div (Num.of_Z 1) (Num.of_Z 10000).

Definition earnings_object (total pending paid : jsval) : jsval :=
  JObj [(js "total", total); (js "pending", pending); (js "paid", paid)].

(** [new KaleidoMiningBot(wallet, botIndex)] *)
Definition new_KaleidoMiningBot (wallet : jsstring) (botIndex : nat) : Bot :=
  {| wallet := wallet;
     botIndex := botIndex;
     currentEarnings := earnings_object (JNum Num.zero) (JNum Num.zero) (JNum Num.zero);
     miningState := {| isActive := false; startTime := JNull |};
     referralBonus := JNum Num.zero;
     sessionFile := js "session_" ++ wallet ++ js ".json" |}.

(** The state a method of a bot runs in: the object and the world. *)
Record Task : Type := {
  this : Bot;
  world : World
}.

Definition emit (e : event) : M Task unit :=
  modify (fun t => {| this := this t; world := emit_in e (world t) |}).

Definition console (line : log_line) : M Task unit := emit (Log line).

Definition set_this (f : Bot -> Bot) : M Task unit :=
  modify (fun t => {| this := f (this t); world := world t |}).

Definition set_startTime (v : jsval) (b : Bot) : Bot :=
  {| wallet := wallet b; botIndex := botIndex b;
     currentEarnings := currentEarnings b;
     miningState := {| isActive := isActive (miningState b); startTime := v |};
     referralBonus := referralBonus b; sessionFile := sessionFile b |}.

Definition set_isActive (a : bool) (b : Bot) : Bot :=
  {| wallet := wallet b; botIndex := botIndex b;
     currentEarnings := currentEarnings b;
     miningState := {| isActive := a; startTime := startTime (miningState b) |};
     referralBonus := referralBonus b; sessionFile := sessionFile b |}.

Definition set_currentEarnings (v : jsval) (b : Bot) : Bot :=
  {| wallet := wallet b; botIndex := botIndex b;
     currentEarnings := v;
     miningState := miningState b;
     referralBonus := referralBonus b; sessionFile := sessionFile b |}.

Definition set_referralBonus (v : jsval) (b : Bot) : Bot :=
  {| wallet := wallet b; botIndex := botIndex b;
     currentEarnings := currentEarnings b;
     miningState := miningState b;
     referralBonus := v; sessionFile := sessionFile b |}.

(** ** Files and the network *)

(** What [JSON.parse] reads back from the text [JSON.stringify] wrote:
    non-finite numbers are written as [null], the sign of zero is lost,
    [undefined] is dropped from objects and written as [null] in arrays;
    finite numbers and strings are read back as they were. *)
Fixpoint json_reparse (v : jsval) : jsval :=
  match v with
  | JNum x =>
      if Num.isFinite x
      then (if Num.isZero x then JNum Num.zero else JNum x)
      else JNull
  | JArr items =>
      JArr (map (fun item =>
                   match item with
                   | JUndefined => JNull
                   | _ => json_reparse item
                   end) items)
  | JObj fields =>
      JObj ((fix members (fs : list (jsstring * jsval)) : list (jsstring * jsval) :=
               match fs with
               | [] => []
               | (_, JUndefined) :: rest => members rest
               | (k, x) :: rest => (k, json_reparse x) :: members rest
               end) fields)
  | _ => v
  end.

(** [JSON.parse(await fs.readFile(name, 'utf8'))] *)
Definition read_json (name : jsstring) : M Task jsval :=
  fun t =>
    match sessions (world t) !! name with
    | None => (Throw (IOError (js "ENOENT")), t)
    | Some Unreadable => (Throw (IOError (js "EACCES")), t)
    | Some NotJson => (Throw (SyntaxError (js "Unexpected token")), t)
    | Some (Parsed doc) => (Ok doc, t)
    end.

(** [await fs.writeFile(name, JSON.stringify(v, null, 2))] *)
Definition write_json (name : jsstring) (v : jsval) : M Task unit :=
  fun t =>
    if writable (world t) name
    then (Ok tt, {| this := this t;
                    world := store_in name (Parsed (json_reparse v)) (world t) |})
    else (Throw (IOError (js "EACCES")), t).

(** One HTTP call through [this.api]: the request leaves, the server answers. *)
Definition http (r : request) : M Task jsval :=
  fun t =>
    let w := send_in r (world t) in
    let t' := {| this := this t; world := w |} in
    match server w (sent w) with
    | Resolves response => (Ok response, t')
    | Rejects e => (Throw e, t')
    end.

Definition api_get (path : jsstring) : M Task jsval := http (GET path).
Definition api_post (path : jsstring) (body : jsval) : M Task jsval := http (POST path body).

(** ** Methods of [KaleidoMiningBot] *)

Section KaleidoMiningBot.

Context (host : Conversions).

Definition validateEarnings (earnings : jsval) : bool :=
  js_typeof_is earnings "number"
  && negb (js_isNaN host earnings)
  && js_isFinite host earnings
  && js_ge host earnings (JNum Num.zero).

Definition loadSession : M Task bool :=
  try_catch
    (t <- get_state ;;
     session <- read_json (sessionFile (this t)) ;;
     v <- lift (get_prop session "startTime") ;;
     set_this (set_startTime v) ;;
     v <- lift (get_prop session "earnings") ;;
     set_this (set_currentEarnings v) ;;
     v <- lift (get_prop session "referralBonus") ;;
     set_this (set_referralBonus v) ;;
     console SessionLoaded ;;
     ret true)
    (fun _ => ret false).

Definition saveSession : M Task unit :=
  t <- get_state ;;
  let sessionData :=
    JObj [(js "startTime", startTime (miningState (this t)));
          (js "earnings", currentEarnings (this t));
          (js "referralBonus", referralBonus (this t))] in
  try_catch
    (write_json (sessionFile (this t)) sessionData)
    (fun _ => console SaveSessionFailed).

(** The [for] loop of [retryRequest]: [i] is the loop counter and [left]
    the number of iterations before [i < retries] fails. *)
Fixpoint retry_loop (requestFn : M Task jsval) (operationName : jsstring)
         (retries left i : nat) : M Task jsval :=
  match left with
  | O => ret JUndefined
  | S left' =>
      try_catch requestFn
        (fun error =>
           if Nat.eqb i (retries - 1) then throw error
           else
             console (Retrying operationName (i + 1) retries) ;;
             emit (Sleep (2000 * (Z.of_nat i + 1))) ;;
             retry_loop requestFn operationName retries left' (S i))
  end.

Definition retryRequest (requestFn : M Task jsval) (operationName : jsstring)
           (retries : nat) : M Task jsval :=
  retry_loop requestFn operationName retries retries 0.

(** [now] is the value of [Date.now()]. *)
Definition calculateEarnings (now : number) : M Task jsval :=
  t <- get_state ;;
  let start := startTime (miningState (this t)) in
  if negb (truthy start) then
    console MissingStartTime ;;
    ret (JNum Num.zero)
  else
    let timeElapsed := js_div host (js_sub host (JNum now) start) (JNum (Num.of_Z 1000)) in
    ret (js_mul host
           (js_mul host (js_mul host (JNum hashrate) timeElapsed) (JNum base_factor))
           (js_add host (JNum Num.one) (referralBonus (this t)))).

(** [x.toFixed(d)] is only there on numbers. *)
Definition toFixed (x : jsval) : M Task unit :=
  match x with
  | JNum _ => ret tt
  | _ => throw (TypeError (js "toFixed is not a function"))
  end.

Definition logStatus (final : bool) : M Task unit :=
  t <- get_state ;;
  total <- lift (get_prop (currentEarnings (this t)) "total") ;;
  toFixed total ;;
  pending <- lift (get_prop (currentEarnings (this t)) "pending") ;;
  toFixed pending ;;
  paid <- lift (get_prop (currentEarnings (this t)) "paid") ;;
  toFixed paid ;;
  console (Status final).

(** The [payload] of [updateBalance], from [this.currentEarnings.total]
    and [this.currentEarnings.paid]. *)
Definition balance_payload (wallet : jsstring) (total paid : jsval)
           (finalUpdate : bool) (newEarnings : jsval) : jsval :=
  JObj [(js "wallet", JStr wallet);
        (js "earnings",
         earnings_object
           (js_add host total newEarnings)
           (if finalUpdate then JNum Num.zero else newEarnings)
           (if finalUpdate then js_add host paid newEarnings else paid))].

Definition updateBalance (finalUpdate : bool) (now : number) : M Task unit :=
  try_catch
    (newEarnings <- calculateEarnings now ;;
     if negb (validateEarnings newEarnings) then
       console InvalidEarnings
     else
       t <- get_state ;;
       total <- lift (get_prop (currentEarnings (this t)) "total") ;;
       paid <- lift (get_prop (currentEarnings (this t)) "paid") ;;
       let payload :=
         balance_payload (wallet (this t)) total paid finalUpdate newEarnings in
       response <- retryRequest (api_post (js "/update-balance") payload)
                                (js "Balance update") 3 ;;
       data <- lift (get_prop response "data") ;;
       success <- lift (get_prop data "success") ;;
       if truthy success then
         balance <- lift (get_prop data "balance") ;;
         t <- get_state ;;
         paid <- lift (get_prop (currentEarnings (this t)) "paid") ;;
         set_this (set_currentEarnings
                     (earnings_object
                        balance
                        (if finalUpdate then JNum Num.zero else newEarnings)
                        (if finalUpdate then js_add host paid newEarnings else paid))) ;;
         saveSession ;;
         logStatus finalUpdate
       else
         console UpdateRejected)
    (fun error =>
       match error_response error with
       | Some _ => console ApiError
       | None => console UpdateFailed
       end).

(** [while (this.miningState.isActive)]: one cycle per element of [ticks],
    the values [Date.now()] takes; the observation ends with the list. *)
Fixpoint startMiningLoop (ticks : list number) : M Task unit :=
  match ticks with
  | [] => ret tt
  | now :: later =>
      t <- get_state ;;
      if isActive (miningState (this t)) then
        updateBalance false now ;;
        emit (Sleep 30000) ;;
        startMiningLoop later
      else ret tt
  end.

Definition initialize (now : number) (ticks : list number) : M Task unit :=
  try_catch
    (t <- get_state ;;
     regResponse <- retryRequest
                      (api_get (js "/check-registration?wallet=" ++ wallet (this t)))
                      (js "Registration check") 3 ;;
     data <- lift (get_prop regResponse "data") ;;
     isRegistered <- lift (get_prop data "isRegistered") ;;
     (if negb (truthy isRegistered) then throw (Error (js "Wallet not registered"))
      else ret tt) ;;
     hasSession <- loadSession ;;
     (if negb hasSession then
        userData <- lift (get_prop data "userData") ;;
        bonus <- lift (get_prop userData "referralBonus") ;;
        set_this (set_referralBonus (js_or bonus (JNum Num.zero))) ;;
        t <- get_state ;;
        set_this (set_currentEarnings
                    (earnings_object (referralBonus (this t))
                                     (JNum Num.zero) (JNum Num.zero))) ;;
        set_this (set_startTime (JNum now))
      else
        t <- get_state ;;
        if negb (truthy (startTime (miningState (this t))))
        then set_this (set_startTime (JNum now))
        else ret tt) ;;
     set_this (set_isActive true) ;;
     console (MiningStarted hasSession) ;;
     startMiningLoop ticks)
    (fun error =>
       match error_response error with
       | Some _ => console InitHttpError
       | None => console InitFailed
       end).

Definition stop (now : number) : M Task jsval :=
  set_this (set_isActive false) ;;
  updateBalance true now ;;
  saveSession ;;
  t <- get_state ;;
  lift (get_prop (currentEarnings (this t)) "paid").

End KaleidoMiningBot.

(** ** [MiningCoordinator] *)

(** WhiteSpace and LineTerminator code units, which [trim] strips. *)
Definition is_space (c : N) : bool :=
  match c with
  | 9 | 10 | 11 | 12 | 13 | 32 | 160 | 5760 | 8232 | 8233 | 8239 | 8287
  | 12288 | 65279 => true
  | _ => N.leb 8192 c && N.leb c 8202
  end%N.

Fixpoint trim_start (s : jsstring) : jsstring :=
  match s with
  | c :: rest => if is_space c then trim_start rest else s
  | [] => []
  end.

(** [s.trim()] *)
Definition trim (s : jsstring) : jsstring :=
  rev (trim_start (rev (trim_start s))).

(** [s.split(sep)] for a one-unit separator. *)
Fixpoint split_on (sep : N) (s : jsstring) : list jsstring :=
  match s with
  | [] => [[]]
  | c :: rest =>
      if N.eqb c sep then [] :: split_on sep rest
      else match split_on sep rest with
           | current :: others => (c :: current) :: others
           | [] => [[c]]
           end
  end.

(** [[a-fA-F0-9]] *)
Definition is_hex (c : N) : bool :=
  (N.leb 97 c && N.leb c 102) || (N.leb 65 c && N.leb c 70)
  || (N.leb 48 c && N.leb c 57).

(** [/^0x[a-fA-F0-9]{40}$/.test(line)] *)
Definition wallet_pattern (line : jsstring) : bool :=
  match line with
  | 48%N :: 120%N :: digits => Nat.eqb (length digits) 40 && forallb is_hex digits
  | _ => false
  end.

Record Coordinator : Type := {
  (** the bots as constructed; each one then lives on in a [Task] of its own *)
  bots : list Bot;
  totalPaid : number;
  isRunning : bool
}.

(** The process: the static [MiningCoordinator.instance] holds the one
    coordinator object every [new MiningCoordinator()] evaluates to. *)
Record Process : Type := {
  instance : option Coordinator;
  env : World
}.

(** [new MiningCoordinator()] *)
Definition new_MiningCoordinator : M Process unit :=
  modify (fun p =>
            match instance p with
            | Some _ => p
            | None =>
                {| instance := Some {| bots := []; totalPaid := Num.zero;
                                       isRunning := false |};
                   env := env p |}
            end).

Definition loadWallets (w : World) : list jsstring * World :=
  match wallets_txt w with
  | Some data =>
      (filter (fun line => wallet_pattern line = true)
              (map trim (split_on 10 data)), w)
  | None => ([], emit_in (Log WalletsUnreadable) w)
  end.

(** [wallets.map((wallet, index) => new KaleidoMiningBot(wallet, index + 1))] *)
Definition make_bots (wallets : list jsstring) : list Bot :=
  imap (fun index wallet => new_KaleidoMiningBot wallet (index + 1)) wallets.

Definition spawn_all (new_bots : list Bot) (w : World) : World :=
  fold_left (fun w' b => emit_in (Spawn (botIndex b)) w') new_bots w.

(** [start()] on the coordinator [c]. *)
Definition start_on (c : Coordinator) (w : World) : Coordinator * World :=
  if isRunning c then (c, emit_in (Log AlreadyRunning) w)
  else
    let c1 := {| bots := bots c; totalPaid := totalPaid c; isRunning := true |} in
    let w1 := emit_in (Log Banner) w in
    let (wallets, w2) := loadWallets w1 in
    if Nat.eqb (length wallets) 0 then (c1, emit_in (Log NoValidWallets) w2)
    else
      let w3 := emit_in (Log (LoadedWallets (length wallets))) w2 in
      let new_bots := make_bots wallets in
      ({| bots := new_bots; totalPaid := totalPaid c1; isRunning := isRunning c1 |},
       emit_in OnSigint (spawn_all new_bots w3)).

(** [start()] through a reference to the coordinator: the object is the one
    held in [instance]. *)
Definition start : M Process unit :=
  fun p =>
    match instance p with
    | Some c =>
        let (c', w') := start_on c (env p) in
        (Ok tt, {| instance := Some c'; env := w' |})
    | None => (Throw (TypeError (js "start of undefined")), p)
    end.

(** ** Vocabulary of the specification *)

(** Zero, or a finite number with the sign bit clear. *)
Definition nonneg_finite (x : number) : Prop :=
  match x with
  | S754_zero _ => True
  | S754_finite negative _ _ => negative = false
  | S754_infinity _ | S754_nan => False
  end.

(** The accrual of the specification: [r * t * k * (1 + b)], with [k] the
    constant scaling factor, in the arithmetic of the program. *)
Definition accrual (t r b : number) : number :=
  Num.mul (Num.mul (Num.mul r t) base_factor) (Num.add Num.one b).

(** Seconds between [start] and [now], both in milliseconds. *)
Definition elapsed_seconds (now start : number) : number :=
  Num.div (Num.sub now start) (Num.of_Z 1000).

(** The server acknowledged an update: the increment passed validation,
    the request went out, some attempt was answered, and the answer carries
    a truthy [success] together with [balance]. *)
Definition acknowledged (host : Conversions) (finalUpdate : bool) (now : number)
           (t : Task) (increment paid balance : jsval) : Prop :=
  exists (t1 t2 : Task) (total response data success : jsval),
    calculateEarnings host now t = (Ok increment, t1)
    /\ validateEarnings host increment = true
    /\ get_prop (currentEarnings (this t)) "total" = Ok total
    /\ get_prop (currentEarnings (this t)) "paid" = Ok paid
    /\ retryRequest
         (api_post (js "/update-balance")
            (balance_payload host (wallet (this t)) total paid finalUpdate increment))
         (js "Balance update") 3 t1 = (Ok response, t2)
    /\ get_prop response "data" = Ok data
    /\ get_prop data "success" = Ok success
    /\ truthy success = true
    /\ get_prop data "balance" = Ok balance.

(** The snapshot [updateBalance] installs on an acknowledged update. *)
Definition merged_earnings (host : Conversions) (finalUpdate : bool)
           (increment paid balance : jsval) : jsval :=
  earnings_object balance
    (if finalUpdate then JNum Num.zero else increment)
    (if finalUpdate then js_add host paid increment else paid).

(** The task once [stop] has cleared [isActive]. *)
Definition switched_off (t : Task) : Task :=
  {| this := set_isActive false (this t); world := world t |}.

(** [total >= paid] on a snapshot. *)
Definition total_ge_paid (host : Conversions) (earnings : jsval) : bool :=
  match get_prop earnings "total", get_prop earnings "paid" with
  | Ok total, Ok paid => js_ge host total paid
  | _, _ => false
  end.

(** A number [JSON] writes and reads back unchanged: finite, and not the
    negative zero. *)
Definition json_number (x : number) : Prop :=
  match x with
  | S754_zero negative => negative = false
  | S754_finite _ _ _ => True
  | S754_infinity _ | S754_nan => False
  end.

(** A session record as the session file format describes it: [startTime]
    a number or null, the three earnings and the bonus numbers. *)
Definition session_record (b : Bot) : Prop :=
  (startTime (miningState b) = JNull
   \/ exists s, startTime (miningState b) = JNum s /\ json_number s)
  /\ (exists total pending paid,
         currentEarnings b = earnings_object (JNum total) (JNum pending) (JNum paid)
         /\ json_number total /\ json_number pending /\ json_number paid)
  /\ (exists bonus, referralBonus b = JNum bonus /\ json_number bonus).

(** A file in the session file format: a JSON object with a numeric
    [startTime], an [earnings] object of three numbers and a numeric
    [referralBonus]. *)
Definition well_formed_session (f : session_file) : Prop :=
  exists s total pending paid bonus,
    f = Parsed (JObj [(js "startTime", JNum s);
                      (js "earnings",
                       earnings_object (JNum total) (JNum pending) (JNum paid));
                      (js "referralBonus", JNum bonus)]).

(** The server has confirmed the registration of the wallet of [t]. *)
Definition registered (t t1 : Task) (data : jsval) : Prop :=
  exists regResponse isRegistered,
    retryRequest (api_get (js "/check-registration?wallet=" ++ wallet (this t)))
                 (js "Registration check") 3 t = (Ok regResponse, t1)
    /\ get_prop regResponse "data" = Ok data
    /\ get_prop data "isRegistered" = Ok isRegistered
    /\ truthy isRegistered = true.

(** The pattern in words: ["0x"] followed by exactly 40 characters, each
    one of [0-9], [a-f] or [A-F]. *)
Definition hex_digits : jsstring := js "0123456789abcdefABCDEF".

Definition wallet_address (line : jsstring) : Prop :=
  exists digits,
    line = js "0x" ++ digits
    /\ length digits = 40%nat
    /\ Forall (fun c => In c hex_digits) digits.

(** The delays of a trace, in order. *)
Definition delays (tr : list event) : list Z :=
  flat_map (fun e => match e with Sleep ms => [ms] | _ => [] end) tr.

(** Each delay is shorter than the next. *)
Fixpoint increasing (l : list Z) : Prop :=
  match l with
  | a :: (b :: _) as rest => a < b /\ increasing rest
  | _ => True
  end.

(** What [retryRequest] prints and waits for between attempts [first + 1]
    and [first + count + 1]. *)
Definition retry_pauses (name : jsstring) (retries first count : nat) : list event :=
  flat_map (fun i => [Log (Retrying name (i + 1) retries);
                      Sleep (2000 * (Z.of_nat i + 1))])
           (seq first count).

(** The task once the pause after the failed attempt [i + 1] is over: the
    retry line was printed and [2000 * (i + 1)] ms were waited; nothing else
    moved. *)
Definition paused (name : jsstring) (retries i : nat) (s : Task) : Task :=
  {| this := this s;
     world := emit_in (Sleep (2000 * (Z.of_nat i + 1)))
                (emit_in (Log (Retrying name (i + 1) retries)) (world s)) |}.

(** The task in which attempt [i + j + 1] begins, when attempt [i + 1]
    began in [t] and every attempt before it failed: each attempt begins
    where the pause after the previous one ended. *)
Fixpoint attempt_from (requestFn : M Task jsval) (name : jsstring) (retries i : nat)
         (t : Task) (j : nat) : Task :=
  match j with
  | O => t
  | S j' =>
      paused name retries (i + j')
             (snd (requestFn (attempt_from requestFn name retries i t j')))
  end.

(** The task in which attempt [j + 1] of [retryRequest] begins. *)
Definition attempt_start (requestFn : M Task jsval) (name : jsstring) (retries : nat)
           (t : Task) (j : nat) : Task :=
  attempt_from requestFn name retries 0 t j.

(** ** Data for the examples

    None of the examples converts between numbers and strings, so any
    [Conversions] serves; the statements that matter quantify over all. *)

Module Ex.

Definition host : Conversions :=
  {| NumberToString := fun _ => js "0"; StringToNumber := fun _ => Num.nan |}.

Definition wallet1 : jsstring := js "0x0123456789abcdef0123456789abcdef01234567".

Definition world_with (srv : list request -> outcome)
           (files : gmap jsstring session_file) : World :=
  {| server := srv; sent := []; sessions := files; writable := fun _ => true;
     wallets_txt := None; trace := [] |}.

Definition offline : list request -> outcome :=
  fun _ => Rejects (NetworkError (js "ECONNREFUSED")).

(** A bot that started mining at [start] with the referral bonus [bonus]. *)
Definition mining_bot (start bonus : number) (earnings : jsval) : Bot :=
  {| wallet := wallet1; botIndex := 1; currentEarnings := earnings;
     miningState := {| isActive := true; startTime := JNum start |};
     referralBonus := JNum bonus;
     sessionFile := js "session_" ++ wallet1 ++ js ".json" |}.

Definition eighth : number := Num.dyadic 1 (-3).          (* 0.125 *)

(** Started at 1 000 000 ms with bonus 0.125 and a fresh snapshot. *)
Definition fresh_bot : Bot :=
  mining_bot (Num.of_Z 1000000) eighth
             (earnings_object (JNum eighth) (JNum Num.zero) (JNum Num.zero)).

Definition fresh_task (srv : list request -> outcome) : Task :=
  {| this := fresh_bot; world := world_with srv ∅ |}.

(** Started at 2 000 000 ms: a start time ahead of the clock below. *)
Definition skewed_task : Task :=
  {| this := mining_bot (Num.of_Z 2000000) eighth
               (earnings_object (JNum eighth) (JNum Num.zero) (JNum Num.zero));
     world := world_with offline ∅ |}.

Definition registration : jsval :=
  JObj [(js "data",
         JObj [(js "isRegistered", JBool true);
               (js "userData", JObj [(js "referralBonus", JNum eighth)])])].

Definition reply (balance : jsval) : outcome :=
  Resolves (JObj [(js "data",
                   JObj [(js "success", JBool true); (js "balance", balance)])]).

(** A server that credits what the client proposes: [balance] is the
    [total] of the payload. *)
Definition crediting : list request -> outcome :=
  fun history =>
    match history with
    | GET _ :: _ => Resolves registration
    | POST _ body :: _ =>
        match get_prop body "earnings" with
        | Ok earnings =>
            match get_prop earnings "total" with
            | Ok total => reply total
            | Throw e => Rejects e
            end
        | Throw e => Rejects e
        end
    | [] => Rejects (NetworkError (js "no request"))
    end.

(** A server that acknowledges every update with a balance of zero. *)
Definition zeroing : list request -> outcome :=
  fun history =>
    match history with
    | GET _ :: _ => Resolves registration
    | _ => reply (JNum Num.zero)
    end.

(** Registration works, every balance update is refused. *)
Definition refusing : list request -> outcome :=
  fun history =>
    match history with
    | GET _ :: _ => Resolves registration
    | _ => Rejects (HttpStatusError 503 JNull)
    end.

(** A server that confirms every update but returns no balance. *)
Definition confirming_only : list request -> outcome :=
  fun history =>
    match history with
    | GET _ :: _ => Resolves registration
    | _ => Resolves (JObj [(js "data", JObj [(js "success", JBool true)])])
    end.

(** Two failures, then an answer. *)
Definition flaky : list request -> outcome :=
  fun history =>
    if Nat.ltb (length history) 3 then Rejects (NetworkError (js "ETIMEDOUT"))
    else reply (JNum Num.one).

(** A request that is only answered once the caller has just waited
    4000 ms; it is recorded as sent each time it is made. *)
Definition patient (r : request) : M Task jsval :=
  fun t =>
    let t' := {| this := this t; world := send_in r (world t) |} in
    match List.last (trace (world t)) OnSigint with
    | Sleep ms =>
        if Z.eqb ms 4000 then (Ok (JStr (js "done")), t')
        else (Throw (NetworkError (js "ETIMEDOUT")), t')
    | _ => (Throw (NetworkError (js "ETIMEDOUT")), t')
    end.

(** A bot whose referral bonus is [Infinity], started at 1 000 000 ms. *)
Definition unbounded_bonus_task : Task :=
  {| this := mining_bot (Num.of_Z 1000000) Num.infinity
               (earnings_object (JNum Num.zero) (JNum Num.zero) (JNum Num.zero));
     world := world_with offline ∅ |}.

(** The session of an earlier run: started at 500 000 ms, bonus 0.25,
    snapshot total 5, pending 0, paid 4. *)
Definition earlier_session : jsval :=
  JObj [(js "startTime", JNum (Num.of_Z 500000));
        (js "earnings",
         earnings_object (JNum (Num.of_Z 5)) (JNum Num.zero) (JNum (Num.of_Z 4)));
        (js "referralBonus", JNum (Num.dyadic 1 (-2)))].

Definition resuming_task : Task :=
  {| this := new_KaleidoMiningBot wallet1 1;
     world := world_with crediting
                {[ js "session_" ++ wallet1 ++ js ".json" := Parsed earlier_session ]} |}.

(** Registered, but the answer carries no [userData]. *)
Definition bare_registration : list request -> outcome :=
  fun _ => Resolves (JObj [(js "data", JObj [(js "isRegistered", JBool true)])]).



(** A session file holding the empty object. *)
Definition empty_object_task : Task :=
  {| this := new_KaleidoMiningBot wallet1 1;
     world := world_with crediting
                {[ js "session_" ++ wallet1 ++ js ".json" := Parsed (JObj []) ]} |}.

(** 39 hexadecimal characters, then a valid address, on two lines. *)
Definition short_line : jsstring := js "0x0123456789abcdef0123456789abcdef0123456".

Definition two_lines : World :=
  {| server := offline; sent := []; sessions := ∅; writable := fun _ => true;
     wallets_txt := Some (short_line ++ js (String "010" "") ++ wallet1
                          ++ js (String "010" ""));
     trace := [] |}.

(** The world of [world_with], on a disk that refuses every write. *)
Definition read_only (srv : list request -> outcome) : World :=
  {| server := srv; sent := []; sessions := ∅; writable := fun _ => false;
     wallets_txt := None; trace := [] |}.

Definition no_wallets : World :=
  {| server := offline; sent := []; sessions := ∅; writable := fun _ => true;
     wallets_txt := None; trace := [] |}.

Definition new_coordinator : Coordinator :=
  {| bots := []; totalPaid := Num.zero; isRunning := false |}.

Definition clock0 : number := Num.of_Z 1000000.
Definition clock30 : number := Num.of_Z 1030000.
Definition clock60 : number := Num.of_Z 1060000.

(** The increment after 30 and after 60 seconds of mining. *)
Definition increment30 : jsval :=
  JNum (accrual (elapsed_seconds clock30 clock0) hashrate eighth).
Definition increment60 : jsval :=
  JNum (accrual (elapsed_seconds clock60 clock0) hashrate eighth).

End Ex.

(** ** The sum of the shutdown handler *)

Section Shutdown.

Context (host : Conversions).


End Shutdown.

(** ** Vocabulary for the further properties *)

Definition is_number (v : jsval) : bool :=
  match v with JNum _ => true | _ => false end.


(** The idle delay that ends a cycle of the mining loop. *)
Definition is_cycle_end (e : event) : bool :=
  match e with Sleep ms => Z.eqb ms 30000 | _ => false end.

(** Cycles of the mining loop a stretch of the trace went through. *)
Definition cycles (tr : list event) : nat := length (List.filter is_cycle_end tr).

(** [t'] comes after [t] in the life of one bot: the same wallet, index and
    session file name, the same server and disk permissions; no session file
    but the bot's own is touched; at most [k] requests were added, and the
    trace grew, by at most [c] cycle ends. *)
Definition frame (k c : nat) (t t' : Task) : Prop :=
  wallet (this t') = wallet (this t)
  /\ botIndex (this t') = botIndex (this t)
  /\ sessionFile (this t') = sessionFile (this t)
  /\ server (world t') = server (world t)
  /\ writable (world t') = writable (world t)
  /\ wallets_txt (world t') = wallets_txt (world t)
  /\ (forall name, name <> sessionFile (this t) ->
                   sessions (world t') !! name = sessions (world t) !! name)
  /\ (exists new, sent (world t') = new ++ sent (world t) /\ (length new <= k)%nat)
  /\ (exists more, trace (world t') = trace (world t) ++ more /\ (cycles more <= c)%nat).

(** Every run of the computation stays within the frame. *)
Definition framed {A} (k c : nat) (m : M Task A) : Prop :=
  forall t, frame k c t (snd (m t)).

(** [acknowledged], with the task the retry wrapper hands back. *)
Definition acknowledged_at (host : Conversions) (finalUpdate : bool) (now : number)
           (t : Task) (increment paid balance : jsval) (t2 : Task) : Prop :=
  exists (t1 : Task) (total response data success : jsval),
    calculateEarnings host now t = (Ok increment, t1)
    /\ validateEarnings host increment = true
    /\ get_prop (currentEarnings (this t)) "total" = Ok total
    /\ get_prop (currentEarnings (this t)) "paid" = Ok paid
    /\ retryRequest
         (api_post (js "/update-balance")
            (balance_payload host (wallet (this t)) total paid finalUpdate increment))
         (js "Balance update") 3 t1 = (Ok response, t2)
    /\ get_prop response "data" = Ok data
    /\ get_prop data "success" = Ok success
    /\ truthy success = true
    /\ get_prop data "balance" = Ok balance.

(** What [updateBalance] does with the reply of the server: the statements
    after [retryRequest], inside the [try]. *)
Definition on_reply (host : Conversions) (finalUpdate : bool) (newEarnings : jsval)
           (response : jsval) : M Task unit :=
  bind (lift (get_prop response "data")) (fun data =>
  bind (lift (get_prop data "success")) (fun success =>
  if truthy success then
    bind (lift (get_prop data "balance")) (fun balance =>
    bind get_state (fun t =>
    bind (lift (get_prop (currentEarnings (this t)) "paid")) (fun paid =>
    bind (set_this (set_currentEarnings
                      (earnings_object
                         balance
                         (if finalUpdate then JNum Num.zero else newEarnings)
                         (if finalUpdate then js_add host paid newEarnings else paid))))
         (fun _ => bind saveSession (fun _ => logStatus finalUpdate)))))
  else console UpdateRejected)).

(** The [catch] block of [updateBalance]. *)
Definition on_update_error (error : exn) : M Task unit :=
  match error_response error with
  | Some _ => console ApiError
  | None => console UpdateFailed
  end.

(** The line [logStatus] or the [catch] block prints after the snapshot
    [earnings] was installed: the status, unless [toFixed] fails on a field
    that is not a number. *)
Definition status_line (finalUpdate : bool) (earnings : jsval) : log_line :=
  match get_prop earnings "total", get_prop earnings "pending",
        get_prop earnings "paid" with
  | Ok (JNum _), Ok (JNum _), Ok (JNum _) => Status finalUpdate
  | _, _, _ => UpdateFailed
  end.

(** [response.data.success], as the [if] of [updateBalance] takes it; a
    reply without a data object has none. *)
Definition reply_success (response : jsval) : bool :=
  match get_prop response "data" with
  | Ok data =>
      match get_prop data "success" with
      | Ok success => truthy success
      | Throw _ => false
      end
  | Throw _ => false
  end.

(** The line printed for a reply that does not confirm the update: the
    rejection line, or the failure line when reading [response.data.success]
    throws. *)
Definition rejection_line (response : jsval) : log_line :=
  match get_prop response "data" with
  | Ok data =>
      match get_prop data "success" with
      | Ok _ => UpdateRejected
      | Throw _ => UpdateFailed
      end
  | Throw _ => UpdateFailed
  end.

(** What [initialize] does once the registration is confirmed: the
    statements from [loadSession] on, inside the [try]. *)
Definition on_registered (host : Conversions) (now : number) (ticks : list number)
           (data : jsval) : M Task unit :=
  bind loadSession (fun hasSession =>
  bind (if negb hasSession then
          bind (lift (get_prop data "userData")) (fun userData =>
          bind (lift (get_prop userData "referralBonus")) (fun bonus =>
          bind (set_this (set_referralBonus (js_or bonus (JNum Num.zero)))) (fun _ =>
          bind get_state (fun t =>
          bind (set_this (set_currentEarnings
                            (earnings_object (referralBonus (this t))
                                             (JNum Num.zero) (JNum Num.zero))))
               (fun _ => set_this (set_startTime (JNum now)))))))
        else
          bind get_state (fun t =>
          if negb (truthy (startTime (miningState (this t))))
          then set_this (set_startTime (JNum now))
          else ret tt))
       (fun _ =>
  bind (set_this (set_isActive true)) (fun _ =>
  bind (console (MiningStarted hasSession)) (fun _ =>
  startMiningLoop host ticks)))).

(** The [catch] block of [initialize]. *)
Definition on_init_error (error : exn) : M Task unit :=
  match error_response error with
  | Some _ => console InitHttpError
  | None => console InitFailed
  end.

(** The request of the registration check. *)
Definition registration_request (b : Bot) : request :=
  GET (js "/check-registration?wallet=" ++ wallet b).

(** The bot was made by the constructor: its session file is named after
    its wallet. *)
Definition constructed (b : Bot) : Prop :=
  sessionFile b = js "session_" ++ wallet b ++ js ".json".



(** Whitespace other than the line feed [split] cuts at: what may stand
    around an address on its line, a carriage return included. *)
Definition blank (s : jsstring) : Prop :=
  Forall (fun c => is_space c = true /\ c <> 10%N) s.

(** A line of [wallets.txt]: an address with blanks around it, or blanks
    only. *)
Inductive file_line : Type :=
| AddressLine (pre address post : jsstring)
| BlankLine (spaces : jsstring).

Definition line_text (l : file_line) : jsstring :=
  match l with
  | AddressLine pre address post => pre ++ address ++ post
  | BlankLine spaces => spaces
  end.

Definition line_ok (l : file_line) : Prop :=
  match l with
  | AddressLine pre address post => blank pre /\ wallet_address address /\ blank post
  | BlankLine spaces => blank spaces
  end.

Definition addresses (lines : list file_line) : list jsstring :=
  flat_map (fun l => match l with
                     | AddressLine _ address _ => [address]
                     | BlankLine _ => []
                     end) lines.

(** The text of a file: its lines with a line feed between them. *)
Fixpoint join_lines (lines : list jsstring) : jsstring :=
  match lines with
  | [] => []
  | [l] => l
  | l :: rest => l ++ 10%N :: join_lines rest
  end.


(** A server that credits what the client proposes: every balance update
    is confirmed, with the proposed total as the new balance. *)
Definition credits (srv : list request -> outcome) : Prop :=
  forall url body earnings total history,
    get_prop body "earnings" = Ok earnings ->
    get_prop earnings "total" = Ok total ->
    exists response data success,
      srv (POST url body :: history) = Resolves response
      /\ get_prop response "data" = Ok data
      /\ get_prop data "success" = Ok success
      /\ truthy success = true
      /\ get_prop data "balance" = Ok total.

(** The increment [calculateEarnings] computes at [now] for a bot started
    at [start] with the bonus [bonus]: the accrual of the whole time since
    the start. *)
Definition increment_at (start bonus now : number) : number :=
  accrual (elapsed_seconds now start) hashrate bonus.

(** A total to which the increment of every tick was added in turn. *)
Definition credited_total (start bonus : number) (ticks : list number)
           (total : number) : number :=
  fold_left (fun acc now => Num.add acc (increment_at start bonus now)) ticks total.

(** A server that never confirms an update: whatever it answers, the answer
    carries no truthy [success]. *)
Definition never_confirms (srv : list request -> outcome) : Prop :=
  forall history response, srv history = Resolves response -> reply_success response = false.

(** Against such a server the computation [m] leaves the session files and
    the server alone, and with [bot] set also the bot. *)
Definition unchanged {A} (bot : bool) (m : M Task A) : Prop :=
  forall t,
    never_confirms (server (world t)) ->
    sessions (world (snd (m t))) = sessions (world t)
    /\ server (world (snd (m t))) = server (world t)
    /\ (bot = true -> this (snd (m t)) = this t).

(** The code units [trim] strips, from the grammar of ECMAScript: the
    WhiteSpace units (tab, vertical tab, form feed, space, no-break space,
    the byte order mark and the space separators of Unicode) and the
    LineTerminator units (line feed, carriage return, line and paragraph
    separator). *)
Definition white_space_units : list N :=
  [9; 10; 11; 12; 13; 32; 160; 5760; 8192; 8193; 8194; 8195; 8196; 8197; 8198; 8199;
   8200; 8201; 8202; 8232; 8233; 8239; 8287; 12288; 65279]%N.

Definition white (s : jsstring) : Prop :=
  Forall (fun c => In c white_space_units) s.

(** The line is the address [address] with nothing but white space before
    and after it. *)
Definition carries (line address : jsstring) : Prop :=
  exists pre post,
    line = pre ++ address ++ post
    /\ white pre /\ white post /\ wallet_address address.

(** [wallets] is what is left of [lines], in their order, when each line
    that carries an address is replaced by that address and every other
    line is dropped. *)
Inductive selected : list jsstring -> list jsstring -> Prop :=
| selected_nil : selected [] []
| selected_keep (line address : jsstring) (lines wallets : list jsstring) :
    carries line address -> selected lines wallets ->
    selected (line :: lines) (address :: wallets)
| selected_drop (line : jsstring) (lines wallets : list jsstring) :
    (forall address, ~ carries line address) -> selected lines wallets ->
    selected (line :: lines) wallets.
(** * Properties *)

(** ** Rounding in binary64

    What the accrual needs from IEEE arithmetic: adding one to a
    non-negative double never overflows.  The proof follows the rounding of
    [SFadd]: a right shift that keeps 53 bits, rounding to nearest even, and
    one more shift when the rounded mantissa reaches 2^53. *)

Module Binary64.

Lemma digits_size (p : positive) : digits2_pos p = Pos.size p.
Proof. induction p; simpl; congruence. Qed.

Lemma digits_bounds (p : positive) :
  2 ^ (Zpos (digits2_pos p) - 1) <= Zpos p < 2 ^ Zpos (digits2_pos p).
Proof.
  rewrite digits_size.
  pose proof (Pos.size_gt p) as Hgt. pose proof (Pos.size_le p) as Hle.
  apply Pos2Z.pos_le_pos in Hle. apply Pos2Z.pos_lt_pos in Hgt.
  rewrite Pos2Z.inj_pow in Hle, Hgt.
  replace (Zpos (Pos.size p)) with (Z.succ (Zpos (Pos.size p) - 1)) in Hle by lia.
  rewrite Z.pow_succ_r in Hle by lia. lia.
Qed.

Lemma digits_le (p : positive) (k : Z) :
  0 <= k -> Zpos p < 2 ^ k -> Zpos (digits2_pos p) <= k.
Proof.
  intros Hk H. pose proof (digits_bounds p) as [Hlo _].
  destruct (Z_le_gt_dec (Zpos (digits2_pos p)) k) as [|Hgt]; [assumption|exfalso].
  assert (2 ^ k <= 2 ^ (Zpos (digits2_pos p) - 1)) by (apply Z.pow_le_mono_r; lia).
  lia.
Qed.

Lemma digits_iter_xO (p d : positive) :
  digits2_pos (Pos.iter xO p d) = (digits2_pos p + d)%positive.
Proof.
  induction d using Pos.peano_ind.
  - simpl. lia.
  - rewrite Pos.iter_succ. simpl. rewrite IHd. lia.
Qed.

Lemma iter_xO_value (p d : positive) :
  Zpos (Pos.iter xO p d) = Zpos p * 2 ^ Zpos d.
Proof.
  induction d using Pos.peano_ind.
  - simpl. lia.
  - rewrite Pos.iter_succ, Pos2Z.inj_xO, IHd, Pos2Z.inj_succ, Z.pow_succ_r by lia.
    lia.
Qed.

(** One right shift halves the mantissa and remembers the bit it drops. *)
Lemma shr_1_m (mrs : shr_record) :
  0 <= shr_m mrs -> shr_m (shr_1 mrs) = Z.div2 (shr_m mrs).
Proof. destruct mrs as [[|[p|p|]|p] r s]; simpl; intros; try reflexivity; lia. Qed.

Lemma shr_1_r (mrs : shr_record) :
  0 <= shr_m mrs -> shr_r (shr_1 mrs) = Z.odd (shr_m mrs).
Proof. destruct mrs as [[|[p|p|]|p] r s]; simpl; intros; try reflexivity; lia. Qed.

Lemma shr_1_nonneg (mrs : shr_record) : 0 <= shr_m mrs -> 0 <= shr_m (shr_1 mrs).
Proof.
  intros H. rewrite shr_1_m, Z.div2_spec by lia. apply Z.shiftr_nonneg. lia.
Qed.

Lemma iter_shr_m (p : positive) (mrs : shr_record) :
  0 <= shr_m mrs ->
  shr_m (SpecFloat.iter_pos shr_1 p mrs) = Z.shiftr (shr_m mrs) (Zpos p).
Proof.
  revert mrs. induction p as [p IH|p IH|]; intros mrs H; cbn [SpecFloat.iter_pos].
  - pose proof (shr_1_nonneg mrs H) as H1.
    assert (0 <= shr_m (SpecFloat.iter_pos shr_1 p (shr_1 mrs)))
      by (rewrite IH by lia; apply Z.shiftr_nonneg; lia).
    rewrite !IH, shr_1_m, Z.div2_spec, !Z.shiftr_shiftr by lia. f_equal. lia.
  - assert (0 <= shr_m (SpecFloat.iter_pos shr_1 p mrs))
      by (rewrite IH by lia; apply Z.shiftr_nonneg; lia).
    rewrite !IH, Z.shiftr_shiftr by lia. f_equal. lia.
  - rewrite shr_1_m by lia. apply Z.div2_spec.
Qed.

Lemma iter_shr_r (p : positive) (mrs : shr_record) :
  0 <= shr_m mrs ->
  shr_r (SpecFloat.iter_pos shr_1 p mrs) = Z.testbit (shr_m mrs) (Zpos p - 1).
Proof.
  revert mrs. induction p as [p IH|p IH|]; intros mrs H; cbn [SpecFloat.iter_pos].
  - pose proof (shr_1_nonneg mrs H) as H1.
    assert (0 <= shr_m (SpecFloat.iter_pos shr_1 p (shr_1 mrs)))
      by (rewrite iter_shr_m by lia; apply Z.shiftr_nonneg; lia).
    rewrite IH, iter_shr_m, shr_1_m, Z.div2_spec, Z.shiftr_shiftr, Z.shiftr_spec by lia.
    f_equal. lia.
  - assert (0 <= shr_m (SpecFloat.iter_pos shr_1 p mrs))
      by (rewrite iter_shr_m by lia; apply Z.shiftr_nonneg; lia).
    rewrite IH, iter_shr_m, Z.shiftr_spec by lia. f_equal. lia.
  - rewrite shr_1_r by lia. symmetry. apply Z.bit0_odd.
Qed.

Lemma shiftr_lt (a n k : Z) :
  0 <= a -> 0 <= n -> 0 <= k -> a < 2 ^ (n + k) -> Z.shiftr a n < 2 ^ k.
Proof.
  intros Ha Hn Hk H. rewrite Z.shiftr_div_pow2 by lia.
  apply Z.div_lt_upper_bound; [apply Z.pow_pos_nonneg; lia|].
  rewrite <- Z.pow_add_r by lia. exact H.
Qed.

Lemma round_nearest_even_bounds (m : Z) (l : location) :
  m <= round_nearest_even m l <= m + 1.
Proof. destruct l as [|[]]; simpl; try lia. destruct (Z.even m); lia. Qed.

Lemma round_nearest_even_down (m : Z) (mrs : shr_record) :
  shr_r mrs = false -> round_nearest_even m (loc_of_shr_record mrs) = m.
Proof. destruct mrs as [m' [] []]; simpl; intros; try discriminate; reflexivity. Qed.

(** The second half of [binary_round_aux]: a rounded mantissa [m1] at the
    exponent [f] is packed without overflow when it is below 2^53, or
    when it is 2^53 and there is room for one more shift. *)
Lemma round_aux_tail (m1 f : Z) :
  0 <= m1 -> -1074 <= f ->
  (m1 < 2 ^ 53 /\ f <= 971) \/ (m1 <= 2 ^ 53 /\ f <= 970) ->
  Num.isFinite
    (let '(mrs'', e'') := shr_fexp 53 1024 m1 f loc_Exact in
     match shr_m mrs'' with
     | Z0 => S754_zero false
     | Zpos m =>
         if Z.leb e'' (1024 - 53) then S754_finite false m e''
         else S754_infinity false
     | _ => S754_nan
     end) = true.
Proof.
  intros Hm Hf Hcase. unfold shr_fexp, shr_record_of_loc.
  destruct m1 as [|q|q]; [| |lia].
  - simpl Zdigits2. unfold shr.
    destruct (fexp 53 1024 (0 + f) - f) eqn:E; try reflexivity.
    unfold fexp, emin in E. lia.
  - simpl Zdigits2.
    assert (Hd : Zpos (digits2_pos q) <= 54).
    { apply digits_le; [lia|].
      assert (2 ^ 53 < 2 ^ 54) by (apply Z.pow_lt_mono_r; lia). lia. }
    unfold shr.
    destruct (fexp 53 1024 (Zpos (digits2_pos q) + f) - f) as [|n|n] eqn:E.
    + simpl shr_m. destruct (Z.leb_spec f (1024 - 53)); [reflexivity|lia].
    + assert (Hn : Zpos n = 1 /\ f <= 970).
      { unfold fexp, emin in E.
        destruct Hcase as [[Hlt Hf']|[Hle Hf']]; [|lia].
        assert (Zpos (digits2_pos q) <= 53) by (apply digits_le; lia). lia. }
      destruct Hn as [Hn Hf'].
      assert (n = 1%positive) by lia. subst n. cbn [SpecFloat.iter_pos].
      pose proof (shr_1_m {| shr_m := Zpos q; shr_r := false; shr_s := false |}) as Hs.
      cbn [shr_m] in Hs. specialize (Hs ltac:(lia)).
      destruct (shr_m (shr_1 _)) eqn:Em.
      * reflexivity.
      * destruct (Z.leb_spec (f + 1) (1024 - 53)); [reflexivity|lia].
      * pose proof (Z.div2_nonneg (Zpos q)). lia.
    + simpl shr_m. destruct (Z.leb_spec f (1024 - 53)); [reflexivity|lia].
Qed.

(** Rounding a mantissa that is already aligned: no overflow when the
    value is below 2^1023, or below 2^1024 with the rounding bit clear. *)
Lemma round_aux_finite (mz : positive) (ez : Z) :
  let E := Zpos (digits2_pos mz) + ez in
  let f := fexp 53 1024 E in
  ez <= f ->
  E <= 1023 \/ (E = 1024 /\ ez < f /\ Z.testbit (Zpos mz) (f - ez - 1) = false) ->
  Num.isFinite (binary_round_aux 53 1024 false (Zpos mz) ez loc_Exact) = true.
Proof.
  intros E f Hle Hcase.
  assert (Hf : -1074 <= f /\ E - 53 <= f /\ (f = E - 53 \/ f = -1074))
    by (unfold f, fexp, emin; lia).
  pose proof (digits_bounds mz) as [_ Hhi].
  unfold binary_round_aux, shr_fexp. simpl Zdigits2. fold E. fold f.
  unfold shr at 1. simpl shr_record_of_loc.
  destruct (f - ez) as [|n|n] eqn:En; [| |lia].
  - simpl shr_m. simpl loc_of_shr_record. simpl round_nearest_even.
    apply round_aux_tail; [lia|lia|]. left. split; [|lia].
    assert (2 ^ Zpos (digits2_pos mz) <= 2 ^ 53) by (apply Z.pow_le_mono_r; lia).
    lia.
  - replace (ez + Zpos n) with f by lia.
    set (mrs := SpecFloat.iter_pos shr_1 n _).
    assert (Hm : shr_m mrs = Z.shiftr (Zpos mz) (Zpos n))
      by (unfold mrs; rewrite iter_shr_m by (simpl; lia); reflexivity).
    assert (Hr : shr_r mrs = Z.testbit (Zpos mz) (Zpos n - 1))
      by (unfold mrs; rewrite iter_shr_r by (simpl; lia); reflexivity).
    assert (Hlt : 0 <= shr_m mrs < 2 ^ 53).
    { rewrite Hm. split; [apply Z.shiftr_nonneg; lia|].
      apply shiftr_lt; try lia.
      assert (2 ^ Zpos (digits2_pos mz) <= 2 ^ (Zpos n + 53))
        by (apply Z.pow_le_mono_r; lia).
      lia. }
    pose proof (round_nearest_even_bounds (shr_m mrs) (loc_of_shr_record mrs)) as Hb.
    apply round_aux_tail; [lia|lia|].
    destruct Hcase as [H1023|(H1024 & _ & Hbit)].
    + right. split; lia.
    + left. split; [|lia].
      rewrite round_nearest_even_down; [lia|].
      rewrite Hr. exact Hbit.
Qed.

Lemma binary_round_finite (p : positive) (ex : Z) :
  let E := Zpos (digits2_pos p) + ex in
  let f := fexp 53 1024 E in
  E <= 1023 \/ (E = 1024 /\ ex < f /\ Z.testbit (Zpos p) (f - ex - 1) = false) ->
  Num.isFinite (binary_round 53 1024 false p ex) = true.
Proof.
  intros E f Hcase. unfold binary_round, shl_align. fold E. fold f.
  destruct (f - ex) as [|n|d] eqn:Ed.
  - apply round_aux_finite; fold E; fold f; [lia|].
    destruct Hcase as [H|(_ & H & _)]; [left; exact H|lia].
  - apply round_aux_finite; fold E; fold f; [lia|rewrite Ed; exact Hcase].
  - assert (HE : Zpos (digits2_pos (Pos.iter xO p d)) + f = E)
      by (rewrite digits_iter_xO; unfold E; lia).
    apply round_aux_finite; rewrite HE; fold f; [lia|].
    destruct Hcase as [H|(_ & H & _)]; [left; exact H|lia].
Qed.

Lemma bounded_facts (m : positive) (e : Z) :
  bounded 53 1024 m e = true -> Zpos m < 2 ^ 53 /\ -1074 <= e <= 971.
Proof.
  unfold bounded, canonical_mantissa, fexp, emin. intros H.
  apply andb_prop in H as [H1 H2]. apply Z.eqb_eq in H1. apply Z.leb_le in H2.
  pose proof (digits_bounds m) as [_ Hhi].
  assert (Zpos (digits2_pos m) <= 53) by lia.
  assert (2 ^ Zpos (digits2_pos m) <= 2 ^ 53) by (apply Z.pow_le_mono_r; lia).
  lia.
Qed.

(** [1 + b] for a positive double [b = m * 2^e]. *)
Lemma one_plus_positive_finite (m : positive) (e : Z) :
  bounded 53 1024 m e = true ->
  Num.isFinite (Num.add Num.one (S754_finite false m e)) = true.
Proof.
  intros Hb. apply bounded_facts in Hb as [Hm He].
  change Num.one with (S754_finite false 4503599627370496 (-52)).
  unfold Num.add, SFadd, cond_Zopp.
  destruct (Z_lt_le_dec e (-52)) as [Hlt|Hge].
  - rewrite Z.min_r by lia. unfold shl_align.
    destruct (e - -52) as [|n|d] eqn:Ed; try lia.
    replace (e - e) with 0 by lia. cbn [fst].
    rewrite Pos2Z.add_pos_pos. cbn [binary_normalize].
    set (p := (Pos.iter xO 4503599627370496 d + m)%positive).
    assert (Hp : Zpos p = 2 ^ 52 * 2 ^ Zpos d + Zpos m)
      by (unfold p; rewrite Pos2Z.inj_add, iter_xO_value; reflexivity).
    apply binary_round_finite. left.
    assert (Hd : Zpos (digits2_pos p) <= Zpos d + 53).
    { apply digits_le; [lia|]. rewrite Hp.
      rewrite (Z.pow_add_r 2 (Zpos d) 53) by lia.
      assert (2 ^ 1 <= 2 ^ Zpos d) by (apply Z.pow_le_mono_r; lia).
      change (2 ^ 53) with 9007199254740992 in *.
      change (2 ^ 52) with 4503599627370496.
      change (2 ^ 1) with 2 in *. lia. }
    lia.
  - rewrite Z.min_l by lia.
    assert (Hsum : exists p,
               Zpos p = 2 ^ 52 + Zpos m * 2 ^ (e + 52) /\
               Zpos (fst (shl_align 4503599627370496 (-52) (-52)))
               + Zpos (fst (shl_align m e (-52))) = Zpos p).
    { unfold shl_align. replace (-52 - -52) with 0 by lia. cbn [fst].
      destruct (-52 - e) as [|n|d] eqn:Ed; try lia.
      - exists (4503599627370496 + m)%positive. cbn [fst]. split; [|reflexivity].
        replace (e + 52) with 0 by lia. rewrite Pos2Z.inj_add. simpl (2 ^ 0). lia.
      - exists (4503599627370496 + Pos.iter xO m d)%positive. cbn [fst].
        split; [|reflexivity].
        rewrite Pos2Z.inj_add, iter_xO_value.
        replace (e + 52) with (Zpos d) by lia. reflexivity. }
    destruct Hsum as (p & Hp & ->). cbn [binary_normalize].
    apply binary_round_finite.
    set (P2 := 2 ^ (e + 52)) in *.
    assert (HP2 : 1 <= P2)
      by (assert (0 < 2 ^ (e + 52)) by (apply Z.pow_pos_nonneg; lia); unfold P2; lia).
    assert (Hd : Zpos (digits2_pos p) <= e + 106).
    { apply digits_le; [lia|]. rewrite Hp.
      replace (e + 106) with (e + 52 + 54) by lia. rewrite Z.pow_add_r by lia.
      fold P2.
      change (2 ^ 53) with 9007199254740992 in *.
      change (2 ^ 52) with 4503599627370496.
      change (2 ^ 54) with 18014398509481984. nia. }
    destruct (Z_le_gt_dec e 0) as [He0|He0]; [left; lia|].
    assert (Hd' : Zpos (digits2_pos p) <= e + 105).
    { apply digits_le; [lia|]. rewrite Hp.
      replace (e + 105) with (e + 52 + 53) by lia. rewrite Z.pow_add_r by lia.
      fold P2.
      assert (2 ^ 53 <= P2) by (apply Z.pow_le_mono_r; lia).
      change (2 ^ 53) with 9007199254740992 in *.
      change (2 ^ 52) with 4503599627370496.
      nia. }
    destruct (Z_le_gt_dec (Zpos (digits2_pos p) + -52) 1023) as [|Hbig];
      [left; assumption|].
    right. assert (e = 971) by lia. subst e.
    assert (HE : Zpos (digits2_pos p) + -52 = 1024) by lia.
    rewrite HE. split; [reflexivity|]. split; [reflexivity|].
    change (fexp 53 1024 1024 - -52 - 1) with 1022.
    apply Z.testbit_false; [lia|].
    rewrite Hp. unfold P2. change (971 + 52) with 1023.
    replace (2 ^ 52 + Zpos m * 2 ^ 1023) with (2 * Zpos m * 2 ^ 1022 + 2 ^ 52).
    2:{ change 1023 with (Z.succ 1022). rewrite Z.pow_succ_r by lia. lia. }
    rewrite Z.div_add_l by (apply Z.pow_nonzero; lia).
    rewrite (Z.div_small (2 ^ 52)).
    2:{ split; [apply Z.pow_nonneg; lia|apply Z.pow_lt_mono_r; lia]. }
    rewrite Z.add_0_r, Z.mul_comm, Z.mod_mul; lia.
Qed.

End Binary64.

(** Adding one to a double that is finite and not negative gives a finite
    number. *)
Lemma one_plus_finite (b : number) :
  Num.valid b = true -> nonneg_finite b -> Num.isFinite (Num.add Num.one b) = true.
Proof.
  intros Hv Hb. destruct b as [s|s| |s m e]; try contradiction.
  - reflexivity.
  - simpl in Hb. subst s. apply Binary64.one_plus_positive_finite. exact Hv.
Qed.

(** ** The constants *)

Example hashrate_value : hashrate = S754_finite false 5312840185413632 (-46).
Proof. reflexivity. Qed.

(** [0.0001] is 0x1.a36e2eb1c432dp-14. *)
Example base_factor_value :
  base_factor = S754_finite false 7378697629483821 (-66).
Proof. reflexivity. Qed.

Example constants_valid :
  Num.valid hashrate = true /\ Num.valid base_factor = true
  /\ Num.valid Num.one = true /\ Num.valid (Num.of_Z 1000) = true.
Proof. repeat split. Qed.

(** ** Validation *)

Lemma validateEarnings_number (host : Conversions) (x : number) :
  validateEarnings host (JNum x)
  = negb (Num.isNaN x) && Num.isFinite x && Num.geb x Num.zero.
Proof. reflexivity. Qed.

Lemma validateEarnings_nonneg_finite (host : Conversions) (v : jsval) :
  validateEarnings host v = true <-> exists x, v = JNum x /\ nonneg_finite x.
Proof.
  split.
  - intros H. destruct v; try (vm_compute in H; discriminate).
    rewrite validateEarnings_number in H. exists x. split; [reflexivity|].
    destruct x as [[]|[]| |[] m e]; simpl in *; try discriminate; auto.
  - intros (x & -> & Hx). rewrite validateEarnings_number.
    destruct x as [[]|[]| |[] m e]; simpl in *; try contradiction;
      try discriminate; reflexivity.
Qed.

(** C4. [validateEarnings] accepts a value exactly when it is a number that
    is not NaN, is finite and is at least zero: it accepts both zeros and
    every positive finite number, and rejects NaN, every negative number,
    both infinities and everything that is not a number. *)
Theorem validateEarnings_iff (host : Conversions) (v : jsval) :
  (validateEarnings host v = true <->
   exists x, v = JNum x /\ Num.isNaN x = false /\ Num.isFinite x = true
             /\ Num.geb x Num.zero = true)
  /\ validateEarnings host (JNum Num.zero) = true
  /\ validateEarnings host (JNum Num.neg_zero) = true
  /\ (forall m e, validateEarnings host (JNum (S754_finite false m e)) = true)
  /\ validateEarnings host (JNum Num.nan) = false
  /\ (forall m e, validateEarnings host (JNum (S754_finite true m e)) = false)
  /\ validateEarnings host (JNum Num.infinity) = false
  /\ validateEarnings host (JNum Num.neg_infinity) = false.
Proof.
  split; [|repeat split; reflexivity].
  split.
  - intros H. destruct v; try (vm_compute in H; discriminate).
    rewrite validateEarnings_number in H. exists x.
    destruct (Num.isNaN x), (Num.isFinite x), (Num.geb x Num.zero);
      simpl in H; try discriminate; auto.
  - intros (x & -> & Hn & Hf & Hg).
    rewrite validateEarnings_number, Hn, Hf, Hg. reflexivity.
Qed.

(** ** Accrual *)

Lemma mul_zero_finite (z y : number) :
  Num.isZero z = true -> Num.isFinite y = true -> Num.isZero (Num.mul z y) = true.
Proof.
  destruct z; try discriminate. destruct y; try discriminate; reflexivity.
Qed.

Lemma accrual_zero (t b : number) :
  Num.isZero t = true ->
  Num.valid b = true -> nonneg_finite b ->
  Num.isZero (accrual t hashrate b) = true.
Proof.
  intros Ht Hv Hb. unfold accrual.
  apply mul_zero_finite; [|apply one_plus_finite; assumption].
  apply mul_zero_finite; [|reflexivity].
  destruct t; try discriminate. reflexivity.
Qed.

Lemma elapsed_same_instant (sign : bool) (m : positive) (e : Z) :
  elapsed_seconds (S754_finite sign m e) (S754_finite sign m e) = Num.zero.
Proof.
  unfold elapsed_seconds, Num.sub, SFsub.
  replace (_ - _) with 0 by (destruct sign; simpl; lia).
  reflexivity.
Qed.

Lemma calculateEarnings_no_start (host : Conversions) (now : number) (t : Task) :
  truthy (startTime (miningState (this t))) = false ->
  calculateEarnings host now t
  = (Ok (JNum Num.zero),
     {| this := this t; world := emit_in (Log MissingStartTime) (world t) |}).
Proof.
  intros H. unfold calculateEarnings, bind, get_state. rewrite H. reflexivity.
Qed.

Lemma calculateEarnings_started (host : Conversions) (now : number) (t : Task) :
  truthy (startTime (miningState (this t))) = true ->
  calculateEarnings host now t
  = (Ok (js_mul host
           (js_mul host
              (js_mul host (JNum hashrate)
                 (js_div host (js_sub host (JNum now) (startTime (miningState (this t))))
                    (JNum (Num.of_Z 1000))))
              (JNum base_factor))
           (js_add host (JNum Num.one) (referralBonus (this t)))), t).
Proof.
  intros H. unfold calculateEarnings, bind, get_state. rewrite H. reflexivity.
Qed.

(** C3, as stated, fails for the bonus [Infinity], which is not below
    zero: at an elapsed time of zero the product is [0 * Infinity], so the
    result is NaN and not 0. *)
Lemma accrual_counterexample :
  Num.geb Num.infinity Num.zero = true
  /\ referralBonus (this Ex.unbounded_bonus_task) = JNum Num.infinity
  /\ Num.isZero (elapsed_seconds Ex.clock0 (Num.of_Z 1000000)) = true
  /\ calculateEarnings Ex.host Ex.clock0 Ex.unbounded_bonus_task
     = (Ok (JNum Num.nan), Ex.unbounded_bonus_task)
  /\ accrual (elapsed_seconds Ex.clock0 (Num.of_Z 1000000)) hashrate Num.infinity
     = Num.nan
  /\ Num.isZero Num.nan = false.
Proof. repeat split; vm_compute; reflexivity. Qed.

Lemma accrual_unbounded (t r : number) :
  Num.isZero t = true -> Num.valid r = true -> Num.isFinite r = true ->
  accrual t r Num.infinity = Num.nan.
Proof.
  intros Ht Hv Hr. unfold accrual.
  assert (Hz : Num.isZero (Num.mul (Num.mul r t) base_factor) = true).
  { destruct t as [st| | |]; try discriminate.
    destruct r as [sr|sr| |sr mr er]; try discriminate; reflexivity. }
  destruct (Num.mul (Num.mul r t) base_factor) as [sz| | |]; try discriminate.
  destruct sz; reflexivity.
Qed.

(** C3, amended. With a start time [s] and a numeric bonus [b],
    [calculateEarnings] returns [r * t * k * (1 + b)] computed on doubles
    from left to right, [t] being the seconds elapsed since [s], whatever
    the sign of [t] and [b].  At an elapsed time of zero the result is zero
    for every finite bonus that is not negative, and NaN for the bonus
    [Infinity].  Without a start time ([null], or any falsy value) the
    result is exactly 0. *)
Theorem calculateEarnings_accrual (host : Conversions) (now : number) (t : Task) :
  (startTime (miningState (this t)) = JNull ->
   fst (calculateEarnings host now t) = Ok (JNum Num.zero))
  /\ (truthy (startTime (miningState (this t))) = false ->
      fst (calculateEarnings host now t) = Ok (JNum Num.zero))
  /\ (forall s b,
        startTime (miningState (this t)) = JNum s ->
        truthy (JNum s) = true ->
        referralBonus (this t) = JNum b ->
        calculateEarnings host now t
        = (Ok (JNum (accrual (elapsed_seconds now s) hashrate b)), t)
        /\ accrual (elapsed_seconds now s) hashrate b
           = Num.mul (Num.mul (Num.mul hashrate (elapsed_seconds now s)) base_factor)
                     (Num.add Num.one b)
        /\ (Num.isZero (elapsed_seconds now s) = true ->
            Num.valid b = true -> nonneg_finite b ->
            Num.isZero (accrual (elapsed_seconds now s) hashrate b) = true)
        /\ (Num.isZero (elapsed_seconds now s) = true ->
            b = Num.infinity ->
            accrual (elapsed_seconds now s) hashrate b = Num.nan)).
Proof.
  split; [|split].
  - intros Hs. rewrite calculateEarnings_no_start; [reflexivity|].
    rewrite Hs. reflexivity.
  - intros Hs. rewrite calculateEarnings_no_start; [reflexivity|exact Hs].
  - intros s b Hs Ht Hb. split; [|split; [reflexivity|split]].
    + rewrite calculateEarnings_started by (rewrite Hs; exact Ht).
      rewrite Hs, Hb. reflexivity.
    + apply accrual_zero.
    + intros Hz ->. apply accrual_unbounded; [exact Hz|reflexivity|reflexivity].
Qed.

Lemma calculateEarnings_accrual_witness :
  calculateEarnings Ex.host Ex.clock30 (Ex.fresh_task Ex.offline)
  = (Ok (JNum (S754_finite false 4590293920197378 (-54))), Ex.fresh_task Ex.offline)
  /\ calculateEarnings Ex.host Ex.clock0 (Ex.fresh_task Ex.offline)
     = (Ok (JNum Num.zero), Ex.fresh_task Ex.offline)
  /\ fst (calculateEarnings Ex.host Ex.clock0 Ex.unbounded_bonus_task) = Ok (JNum Num.nan)
  /\ fst (calculateEarnings Ex.host Ex.clock0
            {| this := new_KaleidoMiningBot Ex.wallet1 1;
               world := Ex.world_with Ex.offline ∅ |})
     = Ok (JNum Num.zero).
Proof.
  destruct (calculateEarnings_accrual Ex.host Ex.clock30 (Ex.fresh_task Ex.offline))
    as (_ & _ & H30).
  destruct (H30 Ex.clock0 Ex.eighth eq_refl eq_refl eq_refl) as (Hrun30 & _).
  destruct (calculateEarnings_accrual Ex.host Ex.clock0 (Ex.fresh_task Ex.offline))
    as (_ & _ & H0).
  destruct (H0 Ex.clock0 Ex.eighth eq_refl eq_refl eq_refl) as (Hrun0 & _ & Hzero & _).
  destruct (calculateEarnings_accrual Ex.host Ex.clock0 Ex.unbounded_bonus_task)
    as (_ & _ & Hinf).
  destruct (Hinf Ex.clock0 Num.infinity eq_refl eq_refl eq_refl)
    as (Hruninf & _ & _ & Hnan).
  destruct (calculateEarnings_accrual Ex.host Ex.clock0
              {| this := new_KaleidoMiningBot Ex.wallet1 1;
                 world := Ex.world_with Ex.offline ∅ |}) as (Hnull & _ & _).
  split; [rewrite Hrun30; vm_compute; reflexivity|].
  split; [rewrite Hrun0; vm_compute; reflexivity|].
  split; [rewrite Hruninf, (Hnan eq_refl eq_refl); reflexivity|].
  apply Hnull. reflexivity.
Defined.

(** ** A rejected increment *)

(** C5. When the computed increment fails [validateEarnings], [updateBalance]
    gives the cycle up: no request is sent, nothing is retried or written,
    the bot is unchanged, and only the error line is printed. *)
Theorem updateBalance_invalid_earnings
        (host : Conversions) (finalUpdate : bool) (now : number) (t : Task)
        (increment : jsval) (t1 : Task) :
  calculateEarnings host now t = (Ok increment, t1) ->
  validateEarnings host increment = false ->
  updateBalance host finalUpdate now t
  = (Ok tt, {| this := this t; world := emit_in (Log InvalidEarnings) (world t) |})
  /\ let t' := snd (updateBalance host finalUpdate now t) in
     this t' = this t
     /\ sent (world t') = sent (world t)
     /\ sessions (world t') = sessions (world t)
     /\ trace (world t') = trace (world t) ++ [Log InvalidEarnings].
Proof.
  intros Hcalc Hbad.
  assert (Ht1 : t1 = t).
  { destruct (truthy (startTime (miningState (this t)))) eqn:Hs.
    - rewrite calculateEarnings_started in Hcalc by exact Hs. congruence.
    - rewrite calculateEarnings_no_start in Hcalc by exact Hs.
      injection Hcalc as <- _. discriminate Hbad. }
  subst t1.
  assert (Hrun : updateBalance host finalUpdate now t
                 = (Ok tt, {| this := this t;
                              world := emit_in (Log InvalidEarnings) (world t) |})).
  { unfold updateBalance, try_catch, bind. rewrite Hcalc, Hbad. reflexivity. }
  rewrite Hrun. repeat split; reflexivity.
Qed.

Lemma updateBalance_invalid_earnings_witness :
  updateBalance Ex.host false Ex.clock0 Ex.skewed_task
  = (Ok tt, {| this := this Ex.skewed_task;
               world := emit_in (Log InvalidEarnings) (world Ex.skewed_task) |}).
Proof.
  eapply (updateBalance_invalid_earnings Ex.host false Ex.clock0 Ex.skewed_task).
  - vm_compute. reflexivity.
  - vm_compute. reflexivity.
Defined.

(** ** What a method leaves alone *)

Lemma http_this (r : request) (t : Task) : this (snd (http r t)) = this t.
Proof. unfold http. destruct (server _ _); reflexivity. Qed.

Lemma retry_loop_this (requestFn : M Task jsval) (name : jsstring) (retries : nat) :
  (forall t, this (snd (requestFn t)) = this t) ->
  forall left i t, this (snd (retry_loop requestFn name retries left i t)) = this t.
Proof.
  intros Hreq. induction left as [|left IH]; intros i t; [reflexivity|].
  cbn [retry_loop]. unfold try_catch.
  specialize (Hreq t).
  destruct (requestFn t) as [[v|e] t1]; simpl in Hreq; [exact Hreq|].
  destruct (Nat.eqb i (retries - 1)); [exact Hreq|].
  unfold bind, console, emit, modify. simpl. rewrite IH. simpl. exact Hreq.
Qed.

Lemma retryRequest_this (requestFn : M Task jsval) (name : jsstring)
      (retries : nat) (t : Task) :
  (forall t, this (snd (requestFn t)) = this t) ->
  this (snd (retryRequest requestFn name retries t)) = this t.
Proof. intros H. apply retry_loop_this. exact H. Qed.

Lemma saveSession_this (t : Task) :
  fst (saveSession t) = Ok tt /\ this (snd (saveSession t)) = this t.
Proof.
  unfold saveSession, bind, get_state, try_catch, write_json, console, emit, modify.
  destruct (writable (world t) (sessionFile (this t))); split; reflexivity.
Qed.

Lemma toFixed_state (x : jsval) (t : Task) : snd (toFixed x t) = t.
Proof. destruct x; reflexivity. Qed.

Lemma logStatus_this (final : bool) (t : Task) :
  this (snd (logStatus final t)) = this t.
Proof.
  unfold logStatus, bind, get_state, lift, console, emit, modify.
  destruct (get_prop (currentEarnings (this t)) "total") as [v|e]; [|reflexivity].
  pose proof (toFixed_state v t) as H.
  destruct (toFixed v t) as [[[]|e] t1]; simpl in H; subst t1; [|reflexivity].
  destruct (get_prop (currentEarnings (this t)) "pending") as [v2|e]; [|reflexivity].
  pose proof (toFixed_state v2 t) as H.
  destruct (toFixed v2 t) as [[[]|e] t1]; simpl in H; subst t1; [|reflexivity].
  destruct (get_prop (currentEarnings (this t)) "paid") as [v3|e]; [|reflexivity].
  pose proof (toFixed_state v3 t) as H.
  destruct (toFixed v3 t) as [[[]|e] t1]; simpl in H; subst t1; reflexivity.
Qed.

(** [calculateEarnings] returns, and leaves the bot as it was. *)
Lemma calculateEarnings_total (host : Conversions) (now : number) (t : Task) :
  exists v t1, calculateEarnings host now t = (Ok v, t1) /\ this t1 = this t.
Proof.
  unfold calculateEarnings, bind, get_state, console, emit, modify, ret.
  destruct (negb _); simpl; eauto.
Qed.

Lemma update_handler_this (error : exn) (t : Task) :
  this (snd (match error_response error with
             | Some _ => console ApiError
             | None => console UpdateFailed
             end t)) = this t.
Proof. destruct (error_response error); reflexivity. Qed.

(** [updateBalance] catches whatever is thrown inside it. *)
Lemma updateBalance_returns (host : Conversions) (finalUpdate : bool)
      (now : number) (t : Task) :
  fst (updateBalance host finalUpdate now t) = Ok tt.
Proof.
  unfold updateBalance, try_catch.
  match goal with |- context [match ?body t with _ => _ end] =>
    destruct (body t) as [[[]|e] t'] end; [reflexivity|].
  destruct (error_response e); reflexivity.
Qed.

(** ** The two ways an update ends *)

Lemma updateBalance_acknowledged
      (host : Conversions) (finalUpdate : bool) (now : number) (t : Task)
      (increment paid balance : jsval) :
  acknowledged host finalUpdate now t increment paid balance ->
  this (snd (updateBalance host finalUpdate now t))
  = set_currentEarnings (merged_earnings host finalUpdate increment paid balance) (this t).
Proof.
  intros (t1 & t2 & total & response & data & success & Hcalc & Hvalid & Htotal
          & Hpaid & Hretry & Hdata & Hsucc & Htruthy & Hbal).
  destruct (calculateEarnings_total host now t) as (v & t1' & Hc & Ht1).
  rewrite Hcalc in Hc. injection Hc as <- <-.
  pose proof (retryRequest_this
                (api_post (js "/update-balance")
                   (balance_payload host (wallet (this t)) total paid finalUpdate increment))
                (js "Balance update") 3 t1 (http_this _)) as Ht2.
  rewrite Hretry in Ht2. simpl in Ht2.
  unfold updateBalance, try_catch.
  unfold bind at 1. rewrite Hcalc. rewrite Hvalid. cbn [negb].
  unfold bind at 1. unfold get_state at 1.
  unfold bind at 1. unfold lift at 1. rewrite Ht1, Htotal.
  unfold bind at 1. unfold lift at 1. rewrite Hpaid.
  unfold bind at 1. rewrite Hretry.
  unfold bind at 1. unfold lift at 1. rewrite Hdata.
  unfold bind at 1. unfold lift at 1. rewrite Hsucc. rewrite Htruthy.
  unfold bind at 1. unfold lift at 1. rewrite Hbal.
  unfold bind at 1. unfold get_state at 1.
  unfold bind at 1. unfold lift at 1. rewrite Ht2, Ht1, Hpaid.
  unfold bind at 1. unfold set_this at 1, modify at 1.
  set (t3 := {| this := _; world := world t2 |}).
  unfold bind at 1.
  destruct (saveSession_this t3) as [Hs1 Hs2].
  destruct (saveSession t3) as [r4 t4]. simpl in Hs1, Hs2. subst r4.
  pose proof (logStatus_this finalUpdate t4) as Hl.
  destruct (logStatus finalUpdate t4) as [[[]|e] t5]; simpl in Hl |- *.
  - rewrite Hl, Hs2. unfold t3. simpl. rewrite Ht2, Ht1. reflexivity.
  - rewrite update_handler_this. simpl. rewrite Hl, Hs2. unfold t3. simpl.
    rewrite Ht2, Ht1. reflexivity.
Qed.

Lemma updateBalance_unacknowledged
      (host : Conversions) (finalUpdate : bool) (now : number) (t : Task) :
  (forall increment paid balance,
      ~ acknowledged host finalUpdate now t increment paid balance) ->
  this (snd (updateBalance host finalUpdate now t)) = this t.
Proof.
  intros Hno.
  destruct (calculateEarnings_total host now t) as (v & t1 & Hcalc & Ht1).
  unfold updateBalance, try_catch.
  unfold bind at 1. rewrite Hcalc.
  destruct (validateEarnings host v) eqn:Hvalid; cbn [negb]; [|exact Ht1].
  unfold bind at 1. unfold get_state at 1.
  unfold bind at 1. unfold lift at 1. rewrite Ht1.
  destruct (get_prop (currentEarnings (this t)) "total") as [total|e0] eqn:Htotal;
    [|rewrite update_handler_this; exact Ht1].
  unfold bind at 1. unfold lift at 1.
  destruct (get_prop (currentEarnings (this t)) "paid") as [paid|e0] eqn:Hpaid;
    [|rewrite update_handler_this; exact Ht1].
  unfold bind at 1.
  pose proof (retryRequest_this
                (api_post (js "/update-balance")
                   (balance_payload host (wallet (this t)) total paid finalUpdate v))
                (js "Balance update") 3 t1 (http_this _)) as Ht2.
  destruct (retryRequest _ _ 3 t1) as [[response|e0] t2] eqn:Hretry; simpl in Ht2;
    [|rewrite update_handler_this; simpl; congruence].
  unfold bind at 1. unfold lift at 1.
  destruct (get_prop response "data") as [data|e0] eqn:Hdata;
    [|rewrite update_handler_this; simpl; congruence].
  unfold bind at 1. unfold lift at 1.
  destruct (get_prop data "success") as [success|e0] eqn:Hsucc;
    [|rewrite update_handler_this; simpl; congruence].
  destruct (truthy success) eqn:Htruthy; [|simpl; congruence].
  unfold bind at 1. unfold lift at 1.
  destruct (get_prop data "balance") as [balance|e0] eqn:Hbal;
    [|rewrite update_handler_this; simpl; congruence].
  exfalso. apply (Hno v paid balance).
  exists t1, t2, total, response, data, success. repeat split; assumption.
Qed.

(** An acknowledged increment is a number, finite and not negative, and
    [paid] is what the snapshot held. *)
Lemma acknowledged_facts
      (host : Conversions) (finalUpdate : bool) (now : number) (t : Task)
      (increment paid balance : jsval) :
  acknowledged host finalUpdate now t increment paid balance ->
  (exists x, increment = JNum x /\ nonneg_finite x)
  /\ get_prop (currentEarnings (this t)) "paid" = Ok paid.
Proof.
  intros (t1 & t2 & total & response & data & success & Hcalc & Hvalid & Htotal
          & Hpaid & _).
  split; [|exact Hpaid].
  apply validateEarnings_nonneg_finite in Hvalid. exact Hvalid.
Qed.

(** ** A successful update *)

(** C1. When the server acknowledges an update, the snapshot afterwards has
    [total] equal to the balance the server returned, [pending] equal to 0
    on a final update and to the increment just computed otherwise, and
    [paid] equal to the old [paid] plus the increment on a final update and
    unchanged otherwise.  Nothing else of the bot changes. *)
Theorem updateBalance_success
        (host : Conversions) (finalUpdate : bool) (now : number) (t : Task)
        (increment paid balance : jsval) :
  acknowledged host finalUpdate now t increment paid balance ->
  let after := this (snd (updateBalance host finalUpdate now t)) in
  get_prop (currentEarnings after) "total" = Ok balance
  /\ get_prop (currentEarnings after) "pending"
     = Ok (if finalUpdate then JNum Num.zero else increment)
  /\ get_prop (currentEarnings after) "paid"
     = Ok (if finalUpdate then js_add host paid increment else paid)
  /\ (forall p x, paid = JNum p -> increment = JNum x ->
                  js_add host paid increment = JNum (Num.add p x))
  /\ miningState after = miningState (this t)
  /\ referralBonus after = referralBonus (this t)
  /\ wallet after = wallet (this t).
Proof.
  intros Hack after. unfold after.
  rewrite (updateBalance_acknowledged _ _ _ _ _ _ _ Hack).
  repeat split.
  intros p x -> ->. reflexivity.
Qed.

(** Runs a concrete update and reads the acknowledgement off it. *)
Ltac run_acknowledged :=
  unfold acknowledged; do 6 eexists;
  repeat (split; [vm_compute; reflexivity|]);
  vm_compute; reflexivity.

Lemma updateBalance_success_witness :
  let after := this (snd (updateBalance Ex.host false Ex.clock30
                            (Ex.fresh_task Ex.crediting))) in
  get_prop (currentEarnings after) "total"
  = Ok (js_add Ex.host (JNum Ex.eighth) Ex.increment30)
  /\ get_prop (currentEarnings after) "pending" = Ok Ex.increment30
  /\ get_prop (currentEarnings after) "paid" = Ok (JNum Num.zero).
Proof.
  assert (Hack : acknowledged Ex.host false Ex.clock30 (Ex.fresh_task Ex.crediting)
                   Ex.increment30 (JNum Num.zero)
                   (js_add Ex.host (JNum Ex.eighth) Ex.increment30))
    by run_acknowledged.
  destruct (updateBalance_success _ _ _ _ _ _ _ Hack) as (H1 & H2 & H3 & _).
  repeat split; assumption.
Defined.

(** ** The invariant [total >= paid] *)

(** C2, as stated, fails: a fresh bot (total 0.125, paid 0) stops after 60
    seconds, the server acknowledges the final update with a balance of 0,
    and the snapshot becomes total 0, pending 0, paid 0 + increment. *)
Lemma total_ge_paid_counterexample :
  acknowledged Ex.host true Ex.clock60 (Ex.fresh_task Ex.zeroing)
    Ex.increment60 (JNum Num.zero) (JNum Num.zero)
  /\ currentEarnings
       (this (snd (updateBalance Ex.host true Ex.clock60 (Ex.fresh_task Ex.zeroing))))
     = earnings_object (JNum Num.zero) (JNum Num.zero)
         (js_add Ex.host (JNum Num.zero) Ex.increment60)
  /\ total_ge_paid Ex.host
       (currentEarnings
          (this (snd (updateBalance Ex.host true Ex.clock60 (Ex.fresh_task Ex.zeroing)))))
     = false.
Proof.
  split; [run_acknowledged|].
  split; vm_compute; reflexivity.
Qed.

(** C2, amended. After an acknowledged update [total >= paid] holds exactly
    when the balance the server returned is at least the new [paid]: the old
    [paid], plus the increment on a final update. *)
Theorem total_ge_paid_after_sync
        (host : Conversions) (finalUpdate : bool) (now : number) (t : Task)
        (increment paid balance : jsval) :
  acknowledged host finalUpdate now t increment paid balance ->
  total_ge_paid host
    (currentEarnings (this (snd (updateBalance host finalUpdate now t))))
  = js_ge host balance (if finalUpdate then js_add host paid increment else paid).
Proof.
  intros Hack. rewrite (updateBalance_acknowledged _ _ _ _ _ _ _ Hack).
  reflexivity.
Qed.

Lemma total_ge_paid_after_sync_witness :
  total_ge_paid Ex.host
    (currentEarnings
       (this (snd (updateBalance Ex.host false Ex.clock30 (Ex.fresh_task Ex.crediting)))))
  = true.
Proof.
  assert (Hack : acknowledged Ex.host false Ex.clock30 (Ex.fresh_task Ex.crediting)
                   Ex.increment30 (JNum Num.zero)
                   (js_add Ex.host (JNum Ex.eighth) Ex.increment30))
    by run_acknowledged.
  rewrite (total_ge_paid_after_sync _ _ _ _ _ _ _ Hack).
  vm_compute. reflexivity.
Defined.

(** ** Stopping *)

(** [stop] returns the [paid] of the snapshot its final update leaves. *)
Lemma stop_result (host : Conversions) (now : number) (t : Task) :
  fst (stop host now t)
  = get_prop (currentEarnings
                (this (snd (updateBalance host true now (switched_off t))))) "paid".
Proof.
  unfold stop. unfold bind at 1. unfold set_this, modify. fold (switched_off t).
  unfold bind at 1.
  pose proof (updateBalance_returns host true now (switched_off t)) as Hr.
  destruct (updateBalance host true now (switched_off t)) as [r t2].
  simpl in Hr. subst r. cbn [snd].
  unfold bind at 1.
  destruct (saveSession_this t2) as [Hs1 Hs2].
  destruct (saveSession t2) as [r t3]. simpl in Hs1, Hs2. subst r.
  unfold bind, get_state, lift. simpl. rewrite Hs2. reflexivity.
Qed.

(** The bot [initialize] produces from the registration answer of
    [Ex.crediting] when there is no session file. *)
Example initialize_fresh :
  this (snd (initialize Ex.host Ex.clock0 []
               {| this := new_KaleidoMiningBot Ex.wallet1 1;
                  world := Ex.world_with Ex.crediting ∅ |}))
  = Ex.fresh_bot.
Proof. vm_compute. reflexivity. Qed.

(** One acknowledged cycle after 30 seconds, then [stop] after 60: the cycle
    leaves [paid] at 0, and [stop] returns 0 plus the increment of the final
    update, which is counted from the start time. *)
Example one_cycle_then_stop :
  let started := snd (initialize Ex.host Ex.clock0 [Ex.clock30]
                        {| this := new_KaleidoMiningBot Ex.wallet1 1;
                           world := Ex.world_with Ex.crediting ∅ |}) in
  get_prop (currentEarnings (this started)) "pending" = Ok Ex.increment30
  /\ get_prop (currentEarnings (this started)) "paid" = Ok (JNum Num.zero)
  /\ fst (stop Ex.host Ex.clock60 started)
     = Ok (js_add Ex.host (JNum Num.zero) Ex.increment60).
Proof. repeat split; vm_compute; reflexivity. Qed.

(** C8, as stated, fails: the fresh bot starts from a total of 0.125, the
    referral bonus.  When no update is ever acknowledged [stop] returns 0;
    when the final update is acknowledged it returns 0 plus the increment;
    neither is 0.125. *)
Lemma stop_fresh_counterexample :
  get_prop (currentEarnings Ex.fresh_bot) "total" = Ok (JNum Ex.eighth)
  /\ fst (stop Ex.host Ex.clock60 (Ex.fresh_task Ex.refusing)) = Ok (JNum Num.zero)
  /\ fst (stop Ex.host Ex.clock60 (Ex.fresh_task Ex.crediting))
     = Ok (js_add Ex.host (JNum Num.zero) Ex.increment60)
  /\ Num.eqb Num.zero Ex.eighth = false
  /\ Num.eqb (to_number Ex.host (js_add Ex.host (JNum Num.zero) Ex.increment60))
             Ex.eighth = false.
Proof. repeat split; vm_compute; reflexivity. Qed.

(** C8, amended. [stop] returns the [paid] of the snapshot: the last [paid]
    plus the final increment when the final update is acknowledged, the last
    [paid] unchanged when it is not.  For a freshly initialized bot the last
    [paid] is 0, so [stop] returns the final increment or 0. *)
Theorem stop_returns_paid
        (host : Conversions) (now : number) (t : Task) (paid : jsval) :
  get_prop (currentEarnings (this t)) "paid" = Ok paid ->
  (forall increment paid' balance,
      acknowledged host true now (switched_off t) increment paid' balance ->
      fst (stop host now t) = Ok (js_add host paid increment)
      /\ (paid = JNum Num.zero ->
          exists x, increment = JNum x /\ nonneg_finite x
                    /\ fst (stop host now t) = Ok (JNum (Num.add Num.zero x))))
  /\ ((forall increment paid' balance,
          ~ acknowledged host true now (switched_off t) increment paid' balance) ->
      fst (stop host now t) = Ok paid).
Proof.
  intros Hpaid. split.
  - intros increment paid' balance Hack.
    destruct (acknowledged_facts _ _ _ _ _ _ _ Hack) as [(x & Hx & Hnn) Hp'].
    simpl in Hp'. rewrite Hpaid in Hp'. injection Hp' as <-.
    assert (Hstop : fst (stop host now t) = Ok (js_add host paid increment)).
    { rewrite stop_result, (updateBalance_acknowledged _ _ _ _ _ _ _ Hack).
      reflexivity. }
    split; [exact Hstop|].
    intros ->. exists x. rewrite Hstop, Hx. repeat split. exact Hnn.
  - intros Hno. rewrite stop_result, (updateBalance_unacknowledged _ _ _ _ Hno).
    exact Hpaid.
Qed.

Lemma stop_returns_paid_witness :
  fst (stop Ex.host Ex.clock60 (Ex.fresh_task Ex.crediting))
  = Ok (js_add Ex.host (JNum Num.zero) Ex.increment60).
Proof.
  assert (Hpaid : get_prop (currentEarnings (this (Ex.fresh_task Ex.crediting))) "paid"
                  = Ok (JNum Num.zero)) by reflexivity.
  assert (Hack : acknowledged Ex.host true Ex.clock60
                   (switched_off (Ex.fresh_task Ex.crediting))
                   Ex.increment60 (JNum Num.zero)
                   (js_add Ex.host (JNum Ex.eighth) Ex.increment60))
    by run_acknowledged.
  destruct (stop_returns_paid Ex.host Ex.clock60 _ _ Hpaid) as [H _].
  destruct (H _ _ _ Hack) as [Hstop _]. exact Hstop.
Defined.

(** ** The retry wrapper *)

Lemma repeat_shift {A} (x : A) (n : nat) (l : list A) :
  repeat x n ++ x :: l = x :: repeat x n ++ l.
Proof. induction n as [|n IH]; simpl; [reflexivity|]. rewrite IH. reflexivity. Qed.

Lemma delays_retry_pauses (name : jsstring) (retries first count : nat) :
  delays (retry_pauses name retries first count)
  = map (fun i => 2000 * (Z.of_nat i + 1)) (seq first count).
Proof.
  revert first. induction count as [|count IH]; intros first; [reflexivity|].
  unfold retry_pauses in *. simpl. unfold delays in *. simpl.
  rewrite IH. reflexivity.
Qed.

Lemma increasing_pauses (first count : nat) :
  increasing (map (fun i => 2000 * (Z.of_nat i + 1)) (seq first count)).
Proof.
  revert first. induction count as [|count IH]; intros first; [exact I|].
  destruct count as [|count]; [exact I|].
  specialize (IH (S first)). simpl in *. split; [lia|exact IH].
Qed.

Lemma http_rejected (r : request) (t : Task) (e : exn) :
  server (world t) (r :: sent (world t)) = Rejects e ->
  http r t = (Throw e, {| this := this t; world := send_in r (world t) |}).
Proof. intros H. unfold http. simpl. rewrite H. reflexivity. Qed.

Lemma http_resolved (r : request) (t : Task) (response : jsval) :
  server (world t) (r :: sent (world t)) = Resolves response ->
  http r t = (Ok response, {| this := this t; world := send_in r (world t) |}).
Proof. intros H. unfold http. simpl. rewrite H. reflexivity. Qed.

(** Every attempt fails: the loop runs [left] more times, pauses between
    them, and rethrows the last error. *)
Lemma retry_loop_all_fail (r : request) (name : jsstring) (retries : nat)
      (errors : nat -> exn) :
  forall (left i : nat) (t : Task),
    (i + left = retries)%nat -> (1 <= left)%nat ->
    (forall k, (k < left)%nat ->
               server (world t) (repeat r (S k) ++ sent (world t))
               = Rejects (errors (i + k)%nat)) ->
    let run := retry_loop (http r) name retries left i t in
    fst run = Throw (errors (retries - 1)%nat)
    /\ this (snd run) = this t
    /\ sent (world (snd run)) = repeat r left ++ sent (world t)
    /\ trace (world (snd run))
       = trace (world t) ++ retry_pauses name retries i (left - 1).
Proof.
  induction left as [|left IH]; intros i t Hsum Hpos Hfail; [lia|].
  cbn [retry_loop]. unfold try_catch.
  pose proof (Hfail O ltac:(lia)) as H0. simpl in H0. rewrite Nat.add_0_r in H0.
  rewrite (http_rejected _ _ _ H0).
  destruct (Nat.eqb_spec i (retries - 1)) as [Hlast|Hmore].
  - assert (left = O) by lia. subst left. simpl.
    repeat split; [congruence|]. rewrite app_nil_r. reflexivity.
  - unfold bind, console, emit, modify. simpl.
    match goal with |- context [retry_loop _ _ _ left (S i) ?t2] =>
      specialize (IH (S i) t2) end.
    simpl in IH.
    destruct IH as (Hres & Hthis & Hsent & Htrace); [lia|lia| |].
    + intros k Hk. specialize (Hfail (S k) ltac:(lia)). simpl in Hfail.
      rewrite repeat_shift. rewrite Hfail. f_equal. f_equal. lia.
    + repeat split; [exact Hres|exact Hthis| |].
      * rewrite Hsent. apply repeat_shift.
      * rewrite Htrace, <- !app_assoc. f_equal.
        destruct left as [|left]; [lia|].
        simpl. rewrite Nat.sub_0_r. reflexivity.
Qed.

(** *** Attempt by attempt, for any request function *)

Lemma retry_loop_step (requestFn : M Task jsval) (name : jsstring)
      (retries left i : nat) (t : Task) :
  retry_loop requestFn name retries (S left) i t
  = match requestFn t with
    | (Ok v, t1) => (Ok v, t1)
    | (Throw e, t1) =>
        if Nat.eqb i (retries - 1) then (Throw e, t1)
        else retry_loop requestFn name retries left (S i) (paused name retries i t1)
    end.
Proof.
  cbn [retry_loop]. unfold try_catch.
  destruct (requestFn t) as [[v|e] t1]; [reflexivity|].
  destruct (Nat.eqb i (retries - 1)); reflexivity.
Qed.

Lemma attempt_from_shift (requestFn : M Task jsval) (name : jsstring)
      (retries i : nat) (t : Task) (j : nat) :
  attempt_from requestFn name retries i t (S j)
  = attempt_from requestFn name retries (S i)
      (paused name retries i (snd (requestFn t))) j.
Proof.
  induction j as [|j IH].
  - cbn [attempt_from]. rewrite Nat.add_0_r. reflexivity.
  - change (attempt_from requestFn name retries i t (S (S j)))
      with (paused name retries (i + S j)
              (snd (requestFn (attempt_from requestFn name retries i t (S j))))).
    rewrite IH. cbn [attempt_from]. rewrite Nat.add_succ_r. reflexivity.
Qed.

(** The first [k] attempts fail, the next one is answered. *)
Lemma retry_loop_succeeds (requestFn : M Task jsval) (name : jsstring) (retries : nat) :
  forall (k left i : nat) (t t' : Task) (response : jsval),
    (i + left = retries)%nat -> (k < left)%nat ->
    (forall j, (j < k)%nat ->
               exists e, fst (requestFn (attempt_from requestFn name retries i t j))
                         = Throw e) ->
    requestFn (attempt_from requestFn name retries i t k) = (Ok response, t') ->
    retry_loop requestFn name retries left i t = (Ok response, t').
Proof.
  induction k as [|k IH]; intros left i t t' response Hsum Hk Hfail Hok;
    (destruct left as [|left]; [lia|]); rewrite retry_loop_step.
  - cbn [attempt_from] in Hok. rewrite Hok. reflexivity.
  - destruct (Hfail 0%nat ltac:(lia)) as [e He]. cbn [attempt_from] in He.
    rewrite attempt_from_shift in Hok.
    assert (Hfail' : forall j, (j < k)%nat ->
               exists e', fst (requestFn
                                 (attempt_from requestFn name retries (S i)
                                    (paused name retries i (snd (requestFn t))) j))
                          = Throw e').
    { intros j Hj. destruct (Hfail (S j) ltac:(lia)) as [e' He'].
      rewrite attempt_from_shift in He'. exists e'. exact He'. }
    destruct (requestFn t) as [[v|e0] t1]; cbn [fst snd] in *; [discriminate He|].
    destruct (Nat.eqb_spec i (retries - 1)) as [Hlast|_]; [lia|].
    apply (IH left (S i)); [lia|lia|exact Hfail'|exact Hok].
Qed.

(** Every attempt fails: the error of the last one comes out of the state
    that attempt left. *)
Lemma retry_loop_fails (requestFn : M Task jsval) (name : jsstring) (retries : nat)
      (errors : nat -> exn) :
  forall (left i : nat) (t : Task),
    (i + left = retries)%nat -> (1 <= left)%nat ->
    (forall j, (j < left)%nat ->
               fst (requestFn (attempt_from requestFn name retries i t j))
               = Throw (errors (i + j)%nat)) ->
    retry_loop requestFn name retries left i t
    = (Throw (errors (retries - 1)%nat),
       snd (requestFn (attempt_from requestFn name retries i t (left - 1)))).
Proof.
  induction left as [|left IH]; intros i t Hsum Hpos Hfail; [lia|].
  rewrite retry_loop_step.
  pose proof (Hfail 0%nat ltac:(lia)) as H0. cbn [attempt_from] in H0.
  rewrite Nat.add_0_r in H0.
  destruct left as [|left].
  - cbn [Nat.sub attempt_from].
    destruct (requestFn t) as [[v|e0] t1]; cbn [fst snd] in *; [discriminate H0|].
    injection H0 as ->.
    destruct (Nat.eqb_spec i (retries - 1)) as [_|Hmore]; [|lia].
    replace (retries - 1)%nat with i by lia. reflexivity.
  - assert (Hfail' : forall j, (j < S left)%nat ->
               fst (requestFn
                      (attempt_from requestFn name retries (S i)
                         (paused name retries i (snd (requestFn t))) j))
               = Throw (errors (S i + j)%nat)).
    { intros j Hj. pose proof (Hfail (S j) ltac:(lia)) as H.
      rewrite attempt_from_shift in H. rewrite H. f_equal. f_equal. lia. }
    replace (S (S left) - 1)%nat with (S left) by lia.
    rewrite attempt_from_shift.
    destruct (requestFn t) as [[v|e0] t1]; cbn [fst snd] in *; [discriminate H0|].
    destruct (Nat.eqb_spec i (retries - 1)) as [Hlast|_]; [lia|].
    rewrite (IH (S i) (paused name retries i t1)); [|lia|lia|exact Hfail'].
    replace (S left - 1)%nat with left by lia. reflexivity.
Qed.

(** Whatever the request function does, the run ends with one of its
    attempts: every attempt before it failed, and it is the last one
    allowed unless it was answered. *)
Lemma retry_loop_run (requestFn : M Task jsval) (name : jsstring) (retries : nat) :
  forall (left i : nat) (t : Task),
    (i + left = retries)%nat -> (1 <= left)%nat ->
    exists k,
      (k < left)%nat
      /\ retry_loop requestFn name retries left i t
         = requestFn (attempt_from requestFn name retries i t k)
      /\ (forall j, (j < k)%nat ->
                    exists e, fst (requestFn (attempt_from requestFn name retries i t j))
                              = Throw e)
      /\ ((k < left - 1)%nat ->
          exists v, fst (requestFn (attempt_from requestFn name retries i t k)) = Ok v).
Proof.
  induction left as [|left IH]; intros i t Hsum Hpos; [lia|].
  rewrite retry_loop_step.
  destruct (requestFn t) as [[v|e0] t1] eqn:Hrun.
  - exists 0%nat. cbn [attempt_from]. rewrite Hrun.
    split; [lia|]. split; [reflexivity|]. split; [intros j Hj; lia|].
    intros _. exists v. reflexivity.
  - destruct (Nat.eqb_spec i (retries - 1)) as [Hlast|Hmore].
    + exists 0%nat. cbn [attempt_from]. rewrite Hrun.
      split; [lia|]. split; [reflexivity|]. split; [intros j Hj; lia|].
      intros Hk. lia.
    + destruct (IH (S i) (paused name retries i t1)) as (k & Hk & Hend & Hfail & Hans);
        [lia|lia|].
      assert (Hshift : forall j,
                 attempt_from requestFn name retries i t (S j)
                 = attempt_from requestFn name retries (S i)
                     (paused name retries i t1) j).
      { intros j. rewrite attempt_from_shift, Hrun. reflexivity. }
      exists (S k). split; [lia|]. rewrite Hshift. split; [exact Hend|]. split.
      * intros [|j] Hj.
        -- exists e0. cbn [attempt_from]. rewrite Hrun. reflexivity.
        -- rewrite Hshift. apply Hfail. lia.
      * intros Hlt. apply Hans. lia.
Qed.

(** An HTTP call is recorded in [sent] and moves nothing else. *)
Lemma http_world (r : request) (s : Task) :
  this (snd (http r s)) = this s
  /\ sessions (world (snd (http r s))) = sessions (world s)
  /\ server (world (snd (http r s))) = server (world s)
  /\ sent (world (snd (http r s))) = r :: sent (world s)
  /\ trace (world (snd (http r s))) = trace (world s).
Proof. unfold http. destruct (server _ _); repeat split. Qed.

(** With an HTTP call for request function, the task in which an attempt
    begins has the earlier attempts in [sent] and the pauses in the trace. *)
Lemma attempt_from_http (r : request) (name : jsstring) (retries i : nat)
      (t : Task) (j : nat) :
  let s := attempt_from (http r) name retries i t j in
  this s = this t
  /\ sessions (world s) = sessions (world t)
  /\ server (world s) = server (world t)
  /\ sent (world s) = repeat r j ++ sent (world t)
  /\ trace (world s) = trace (world t) ++ retry_pauses name retries i j.
Proof.
  induction j as [|j IH].
  - cbn. rewrite app_nil_r. repeat split.
  - cbv zeta in *. destruct IH as (H1 & H2 & H3 & H4 & H5).
    cbn [attempt_from].
    set (s := attempt_from (http r) name retries i t j) in *.
    destruct (http_world r s) as (G1 & G2 & G3 & G4 & G5).
    unfold paused, emit_in. cbn [this world sessions server sent trace].
    rewrite G1, G2, G3, G4, G5, H1, H2, H3, H4, H5.
    do 3 (split; [reflexivity|]). split.
    + cbn [repeat app]. reflexivity.
    + unfold retry_pauses. rewrite seq_S, flat_map_app. cbn [flat_map].
      rewrite app_nil_r, <- !app_assoc. cbn [app]. reflexivity.
Qed.

(** C6. For every request function: when it fails on its first two calls
    and is answered on the third, [retryRequest] with three attempts makes
    exactly these three calls, the second in the state the pause of 2000 ms
    after the first one left and the third in the state the pause of
    4000 ms after the second one left, and returns the answer with the
    state the third call left.  When it fails on every call, [retryRequest]
    with bound [n] makes exactly [n] calls, each one where the pause after
    the previous one ended, and throws the error of the last call from the
    state that call left: no pause follows it.  A pause prints the retry
    line and waits [2000 * i] ms after attempt [i], more after each
    attempt.  With an HTTP call for request function this puts three, or
    [n], requests in [sent] and the pauses in the trace. *)
Theorem retryRequest_attempts
        (requestFn : M Task jsval) (r : request) (name : jsstring) (t : Task) :
  (forall e1 e2 response t1 t2 t3,
      requestFn t = (Throw e1, t1) ->
      requestFn (paused name 3 0 t1) = (Throw e2, t2) ->
      requestFn (paused name 3 1 t2) = (Ok response, t3) ->
      retryRequest requestFn name 3 t = (Ok response, t3))
  /\ (forall (n : nat) (errors : nat -> exn),
         (1 <= n)%nat ->
         (forall j, (j < n)%nat ->
                    fst (requestFn (attempt_start requestFn name n t j))
                    = Throw (errors j)) ->
         retryRequest requestFn name n t
         = (Throw (errors (n - 1)%nat),
            snd (requestFn (attempt_start requestFn name n t (n - 1)))))
  /\ (forall n j,
         attempt_start requestFn name n t 0 = t
         /\ attempt_start requestFn name n t (S j)
            = paused name n j (snd (requestFn (attempt_start requestFn name n t j))))
  /\ (forall n i s,
         this (paused name n i s) = this s
         /\ sent (world (paused name n i s)) = sent (world s)
         /\ sessions (world (paused name n i s)) = sessions (world s)
         /\ trace (world (paused name n i s))
            = trace (world s) ++ [Log (Retrying name (i + 1) n);
                                  Sleep (2000 * (Z.of_nat i + 1))]
         /\ 2000 * (Z.of_nat i + 1) < 2000 * (Z.of_nat (S i) + 1))
  /\ (forall e1 e2 response,
         server (world t) (r :: sent (world t)) = Rejects e1 ->
         server (world t) (r :: r :: sent (world t)) = Rejects e2 ->
         server (world t) (r :: r :: r :: sent (world t)) = Resolves response ->
         let run := retryRequest (http r) name 3 t in
         fst run = Ok response
         /\ sent (world (snd run)) = r :: r :: r :: sent (world t)
         /\ trace (world (snd run))
            = trace (world t) ++ [Log (Retrying name 1 3); Sleep 2000;
                                  Log (Retrying name 2 3); Sleep 4000]
         /\ this (snd run) = this t)
  /\ (forall (n : nat) (errors : nat -> exn),
         (1 <= n)%nat ->
         (forall k, (k < n)%nat ->
                    server (world t) (repeat r (S k) ++ sent (world t))
                    = Rejects (errors k)) ->
         let run := retryRequest (http r) name n t in
         fst run = Throw (errors (n - 1)%nat)
         /\ sent (world (snd run)) = repeat r n ++ sent (world t)
         /\ trace (world (snd run)) = trace (world t) ++ retry_pauses name n 0 (n - 1)
         /\ delays (retry_pauses name n 0 (n - 1))
            = map (fun i => 2000 * (Z.of_nat i + 1)) (seq 0 (n - 1))
         /\ increasing (delays (retry_pauses name n 0 (n - 1)))
         /\ this (snd run) = this t).
Proof.
  split; [|split; [|split; [|split; [|split]]]].
  - intros e1 e2 response t1 t2 t3 H1 H2 H3.
    unfold retryRequest.
    rewrite retry_loop_step, H1. cbn [Nat.eqb Nat.sub].
    rewrite retry_loop_step, H2. cbn [Nat.eqb Nat.sub].
    rewrite retry_loop_step, H3. reflexivity.
  - intros n errors Hn Hfail.
    apply (retry_loop_fails requestFn name n errors n 0 t); [lia|exact Hn|exact Hfail].
  - intros n j. split; reflexivity.
  - intros n i s. repeat split.
    + unfold paused, emit_in. cbn [world trace]. rewrite <- app_assoc. reflexivity.
    + lia.
  - intros e1 e2 response H1 H2 H3.
    unfold retryRequest. cbn [retry_loop]. unfold try_catch.
    rewrite (http_rejected _ _ _ H1). simpl.
    unfold bind, console, emit, modify. simpl.
    rewrite (http_rejected r _ e2) by exact H2. simpl.
    rewrite (http_resolved r _ response) by exact H3. simpl.
    rewrite <- !app_assoc. repeat split; reflexivity.
  - intros n errors Hn Hfail.
    destruct (retry_loop_all_fail r name n errors n 0 t) as (H1 & H2 & H3 & H4);
      [lia|lia|exact Hfail|].
    unfold retryRequest. rewrite delays_retry_pauses.
    repeat split; try assumption.
    apply increasing_pauses.
Qed.

Lemma retryRequest_attempts_witness :
  (let run := retryRequest (Ex.patient (GET (js "/check-registration")))
                (js "Registration check") 3 (Ex.fresh_task Ex.offline) in
   fst run = Ok (JStr (js "done"))
   /\ length (sent (world (snd run))) = 3%nat
   /\ trace (world (snd run))
      = [Log (Retrying (js "Registration check") 1 3); Sleep 2000;
         Log (Retrying (js "Registration check") 2 3); Sleep 4000])
  /\ (let run := retryRequest (http (GET (js "/check-registration")))
                   (js "Registration check") 3 (Ex.fresh_task Ex.flaky) in
      fst run = Ok (JObj [(js "data",
                           JObj [(js "success", JBool true);
                                 (js "balance", JNum Num.one)])])
      /\ length (sent (world (snd run))) = 3%nat
      /\ delays (trace (world (snd run))) = [2000; 4000])
  /\ (let run := retryRequest (http (GET (js "/check-registration")))
                   (js "Registration check") 3 (Ex.fresh_task Ex.offline) in
      fst run = Throw (NetworkError (js "ECONNREFUSED"))
      /\ length (sent (world (snd run))) = 3%nat
      /\ delays (trace (world (snd run))) = [2000; 4000]).
Proof.
  destruct (retryRequest_attempts (Ex.patient (GET (js "/check-registration")))
              (GET (js "/check-registration"))
              (js "Registration check") (Ex.fresh_task Ex.offline))
    as (Hpatient & _ & _ & _ & _ & Hnever).
  destruct (retryRequest_attempts (http (GET (js "/check-registration")))
              (GET (js "/check-registration"))
              (js "Registration check") (Ex.fresh_task Ex.flaky))
    as (_ & _ & _ & _ & Hthird & _).
  split; [|split].
  - pose (q := Ex.patient (GET (js "/check-registration"))).
    pose (t1 := snd (q (Ex.fresh_task Ex.offline))).
    pose (t2 := snd (q (paused (js "Registration check") 3 0 t1))).
    pose (t3 := snd (q (paused (js "Registration check") 3 1 t2))).
    cbv zeta.
    rewrite (Hpatient (NetworkError (js "ETIMEDOUT")) (NetworkError (js "ETIMEDOUT"))
               (JStr (js "done")) t1 t2 t3);
      [|vm_compute; reflexivity..].
    repeat (split; [vm_compute; reflexivity|]); vm_compute; reflexivity.
  - destruct (Hthird (NetworkError (js "ETIMEDOUT")) (NetworkError (js "ETIMEDOUT"))
                _ eq_refl eq_refl eq_refl) as (H1 & H2 & H3 & _).
    cbv zeta. rewrite H1, H2, H3. repeat split.
  - destruct (Hnever 3%nat (fun _ => NetworkError (js "ECONNREFUSED"))
                ltac:(lia) ltac:(intros; reflexivity)) as (H1 & H2 & H3 & _).
    cbv zeta. rewrite H1, H2, H3. repeat split.
Defined.

(** ** The session store *)

Lemma read_json_run (name : jsstring) (t : Task) :
  read_json name t
  = (match sessions (world t) !! name with
     | None => Throw (IOError (js "ENOENT"))
     | Some Unreadable => Throw (IOError (js "EACCES"))
     | Some NotJson => Throw (SyntaxError (js "Unexpected token"))
     | Some (Parsed doc) => Ok doc
     end, t).
Proof.
  unfold read_json. destruct (sessions (world t) !! name) as [[| |doc]|]; reflexivity.
Qed.

(** No file, no readable file, no JSON text, or the JSON text [null]:
    [loadSession] reports that there is no session and changes nothing. *)
Lemma loadSession_absent (t : Task) :
  sessions (world t) !! sessionFile (this t) = None
  \/ sessions (world t) !! sessionFile (this t) = Some Unreadable
  \/ sessions (world t) !! sessionFile (this t) = Some NotJson
  \/ sessions (world t) !! sessionFile (this t) = Some (Parsed JNull) ->
  loadSession t = (Ok false, t).
Proof.
  intros H. unfold loadSession, try_catch, bind, get_state.
  rewrite read_json_run.
  destruct H as [H|[H|[H|H]]]; rewrite H; reflexivity.
Qed.

(** Any other JSON value is taken for a session: its three fields, present
    or not, replace those of the bot. *)
Lemma loadSession_parsed (t : Task) (doc : jsval) :
  sessions (world t) !! sessionFile (this t) = Some (Parsed doc) ->
  doc <> JNull -> doc <> JUndefined ->
  exists start earnings bonus,
    get_prop doc "startTime" = Ok start
    /\ get_prop doc "earnings" = Ok earnings
    /\ get_prop doc "referralBonus" = Ok bonus
    /\ loadSession t
       = (Ok true,
          {| this := set_referralBonus bonus
                       (set_currentEarnings earnings
                          (set_startTime start (this t)));
             world := emit_in (Log SessionLoaded) (world t) |}).
Proof.
  intros Hfile Hnull Hundef.
  unfold loadSession, try_catch, bind, get_state.
  rewrite read_json_run, Hfile.
  destruct doc; try congruence; do 3 eexists; repeat split; reflexivity.
Qed.

(** What [saveSession] does when the file can be written. *)
Lemma saveSession_written (t : Task) :
  writable (world t) (sessionFile (this t)) = true ->
  saveSession t
  = (Ok tt,
     {| this := this t;
        world := store_in (sessionFile (this t))
                   (Parsed (json_reparse
                              (JObj [(js "startTime", startTime (miningState (this t)));
                                     (js "earnings", currentEarnings (this t));
                                     (js "referralBonus", referralBonus (this t))])))
                   (world t) |}).
Proof.
  intros H. unfold saveSession, bind, get_state, try_catch, write_json.
  rewrite H. reflexivity.
Qed.

(** Reading a field of the saved record gives what [JSON] makes of it. *)
Lemma saved_fields (start earnings bonus : jsval) :
  let doc := json_reparse (JObj [(js "startTime", start); (js "earnings", earnings);
                                 (js "referralBonus", bonus)]) in
  get_prop doc "startTime" = Ok (json_reparse start)
  /\ get_prop doc "earnings" = Ok (json_reparse earnings)
  /\ get_prop doc "referralBonus" = Ok (json_reparse bonus).
Proof.
  destruct start, earnings, bonus; repeat split; reflexivity.
Qed.

Lemma json_number_exact (x : number) : json_number x -> json_reparse (JNum x) = JNum x.
Proof. destruct x as [[]|[]| |s m e]; simpl; intros H; try discriminate; try contradiction; reflexivity. Qed.

Lemma session_record_exact (b : Bot) :
  session_record b ->
  json_reparse (startTime (miningState b)) = startTime (miningState b)
  /\ json_reparse (currentEarnings b) = currentEarnings b
  /\ json_reparse (referralBonus b) = referralBonus b.
Proof.
  intros (Hs & (total & pending & paid & He & H1 & H2 & H3) & (bonus & Hb & H4)).
  repeat split.
  - destruct Hs as [->|(s & -> & Hs)]; [reflexivity|apply json_number_exact; exact Hs].
  - rewrite He. unfold earnings_object.
    cbn [json_reparse].
    apply json_number_exact in H1, H2, H3.
    cbn [json_reparse] in H1, H2, H3.
    destruct total as [[]|[]| |s1 m1 e1], pending as [[]|[]| |s2 m2 e2],
             paid as [[]|[]| |s3 m3 e3];
      simpl in *; try discriminate; reflexivity.
  - rewrite Hb. apply json_number_exact. exact H4.
Qed.

(** Saving and loading: the bot [b], in a later run, loads what [t] saved. *)
Lemma save_then_load (t : Task) (b : Bot) :
  writable (world t) (sessionFile (this t)) = true ->
  sessionFile b = sessionFile (this t) ->
  let loaded := loadSession {| this := b; world := world (snd (saveSession t)) |} in
  fst loaded = Ok true
  /\ startTime (miningState (this (snd loaded)))
     = json_reparse (startTime (miningState (this t)))
  /\ currentEarnings (this (snd loaded)) = json_reparse (currentEarnings (this t))
  /\ referralBonus (this (snd loaded)) = json_reparse (referralBonus (this t)).
Proof.
  intros Hw Hname. rewrite (saveSession_written t Hw). cbn [snd world].
  set (doc := json_reparse _).
  destruct (saved_fields (startTime (miningState (this t))) (currentEarnings (this t))
              (referralBonus (this t))) as (H1 & H2 & H3).
  fold doc in H1, H2, H3.
  unfold loadSession, try_catch, bind, get_state.
  rewrite read_json_run. cbn [this world sessions store_in].
  rewrite Hname, lookup_insert_eq.
  unfold lift. rewrite H1. cbn [set_this modify].
  rewrite H2, H3. simpl. repeat split; reflexivity.
Qed.

Lemma http_sessions (r : request) (t : Task) :
  sessions (world (snd (http r t))) = sessions (world t).
Proof. unfold http. destruct (server _ _); reflexivity. Qed.

Lemma retry_loop_sessions (requestFn : M Task jsval) (name : jsstring) (retries : nat) :
  (forall t, sessions (world (snd (requestFn t))) = sessions (world t)) ->
  forall left i t,
    sessions (world (snd (retry_loop requestFn name retries left i t)))
    = sessions (world t).
Proof.
  intros Hreq. induction left as [|left IH]; intros i t; [reflexivity|].
  cbn [retry_loop]. unfold try_catch.
  specialize (Hreq t).
  destruct (requestFn t) as [[v|e] t1]; simpl in Hreq; [exact Hreq|].
  destruct (Nat.eqb i (retries - 1)); [exact Hreq|].
  unfold bind, console, emit, modify. simpl. rewrite IH. simpl. exact Hreq.
Qed.

(** A registered wallet without a session starts afresh: the bonus of the
    registration answer, a snapshot holding only that bonus, the start time
    of the clock. *)
Lemma initialize_without_session
      (host : Conversions) (now : number) (t t1 : Task) (data userData bonus : jsval) :
  registered t t1 data ->
  loadSession t1 = (Ok false, t1) ->
  get_prop data "userData" = Ok userData ->
  get_prop userData "referralBonus" = Ok bonus ->
  this (snd (initialize host now [] t))
  = set_isActive true
      (set_startTime (JNum now)
         (set_currentEarnings
            (earnings_object (js_or bonus (JNum Num.zero)) (JNum Num.zero) (JNum Num.zero))
            (set_referralBonus (js_or bonus (JNum Num.zero)) (this t)))).
Proof.
  intros (regResponse & isRegistered & Hreg & Hdata & Hisreg & Htruthy)
         Hload Huser Hbonus.
  pose proof (retryRequest_this
                (api_get (js "/check-registration?wallet=" ++ wallet (this t)))
                (js "Registration check") 3 t (http_this _)) as Ht1.
  rewrite Hreg in Ht1. simpl in Ht1.
  unfold initialize, try_catch.
  unfold bind at 1. unfold get_state at 1.
  unfold bind at 1. rewrite Hreg.
  unfold bind at 1. unfold lift at 1. rewrite Hdata.
  unfold bind at 1. unfold lift at 1. rewrite Hisreg.
  unfold bind at 1. rewrite Htruthy. cbn [negb]. unfold ret at 1.
  unfold bind at 1. rewrite Hload. cbn [negb].
  unfold bind at 1. unfold bind at 1. unfold lift at 1. rewrite Huser.
  unfold bind at 1. unfold lift at 1. rewrite Hbonus.
  simpl. rewrite Ht1. reflexivity.
Qed.

(** C7, as stated, fails on a file that is JSON but not a session record:
    the file holding the empty object is loaded as a session, the snapshot
    and the bonus become [undefined], [initialize] does not start afresh,
    and the first cycle of the mining loop reports an invalid increment. *)
Lemma loadSession_counterexample :
  sessions (world Ex.empty_object_task) !! sessionFile (this Ex.empty_object_task)
  = Some (Parsed (JObj []))
  /\ ~ well_formed_session (Parsed (JObj []))
  /\ fst (loadSession Ex.empty_object_task) = Ok true
  /\ currentEarnings (this (snd (loadSession Ex.empty_object_task))) = JUndefined
  /\ (let started := snd (initialize Ex.host Ex.clock0 [Ex.clock30] Ex.empty_object_task) in
      currentEarnings (this started) = JUndefined
      /\ referralBonus (this started) = JUndefined
      /\ trace (world started)
         = [Log SessionLoaded; Log (MiningStarted true); Log InvalidEarnings;
            Sleep 30000]).
Proof.
  split; [vm_compute; reflexivity|].
  split; [intros (s & total & pending & paid & bonus & H); discriminate H|].
  repeat split; vm_compute; reflexivity.
Qed.


(** ** Wallets and the fleet *)

Lemma is_hex_spec (c : N) : is_hex c = true <-> In c hex_digits.
Proof.
  split.
  - unfold is_hex. intros H.
    assert (Hc : (48 <= c <= 57 \/ 65 <= c <= 70 \/ 97 <= c <= 102)%N).
    { repeat (apply orb_prop in H as [H|H] || apply andb_prop in H as [? ?]);
        repeat match goal with
               | H : N.leb _ _ = true |- _ => apply N.leb_le in H
               end; lia. }
    assert (Hn : exists n : nat, c = N.of_nat n /\ (n <= 102)%nat)
      by (exists (N.to_nat c); lia).
    destruct Hn as (n & -> & Hn).
    do 103 (destruct n as [|n]; [try (exfalso; lia); simpl; tauto|]).
    lia.
  - intros H. simpl in H.
    repeat (destruct H as [<-|H]; [reflexivity|]). contradiction.
Qed.

Lemma wallet_pattern_spec (line : jsstring) :
  wallet_pattern line = true <-> wallet_address line.
Proof.
  unfold wallet_address. split.
  - intros H. destruct line as [|c1 [|c2 digits]]; try discriminate.
    + destruct c1 as [|p]; [discriminate|].
      do 6 (destruct p; try discriminate).
    + unfold wallet_pattern in H.
      destruct (N.eq_dec c1 48%N) as [->|Hc1].
      2:{ destruct c1 as [|p]; [discriminate|].
          do 6 (destruct p; try discriminate). congruence. }
      destruct (N.eq_dec c2 120%N) as [->|Hc2].
      2:{ destruct c2 as [|p]; [discriminate|].
          do 7 (destruct p; try discriminate). congruence. }
      apply andb_prop in H as [Hlen Hhex].
      exists digits. split; [reflexivity|]. split.
      * apply Nat.eqb_eq. exact Hlen.
      * apply List.Forall_forall. intros c Hc. apply is_hex_spec.
        rewrite List.forallb_forall in Hhex. apply Hhex. exact Hc.
  - intros (digits & -> & Hlen & Hhex). simpl.
    apply andb_true_intro. split.
    + apply Nat.eqb_eq. exact Hlen.
    + apply List.forallb_forall. intros c Hc. apply is_hex_spec.
      rewrite List.Forall_forall in Hhex. apply Hhex. exact Hc.
Qed.

(** Dropping a line leaves no trace: [loadWallets] reads, it does not print. *)
Lemma loadWallets_read (w : World) (data : jsstring) :
  wallets_txt w = Some data ->
  loadWallets w
  = (filter (fun line => wallet_pattern line = true) (map trim (split_on 10 data)), w).
Proof. intros H. unfold loadWallets. rewrite H. reflexivity. Qed.

Lemma loadWallets_emit (e : event) (w : World) :
  fst (loadWallets (emit_in e w)) = fst (loadWallets w).
Proof. unfold loadWallets. simpl. destruct (wallets_txt w); reflexivity. Qed.

(** [start] on a coordinator that is not running, with a wallet found. *)
Lemma start_on_wallets (c : Coordinator) (w : World) :
  isRunning c = false ->
  fst (loadWallets w) <> [] ->
  bots (fst (start_on c w)) = make_bots (fst (loadWallets w))
  /\ isRunning (fst (start_on c w)) = true.
Proof.
  intros Hrun Hsome. unfold start_on. rewrite Hrun.
  rewrite <- (loadWallets_emit (Log Banner) w) in *.
  destruct (loadWallets (emit_in (Log Banner) w)) as [[|address rest] w2];
    simpl in *; [congruence|].
  split; reflexivity.
Qed.

(** [start] on a coordinator that is not running, without any wallet. *)
Lemma start_on_no_wallet (c : Coordinator) (w : World) :
  isRunning c = false ->
  fst (loadWallets w) = [] ->
  start_on c w
  = ({| bots := bots c; totalPaid := totalPaid c; isRunning := true |},
     emit_in (Log NoValidWallets) (snd (loadWallets (emit_in (Log Banner) w)))).
Proof.
  intros Hrun Hnone. unfold start_on. rewrite Hrun.
  rewrite <- (loadWallets_emit (Log Banner) w) in Hnone.
  destruct (loadWallets (emit_in (Log Banner) w)) as [wallets w2].
  simpl in Hnone. subst wallets. reflexivity.
Qed.

Lemma start_on_running (c : Coordinator) (w : World) :
  isRunning c = true -> start_on c w = (c, emit_in (Log AlreadyRunning) w).
Proof. intros H. unfold start_on. rewrite H. reflexivity. Qed.

(** ** A start that finds no wallet *)

(** C10. When [start] finds no wallet (the file cannot be read, or no line
    is an address) the coordinator is left marked as running with the bots
    it had: a fresh coordinator keeps an empty fleet.  Every later [start],
    whatever [wallets.txt] then holds, only prints the warning; and since
    [new MiningCoordinator()] gives the same object back, so does every
    later construct-and-start of the process. *)
Theorem start_without_wallets_is_final (c : Coordinator) (w : World) :
  isRunning c = false ->
  fst (loadWallets w) = [] ->
  let stuck := fst (start_on c w) in
  isRunning stuck = true
  /\ bots stuck = bots c
  /\ (forall w', start_on stuck w' = (stuck, emit_in (Log AlreadyRunning) w'))
  /\ (forall w',
         (start_on stuck w').1 = stuck
         /\ trace (start_on stuck w').2 = trace w' ++ [Log AlreadyRunning])
  /\ (let first := snd (bind new_MiningCoordinator (fun _ => start)
                          {| instance := None; env := w |}) in
      instance first
      = Some {| bots := []; totalPaid := Num.zero; isRunning := true |}
      /\ forall w',
          bind new_MiningCoordinator (fun _ => start)
               {| instance := instance first; env := w' |}
          = (Ok tt, {| instance := instance first;
                       env := emit_in (Log AlreadyRunning) w' |})).
Proof.
  intros Hrun Hnone stuck.
  assert (Hstuck : stuck = {| bots := bots c; totalPaid := totalPaid c;
                              isRunning := true |})
    by (unfold stuck; rewrite (start_on_no_wallet c w Hrun Hnone); reflexivity).
  split; [rewrite Hstuck; reflexivity|].
  split; [rewrite Hstuck; reflexivity|].
  assert (Hlater : forall w', start_on stuck w' = (stuck, emit_in (Log AlreadyRunning) w'))
    by (intros w'; apply start_on_running; rewrite Hstuck; reflexivity).
  split; [exact Hlater|].
  split; [intros w'; rewrite Hlater; split; reflexivity|].
  unfold bind, new_MiningCoordinator, modify, start. simpl.
  rewrite (start_on_no_wallet
             {| bots := []; totalPaid := Num.zero; isRunning := false |} w eq_refl Hnone).
  simpl.
  split; [reflexivity|].
  intros w'. reflexivity.
Qed.

Lemma start_without_wallets_is_final_witness :
  isRunning (fst (start_on Ex.new_coordinator Ex.no_wallets)) = true
  /\ bots (fst (start_on Ex.new_coordinator Ex.no_wallets)) = []
  /\ bots (fst (start_on (fst (start_on Ex.new_coordinator Ex.no_wallets)) Ex.two_lines))
     = [].
Proof.
  destruct (start_without_wallets_is_final Ex.new_coordinator Ex.no_wallets
              eq_refl eq_refl) as (H1 & H2 & H3 & _).
  split; [exact H1|]. split; [exact H2|].
  rewrite H3. exact H2.
Defined.

(** * Further properties *)

(** ** The retry wrapper, in general *)

Lemma retry_pauses_cons (name : jsstring) (retries first count : nat) :
  retry_pauses name retries first (S count)
  = [Log (Retrying name (first + 1) retries); Sleep (2000 * (Z.of_nat first + 1))]
    ++ retry_pauses name retries (S first) count.
Proof. reflexivity. Qed.

(** The first [k] attempts fail and the next one is answered. *)
Lemma retry_loop_answered (r : request) (name : jsstring) (retries : nat)
      (errors : nat -> exn) (response : jsval) :
  forall (k left i : nat) (t : Task),
    (i + left = retries)%nat -> (k < left)%nat ->
    (forall j, (j < k)%nat ->
               server (world t) (repeat r (S j) ++ sent (world t))
               = Rejects (errors (i + j)%nat)) ->
    server (world t) (repeat r (S k) ++ sent (world t)) = Resolves response ->
    let run := retry_loop (http r) name retries left i t in
    fst run = Ok response
    /\ this (snd run) = this t
    /\ sent (world (snd run)) = repeat r (S k) ++ sent (world t)
    /\ trace (world (snd run)) = trace (world t) ++ retry_pauses name retries i k
    /\ sessions (world (snd run)) = sessions (world t).
Proof.
  induction k as [|k IH]; intros left i t Hsum Hk Hfail Hok;
    (destruct left as [|left]; [lia|]); cbn [retry_loop]; unfold try_catch.
  - simpl in Hok. rewrite (http_resolved _ _ _ Hok). simpl.
    rewrite app_nil_r. repeat split; reflexivity.
  - pose proof (Hfail O ltac:(lia)) as H0. simpl in H0. rewrite Nat.add_0_r in H0.
    rewrite (http_rejected _ _ _ H0).
    destruct (Nat.eqb_spec i (retries - 1)) as [Hlast|_]; [lia|].
    unfold bind, console, emit, modify. simpl.
    match goal with |- context [retry_loop _ _ _ left (S i) ?t2] =>
      specialize (IH left (S i) t2) end.
    simpl in IH.
    destruct IH as (Hres & Hthis & Hsent & Htrace & Hfiles); [lia|lia| | |].
    + intros j Hj. specialize (Hfail (S j) ltac:(lia)). simpl in Hfail.
      rewrite repeat_shift, Hfail. f_equal. f_equal. lia.
    + rewrite repeat_shift. exact Hok.
    + repeat split; [exact Hres|exact Hthis| | |exact Hfiles].
      * rewrite Hsent. simpl. f_equal. apply repeat_shift.
      * rewrite Htrace, <- !app_assoc. reflexivity.
Qed.

(** X1. For every request function: when the first [k] attempts fail and
    attempt [k + 1] is answered, with [k + 1] within the bound,
    [retryRequest] returns that answer with the state that attempt left;
    the errors of the failed attempts are dropped.  Each attempt begins in
    the state the pause after the previous one left, so the pauses fall
    between the attempts.  With an HTTP call for request function, exactly
    [k + 1] requests were sent, the pauses of 2000, 4000, ..., [2000 * k] ms
    are in the trace, and neither the bot nor a session file is touched. *)
Theorem retryRequest_first_answer
        (requestFn : M Task jsval) (r : request) (name : jsstring) (n k : nat)
        (t t' : Task) (response : jsval) :
  (k < n)%nat ->
  (forall j, (j < k)%nat ->
             exists e, fst (requestFn (attempt_start requestFn name n t j)) = Throw e) ->
  requestFn (attempt_start requestFn name n t k) = (Ok response, t') ->
  retryRequest requestFn name n t = (Ok response, t')
  /\ (forall j, attempt_start requestFn name n t (S j)
                = paused name n j (snd (requestFn (attempt_start requestFn name n t j))))
  /\ (requestFn = http r ->
      sent (world t') = repeat r (S k) ++ sent (world t)
      /\ trace (world t') = trace (world t) ++ retry_pauses name n 0 k
      /\ delays (retry_pauses name n 0 k)
         = map (fun i => 2000 * (Z.of_nat i + 1)) (seq 0 k)
      /\ this t' = this t
      /\ sessions (world t') = sessions (world t)).
Proof.
  intros Hk Hfail Hok. split; [|split].
  - apply (retry_loop_succeeds requestFn name n k n 0 t t' response);
      [lia|exact Hk|exact Hfail|exact Hok].
  - intros j. reflexivity.
  - intros ->.
    destruct (attempt_from_http r name n 0 t k) as (H1 & H2 & _ & H4 & H5).
    destruct (http_world r (attempt_start (http r) name n t k)) as (G1 & G2 & _ & G4 & G5).
    rewrite Hok in G1, G2, G4, G5. cbn [snd] in G1, G2, G4, G5.
    unfold attempt_start in *.
    rewrite G1, G2, G4, G5, H1, H2, H4, H5, delays_retry_pauses.
    repeat split.
Qed.

Lemma retryRequest_first_answer_witness :
  let run := retryRequest (Ex.patient (GET (js "/check-registration")))
               (js "Registration check") 5 (Ex.fresh_task Ex.offline) in
  fst run = Ok (JStr (js "done"))
  /\ trace (world (snd run))
     = [Log (Retrying (js "Registration check") 1 5); Sleep 2000;
        Log (Retrying (js "Registration check") 2 5); Sleep 4000].
Proof.
  pose (q := Ex.patient (GET (js "/check-registration"))).
  pose (t := Ex.fresh_task Ex.offline).
  destruct (retryRequest_first_answer q (GET (js "/check-registration"))
              (js "Registration check") 5 2 t
              (snd (q (attempt_start q (js "Registration check") 5 t 2)))
              (JStr (js "done")))
    as (H & _).
  - lia.
  - intros j Hj. exists (NetworkError (js "ETIMEDOUT")).
    destruct j as [|[|j]]; [vm_compute; reflexivity|vm_compute; reflexivity|lia].
  - vm_compute. reflexivity.
  - cbv zeta. subst q t. rewrite H. split; vm_compute; reflexivity.
Defined.

(** Whatever the server does, the loop sends between one and [left]
    requests and pauses only between them. *)
Lemma retry_loop_bounded (r : request) (name : jsstring) (retries : nat) :
  forall (left i : nat) (t : Task),
    (i + left = retries)%nat ->
    let run := retry_loop (http r) name retries left i t in
    exists k,
      (k <= left)%nat /\ (1 <= left -> 1 <= k)%nat
      /\ sent (world (snd run)) = repeat r k ++ sent (world t)
      /\ trace (world (snd run)) = trace (world t) ++ retry_pauses name retries i (k - 1).
Proof.
  induction left as [|left IH]; intros i t Hsum.
  - exists 0%nat. simpl. rewrite app_nil_r. repeat split; lia.
  - cbn [retry_loop]. unfold try_catch.
    destruct (server (world t) (r :: sent (world t))) as [response|e] eqn:Hans.
    + rewrite (http_resolved _ _ _ Hans). exists 1%nat. simpl.
      rewrite app_nil_r. repeat split; lia.
    + rewrite (http_rejected _ _ _ Hans).
      destruct (Nat.eqb_spec i (retries - 1)) as [Hlast|Hmore].
      * exists 1%nat. simpl. rewrite app_nil_r. repeat split; lia.
      * unfold bind, console, emit, modify. simpl.
        match goal with |- context [retry_loop _ _ _ left (S i) ?t2] =>
          destruct (IH (S i) t2 ltac:(lia)) as (k & Hle & Hpos & Hsent & Htrace) end.
        simpl in Hsent, Htrace.
        assert (1 <= k)%nat by (apply Hpos; lia).
        exists (S k). repeat split; try lia.
        -- rewrite Hsent. apply repeat_shift.
        -- rewrite Htrace, <- !app_assoc. f_equal.
           destruct k as [|k]; [lia|]. simpl. rewrite Nat.sub_0_r. reflexivity.
Qed.

(** X2. For every request function and whatever it does, [retryRequest]
    with bound [n >= 1] ends with one of its attempts, the result and the
    state being those of that attempt: every attempt before it failed, it
    is within the bound, and it is the last one allowed unless it was
    answered.  Each attempt begins in the state the pause after the
    previous one left, so a pause only occurs between two attempts and
    none follows the last.  With an HTTP call for request function the
    attempts are in [sent], the pauses 2000, 4000, ... in the trace, and
    neither the bot nor the session files are touched.  With [n = 0]
    nothing is called and [undefined] is returned. *)
Theorem retryRequest_bounded
        (requestFn : M Task jsval) (r : request) (name : jsstring) (n : nat) (t : Task) :
  let run := retryRequest requestFn name n t in
  (n = 0%nat -> run = (Ok JUndefined, t))
  /\ ((1 <= n)%nat ->
      exists k,
        (k < n)%nat
        /\ run = requestFn (attempt_start requestFn name n t k)
        /\ (forall j, (j < k)%nat ->
                      exists e, fst (requestFn (attempt_start requestFn name n t j))
                                = Throw e)
        /\ ((k < n - 1)%nat -> exists v, fst run = Ok v)
        /\ (forall j, attempt_start requestFn name n t (S j)
                      = paused name n j
                          (snd (requestFn (attempt_start requestFn name n t j))))
        /\ (requestFn = http r ->
            sent (world (snd run)) = repeat r (S k) ++ sent (world t)
            /\ trace (world (snd run)) = trace (world t) ++ retry_pauses name n 0 k
            /\ delays (retry_pauses name n 0 k)
               = map (fun i => 2000 * (Z.of_nat i + 1)) (seq 0 k)
            /\ increasing (delays (retry_pauses name n 0 k))))
  /\ (requestFn = http r ->
      this (snd run) = this t /\ sessions (world (snd run)) = sessions (world t)).
Proof.
  cbv zeta. split; [|split].
  - intros ->. reflexivity.
  - intros Hn.
    destruct (retry_loop_run requestFn name n n 0 t eq_refl Hn)
      as (k & Hk & Hend & Hfail & Hans).
    exists k. unfold retryRequest, attempt_start.
    split; [exact Hk|]. split; [exact Hend|]. split; [exact Hfail|].
    split; [intros Hlt; rewrite Hend; exact (Hans Hlt)|].
    split; [intros j; reflexivity|].
    intros ->. rewrite Hend.
    destruct (attempt_from_http r name n 0 t k) as (_ & _ & _ & H4 & H5).
    destruct (http_world r (attempt_from (http r) name n 0 t k)) as (_ & _ & _ & G4 & G5).
    rewrite G4, G5, H4, H5, delays_retry_pauses.
    repeat split. apply increasing_pauses.
  - intros ->. split.
    + apply retryRequest_this. apply http_this.
    + apply retry_loop_sessions. apply http_sessions.
Qed.

Lemma retryRequest_bounded_witness :
  retryRequest (http (GET (js "/check-registration"))) (js "Registration check") 0
               (Ex.fresh_task Ex.offline)
  = (Ok JUndefined, Ex.fresh_task Ex.offline)
  /\ sent (world (snd (retryRequest (http (GET (js "/check-registration")))
                         (js "Registration check") 3 (Ex.fresh_task Ex.offline))))
     = repeat (GET (js "/check-registration")) 3.
Proof.
  split.
  - destruct (retryRequest_bounded (http (GET (js "/check-registration")))
                (GET (js "/check-registration"))
                (js "Registration check") 0 (Ex.fresh_task Ex.offline))
      as (H & _).
    apply H. reflexivity.
  - destruct (retryRequest_bounded (http (GET (js "/check-registration")))
                (GET (js "/check-registration"))
                (js "Registration check") 3 (Ex.fresh_task Ex.offline))
      as (_ & H & _).
    destruct (H ltac:(lia)) as (k & Hk & _ & _ & Hans & _ & Hhttp).
    destruct (Hhttp eq_refl) as (Hsent & _).
    assert (Hlast : k = 2%nat).
    { destruct (Nat.lt_ge_cases k 2) as [Hlt|Hge]; [|lia].
      destruct (Hans Hlt) as [v Hv]. vm_compute in Hv. discriminate Hv. }
    rewrite Hsent, Hlast. reflexivity.
Defined.

(** ** What no method of a bot touches *)

Lemma cycles_app (a b : list event) : cycles (a ++ b) = (cycles a + cycles b)%nat.
Proof. unfold cycles. rewrite List.filter_app, length_app. reflexivity. Qed.

Lemma cycles_retry_pauses (name : jsstring) (retries first count : nat) :
  (first + count <= 13)%nat -> cycles (retry_pauses name retries first count) = 0%nat.
Proof.
  revert first. induction count as [|count IH]; intros first Hsmall; [reflexivity|].
  rewrite retry_pauses_cons, cycles_app, IH by lia.
  unfold cycles. cbn [List.filter is_cycle_end app].
  destruct (Z.eqb_spec (2000 * (Z.of_nat first + 1)) 30000); [lia|reflexivity].
Qed.

Lemma frame_refl (t : Task) : frame 0 0 t t.
Proof.
  repeat split; try reflexivity.
  - exists []. split; [reflexivity|simpl; lia].
  - exists []. rewrite app_nil_r. split; [reflexivity|unfold cycles; simpl; lia].
Qed.

Lemma frame_trans (k1 c1 k2 c2 : nat) (t t1 t2 : Task) :
  frame k1 c1 t t1 -> frame k2 c2 t1 t2 -> frame (k1 + k2) (c1 + c2) t t2.
Proof.
  intros (A1 & A2 & A3 & A4 & A5 & A6 & A7 & (n1 & A8 & A8') & (m1 & A9 & A9'))
         (B1 & B2 & B3 & B4 & B5 & B6 & B7 & (n2 & B8 & B8') & (m2 & B9 & B9')).
  repeat split; try congruence.
  - intros name Hname. rewrite B7, A7; [reflexivity|exact Hname|congruence].
  - exists (n2 ++ n1). rewrite B8, A8, app_assoc, length_app. split; [reflexivity|lia].
  - exists (m1 ++ m2). rewrite B9, A9, app_assoc, cycles_app. split; [reflexivity|lia].
Qed.

Lemma frame_weaken (k k' c c' : nat) (t t' : Task) :
  (k <= k')%nat -> (c <= c')%nat -> frame k c t t' -> frame k' c' t t'.
Proof.
  intros Hk Hc (A1 & A2 & A3 & A4 & A5 & A6 & A7 & (n1 & A8 & A8') & (m1 & A9 & A9')).
  repeat split; try assumption.
  - exists n1. split; [assumption|lia].
  - exists m1. split; [assumption|lia].
Qed.

Lemma framed_bind {A B} (k1 c1 k2 c2 : nat) (m : M Task A) (f : A -> M Task B) :
  framed k1 c1 m -> (forall a, framed k2 c2 (f a)) ->
  framed (k1 + k2) (c1 + c2) (bind m f).
Proof.
  intros Hm Hf t. unfold bind. specialize (Hm t).
  destruct (m t) as [[a|e] t1]; simpl in Hm |- *.
  - eapply frame_trans; [exact Hm|apply Hf].
  - eapply frame_weaken; [| |exact Hm]; lia.
Qed.

Lemma framed_try_catch {A} (k1 c1 k2 c2 : nat) (body : M Task A)
      (handler : exn -> M Task A) :
  framed k1 c1 body -> (forall e, framed k2 c2 (handler e)) ->
  framed (k1 + k2) (c1 + c2) (try_catch body handler).
Proof.
  intros Hm Hf t. unfold try_catch. specialize (Hm t).
  destruct (body t) as [[a|e] t1]; simpl in Hm |- *.
  - eapply frame_weaken; [| |exact Hm]; lia.
  - eapply frame_trans; [exact Hm|apply Hf].
Qed.

Lemma framed_weaken {A} (k k' c c' : nat) (m : M Task A) :
  (k <= k')%nat -> (c <= c')%nat -> framed k c m -> framed k' c' m.
Proof. intros Hk Hc H t. eapply frame_weaken; [exact Hk|exact Hc|apply H]. Qed.

Lemma framed_pure {A} (r : result A) : framed 0 0 (lift r : M Task A).
Proof. intros t. apply frame_refl. Qed.

Lemma framed_ret {A} (a : A) : framed 0 0 (ret a : M Task A).
Proof. intros t. apply frame_refl. Qed.

Lemma framed_throw {A} (e : exn) : framed 0 0 (throw e : M Task A).
Proof. intros t. apply frame_refl. Qed.

Lemma framed_get_state : framed 0 0 (get_state : M Task Task).
Proof. intros t. apply frame_refl. Qed.

Lemma framed_console (line : log_line) : framed 0 0 (console line).
Proof.
  intros t. repeat split; try reflexivity.
  - exists []. split; [reflexivity|simpl; lia].
  - exists [Log line]. split; [reflexivity|unfold cycles; simpl; lia].
Qed.

Lemma framed_sleep (ms : Z) : framed 0 (if Z.eqb ms 30000 then 1 else 0) (emit (Sleep ms)).
Proof.
  intros t. repeat split; try reflexivity.
  - exists []. split; [reflexivity|simpl; lia].
  - exists [Sleep ms]. split; [reflexivity|].
    unfold cycles. simpl. destruct (Z.eqb ms 30000); simpl; lia.
Qed.

Lemma framed_http (r : request) : framed 1 0 (http r).
Proof.
  intros t. unfold http. destruct (server _ _); simpl;
    (repeat split; try reflexivity;
     [exists [r]; split; [reflexivity|simpl; lia]
     |exists []; rewrite app_nil_r; split; [reflexivity|unfold cycles; simpl; lia]]).
Qed.

(** The setters of the fields a method assigns keep the identity of the bot. *)
Lemma framed_set_this (f : Bot -> Bot) :
  (forall b, wallet (f b) = wallet b /\ botIndex (f b) = botIndex b
             /\ sessionFile (f b) = sessionFile b) ->
  framed 0 0 (set_this f).
Proof.
  intros Hf t. destruct (Hf (this t)) as (H1 & H2 & H3).
  repeat split; try assumption; try reflexivity.
  - exists []. split; [reflexivity|simpl; lia].
  - exists []. simpl. rewrite app_nil_r. split; [reflexivity|unfold cycles; simpl; lia].
Qed.

Lemma framed_retry_loop (r : request) (name : jsstring) (retries : nat) :
  (retries <= 13)%nat ->
  forall left i, (i + left = retries)%nat ->
                 framed left 0 (retry_loop (http r) name retries left i).
Proof.
  intros Hsmall left i Hsum t.
  destruct (retry_loop_bounded r name retries left i t Hsum) as (k & Hk & _ & Hsent & Htrace).
  pose proof (retry_loop_this (http r) name retries (http_this r) left i t) as Hthis.
  pose proof (retry_loop_sessions (http r) name retries (http_sessions r) left i t)
    as Hfiles.
  assert (Hrest : server (world (snd (retry_loop (http r) name retries left i t)))
                  = server (world t)
                  /\ writable (world (snd (retry_loop (http r) name retries left i t)))
                     = writable (world t)
                  /\ wallets_txt (world (snd (retry_loop (http r) name retries left i t)))
                     = wallets_txt (world t)).
  { clear. revert i t. induction left as [|left IH]; intros i t; [repeat split|].
    cbn [retry_loop]. unfold try_catch, http.
    destruct (server _ _); simpl; [repeat split|].
    destruct (Nat.eqb i (retries - 1)); [repeat split|].
    unfold bind, console, emit, modify. simpl.
    match goal with |- context [retry_loop _ _ _ left (S i) ?t2] =>
      destruct (IH (S i) t2) as (H1 & H2 & H3) end.
    simpl in *. repeat split; assumption. }
  destruct Hrest as (H1 & H2 & H3).
  repeat split; try (rewrite Hthis; reflexivity); try assumption.
  - intros name' _. rewrite Hfiles. reflexivity.
  - exists (repeat r k). rewrite repeat_length. split; [exact Hsent|exact Hk].
  - exists (retry_pauses name retries i (k - 1)). split; [exact Htrace|].
    rewrite cycles_retry_pauses; lia.
Qed.

Lemma framed_saveSession : framed 0 0 saveSession.
Proof.
  intros t. unfold saveSession, bind, get_state, try_catch, write_json.
  destruct (writable (world t) (sessionFile (this t))); simpl.
  - repeat split; try reflexivity.
    + intros name Hname. apply lookup_insert_ne. congruence.
    + exists []. split; [reflexivity|simpl; lia].
    + exists []. rewrite app_nil_r. split; [reflexivity|unfold cycles; simpl; lia].
  - apply framed_console.
Qed.

Lemma framed_toFixed (x : jsval) : framed 0 0 (toFixed x).
Proof. destruct x; first [apply framed_ret|apply framed_throw]. Qed.

Lemma framed_logStatus (final : bool) : framed 0 0 (logStatus final).
Proof.
  unfold logStatus.
  repeat first
    [ apply (framed_bind 0 0 0 0); [|intros ?]
    | apply framed_get_state | apply framed_pure | apply framed_toFixed
    | apply framed_console ].
Qed.

Lemma framed_calculateEarnings (host : Conversions) (now : number) :
  framed 0 0 (calculateEarnings host now).
Proof.
  unfold calculateEarnings.
  apply (framed_bind 0 0 0 0); [apply framed_get_state|intros t].
  destruct (negb _).
  - apply (framed_bind 0 0 0 0); [apply framed_console|intros ?; apply framed_ret].
  - apply framed_ret.
Qed.

Lemma setter_identity (v : jsval) (b : Bot) :
  (wallet (set_currentEarnings v b) = wallet b
   /\ botIndex (set_currentEarnings v b) = botIndex b
   /\ sessionFile (set_currentEarnings v b) = sessionFile b)
  /\ (wallet (set_startTime v b) = wallet b
      /\ botIndex (set_startTime v b) = botIndex b
      /\ sessionFile (set_startTime v b) = sessionFile b)
  /\ (wallet (set_referralBonus v b) = wallet b
      /\ botIndex (set_referralBonus v b) = botIndex b
      /\ sessionFile (set_referralBonus v b) = sessionFile b).
Proof. repeat split. Qed.

Lemma framed_updateBalance (host : Conversions) (finalUpdate : bool) (now : number) :
  framed 3 0 (updateBalance host finalUpdate now).
Proof.
  unfold updateBalance.
  apply (framed_try_catch 3 0 0 0).
  2:{ intros e. destruct (error_response e); apply framed_console. }
  apply (framed_bind 0 0 3 0); [apply framed_calculateEarnings|intros newEarnings].
  destruct (negb _).
  { eapply framed_weaken; [| |apply framed_console]; lia. }
  apply (framed_bind 0 0 3 0); [apply framed_get_state|intros t].
  apply (framed_bind 0 0 3 0); [apply framed_pure|intros total].
  apply (framed_bind 0 0 3 0); [apply framed_pure|intros paid].
  apply (framed_bind 3 0 0 0).
  { apply framed_retry_loop; lia. }
  intros response.
  apply (framed_bind 0 0 0 0); [apply framed_pure|intros data].
  apply (framed_bind 0 0 0 0); [apply framed_pure|intros success].
  destruct (truthy success); [|apply framed_console].
  apply (framed_bind 0 0 0 0); [apply framed_pure|intros balance].
  apply (framed_bind 0 0 0 0); [apply framed_get_state|intros t'].
  apply (framed_bind 0 0 0 0); [apply framed_pure|intros paid'].
  apply (framed_bind 0 0 0 0).
  { apply framed_set_this. intros b. apply setter_identity. }
  intros _.
  apply (framed_bind 0 0 0 0); [apply framed_saveSession|intros _].
  apply framed_logStatus.
Qed.

(** An update either leaves the bot as it is, or was acknowledged and
    replaces the snapshot. *)
Lemma updateBalance_bot
      (host : Conversions) (finalUpdate : bool) (now : number) (t : Task) :
  this (snd (updateBalance host finalUpdate now t)) = this t
  \/ exists increment paid balance,
      acknowledged host finalUpdate now t increment paid balance
      /\ this (snd (updateBalance host finalUpdate now t))
         = set_currentEarnings (merged_earnings host finalUpdate increment paid balance)
                               (this t).
Proof.
  destruct (calculateEarnings_total host now t) as (v & t1 & Hcalc & Ht1).
  assert (Hfail : forall e t', this t' = this t ->
            this (snd (match error_response e with
                       | Some _ => console ApiError
                       | None => console UpdateFailed
                       end t')) = this t)
    by (intros e t' H; rewrite update_handler_this; exact H).
  destruct (validateEarnings host v) eqn:Hvalid.
  2:{ left. unfold updateBalance, try_catch. unfold bind at 1.
      rewrite Hcalc, Hvalid. exact Ht1. }
  destruct (get_prop (currentEarnings (this t)) "total") as [total|e0] eqn:Htotal.
  2:{ left. unfold updateBalance, try_catch. unfold bind at 1.
      rewrite Hcalc, Hvalid. cbn [negb].
      unfold bind at 1. unfold get_state at 1. unfold bind at 1. unfold lift at 1.
      rewrite Ht1, Htotal. apply Hfail. exact Ht1. }
  destruct (get_prop (currentEarnings (this t)) "paid") as [paid|e0] eqn:Hpaid.
  2:{ left. unfold updateBalance, try_catch. unfold bind at 1.
      rewrite Hcalc, Hvalid. cbn [negb].
      unfold bind at 1. unfold get_state at 1. unfold bind at 1. unfold lift at 1.
      rewrite Ht1, Htotal. unfold bind at 1. unfold lift at 1. rewrite Hpaid.
      apply Hfail. exact Ht1. }
  pose proof (retryRequest_this
                (api_post (js "/update-balance")
                   (balance_payload host (wallet (this t)) total paid finalUpdate v))
                (js "Balance update") 3 t1 (http_this _)) as Ht2.
  destruct (retryRequest
              (api_post (js "/update-balance")
                 (balance_payload host (wallet (this t)) total paid finalUpdate v))
              (js "Balance update") 3 t1) as [[response|e0] t2] eqn:Hretry;
    simpl in Ht2.
  2:{ left. unfold updateBalance, try_catch. unfold bind at 1.
      rewrite Hcalc, Hvalid. cbn [negb].
      unfold bind at 1. unfold get_state at 1. unfold bind at 1. unfold lift at 1.
      rewrite Ht1, Htotal. unfold bind at 1. unfold lift at 1. rewrite Hpaid.
      unfold bind at 1. rewrite Hretry. apply Hfail. congruence. }
  destruct (get_prop response "data") as [data|e0] eqn:Hdata.
  2:{ left. unfold updateBalance, try_catch. unfold bind at 1.
      rewrite Hcalc, Hvalid. cbn [negb].
      unfold bind at 1. unfold get_state at 1. unfold bind at 1. unfold lift at 1.
      rewrite Ht1, Htotal. unfold bind at 1. unfold lift at 1. rewrite Hpaid.
      unfold bind at 1. rewrite Hretry. unfold bind at 1. unfold lift at 1.
      rewrite Hdata. apply Hfail. congruence. }
  destruct (get_prop data "success") as [success|e0] eqn:Hsucc.
  2:{ left. unfold updateBalance, try_catch. unfold bind at 1.
      rewrite Hcalc, Hvalid. cbn [negb].
      unfold bind at 1. unfold get_state at 1. unfold bind at 1. unfold lift at 1.
      rewrite Ht1, Htotal. unfold bind at 1. unfold lift at 1. rewrite Hpaid.
      unfold bind at 1. rewrite Hretry. unfold bind at 1. unfold lift at 1.
      rewrite Hdata. unfold bind at 1. unfold lift at 1. rewrite Hsucc.
      apply Hfail. congruence. }
  destruct (truthy success) eqn:Htruthy.
  2:{ left. unfold updateBalance, try_catch. unfold bind at 1.
      rewrite Hcalc, Hvalid. cbn [negb].
      unfold bind at 1. unfold get_state at 1. unfold bind at 1. unfold lift at 1.
      rewrite Ht1, Htotal. unfold bind at 1. unfold lift at 1. rewrite Hpaid.
      unfold bind at 1. rewrite Hretry. unfold bind at 1. unfold lift at 1.
      rewrite Hdata. unfold bind at 1. unfold lift at 1. rewrite Hsucc, Htruthy.
      simpl. congruence. }
  assert (Hbal : exists balance, get_prop data "balance" = Ok balance).
  { destruct data; try discriminate; eexists; reflexivity. }
  destruct Hbal as [balance Hbal].
  right. exists v, paid, balance.
  assert (Hack : acknowledged host finalUpdate now t v paid balance).
  { exists t1, t2, total, response, data, success. repeat split; assumption. }
  split; [exact Hack|]. apply updateBalance_acknowledged. exact Hack.
Qed.

(** An update changes the snapshot at most: the mining state and the
    referral bonus stay. *)
Lemma updateBalance_keeps
      (host : Conversions) (finalUpdate : bool) (now : number) (t : Task) :
  miningState (this (snd (updateBalance host finalUpdate now t))) = miningState (this t)
  /\ referralBonus (this (snd (updateBalance host finalUpdate now t)))
     = referralBonus (this t).
Proof.
  destruct (updateBalance_bot host finalUpdate now t)
    as [->|(increment & paid & balance & _ & ->)]; split; reflexivity.
Qed.

(** X3. [updateBalance] never throws, whatever the server, the disk and the
    state of the bot are.  It sends at most three requests, ends no cycle,
    leaves every session file but the bot's own alone, and changes nothing
    of the bot except the earnings snapshot: wallet, index, session file
    name, [isActive], [startTime] and the referral bonus stay. *)
Theorem updateBalance_contained
        (host : Conversions) (finalUpdate : bool) (now : number) (t : Task) :
  let t' := snd (updateBalance host finalUpdate now t) in
  fst (updateBalance host finalUpdate now t) = Ok tt
  /\ frame 3 0 t t'
  /\ miningState (this t') = miningState (this t)
  /\ referralBonus (this t') = referralBonus (this t).
Proof.
  cbv zeta. split; [apply updateBalance_returns|].
  split; [apply framed_updateBalance|]. apply updateBalance_keeps.
Qed.

(** ** How an update ends *)

(** [updateBalance] up to the reply: a valid increment and a snapshot that
    is an object lead to one run of the retry wrapper on the payload. *)
Lemma updateBalance_request
      (host : Conversions) (finalUpdate : bool) (now : number) (t t1 : Task)
      (increment total paid : jsval) :
  calculateEarnings host now t = (Ok increment, t1) ->
  validateEarnings host increment = true ->
  get_prop (currentEarnings (this t)) "total" = Ok total ->
  get_prop (currentEarnings (this t)) "paid" = Ok paid ->
  updateBalance host finalUpdate now t
  = try_catch
      (bind (retryRequest
               (api_post (js "/update-balance")
                  (balance_payload host (wallet (this t)) total paid finalUpdate increment))
               (js "Balance update") 3)
            (on_reply host finalUpdate increment))
      on_update_error t1.
Proof.
  intros Hcalc Hvalid Htotal Hpaid.
  destruct (calculateEarnings_total host now t) as (v & t1' & Hc & Ht1).
  rewrite Hcalc in Hc. injection Hc as <- <-.
  unfold updateBalance, try_catch.
  unfold bind at 1. rewrite Hcalc, Hvalid. cbn [negb].
  unfold bind at 1. unfold get_state at 1.
  unfold bind at 1. unfold lift at 1. rewrite Ht1, Htotal.
  unfold bind at 1. unfold lift at 1. rewrite Hpaid.
  reflexivity.
Qed.

(** The world after [calculateEarnings]: at most a warning was printed. *)
Lemma calculateEarnings_world (host : Conversions) (now : number) (t t1 : Task)
      (increment : jsval) :
  calculateEarnings host now t = (Ok increment, t1) ->
  this t1 = this t
  /\ server (world t1) = server (world t)
  /\ sent (world t1) = sent (world t)
  /\ sessions (world t1) = sessions (world t)
  /\ writable (world t1) = writable (world t)
  /\ (trace (world t1) = trace (world t)
      \/ trace (world t1) = trace (world t) ++ [Log MissingStartTime]).
Proof.
  intros H. destruct (truthy (startTime (miningState (this t)))) eqn:Hs.
  - rewrite calculateEarnings_started in H by exact Hs.
    injection H as _ <-. repeat split. left. reflexivity.
  - rewrite calculateEarnings_no_start in H by exact Hs.
    injection H as _ <-. repeat split. right. reflexivity.
Qed.



(** X5. A reply that does not carry a truthy [success] changes nothing:
    the bot and the session files are as before and one line is printed,
    the rejection line, or the failure line when the reply has no data
    object to read [success] from. *)
Theorem updateBalance_not_confirmed
        (host : Conversions) (finalUpdate : bool) (now : number) (t t1 t2 : Task)
        (increment total paid response : jsval) :
  calculateEarnings host now t = (Ok increment, t1) ->
  validateEarnings host increment = true ->
  get_prop (currentEarnings (this t)) "total" = Ok total ->
  get_prop (currentEarnings (this t)) "paid" = Ok paid ->
  retryRequest
    (api_post (js "/update-balance")
       (balance_payload host (wallet (this t)) total paid finalUpdate increment))
    (js "Balance update") 3 t1 = (Ok response, t2) ->
  reply_success response = false ->
  updateBalance host finalUpdate now t
  = (Ok tt, {| this := this t2;
               world := emit_in (Log (rejection_line response)) (world t2) |})
  /\ this t2 = this t
  /\ sessions (world t2) = sessions (world t).
Proof.
  intros Hcalc Hvalid Htotal Hpaid Hretry Hno.
  destruct (calculateEarnings_world _ _ _ _ _ Hcalc) as (Ht1 & _ & _ & Hfiles & _).
  pose proof (retryRequest_this
                (api_post (js "/update-balance")
                   (balance_payload host (wallet (this t)) total paid finalUpdate increment))
                (js "Balance update") 3 t1 (http_this _)) as Hthis.
  pose proof (retry_loop_sessions
                (http (POST (js "/update-balance")
                         (balance_payload host (wallet (this t)) total paid
                            finalUpdate increment)))
                (js "Balance update") 3 (http_sessions _) 3%nat 0%nat t1) as Hfiles2.
  change (retry_loop _ _ 3 3 0 t1)
    with (retryRequest
            (api_post (js "/update-balance")
               (balance_payload host (wallet (this t)) total paid finalUpdate increment))
            (js "Balance update") 3 t1) in Hfiles2.
  rewrite Hretry in Hthis, Hfiles2. simpl in Hthis, Hfiles2.
  split; [|split; congruence].
  rewrite (updateBalance_request _ _ _ _ _ _ _ _ Hcalc Hvalid Htotal Hpaid).
  unfold try_catch, bind at 1. rewrite Hretry.
  unfold on_reply, reply_success, rejection_line, bind, lift in *.
  destruct (get_prop response "data") as [data|e] eqn:Hd.
  2:{ destruct response; try discriminate; injection Hd as <-; reflexivity. }
  destruct (get_prop data "success") as [success|e] eqn:Hs.
  2:{ destruct data; try discriminate; injection Hs as <-; reflexivity. }
  rewrite Hno. reflexivity.
Qed.

Lemma updateBalance_not_confirmed_witness :
  let t := {| this := Ex.fresh_bot;
              world := Ex.world_with
                         (fun _ => Resolves (JObj [(js "data",
                                                    JObj [(js "success", JBool false)])]))
                         ∅ |} in
  this (snd (updateBalance Ex.host false Ex.clock30 t)) = Ex.fresh_bot
  /\ trace (world (snd (updateBalance Ex.host false Ex.clock30 t))) = [Log UpdateRejected].
Proof.
  cbv zeta.
  set (t := {| this := Ex.fresh_bot; world := _ |}).
  destruct (updateBalance_not_confirmed Ex.host false Ex.clock30 t t
              (snd (retryRequest
                      (api_post (js "/update-balance")
                         (balance_payload Ex.host (wallet (this t)) (JNum Ex.eighth)
                            (JNum Num.zero) false Ex.increment30))
                      (js "Balance update") 3 t))
              Ex.increment30 (JNum Ex.eighth) (JNum Num.zero)
              (JObj [(js "data", JObj [(js "success", JBool false)])]))
    as (Hrun & Hthis & _).
  - vm_compute. reflexivity.
  - vm_compute. reflexivity.
  - reflexivity.
  - reflexivity.
  - vm_compute. reflexivity.
  - reflexivity.
  - rewrite Hrun. split; [exact Hthis|vm_compute; reflexivity].
Defined.

(** [logStatus] prints the status, or throws on the first field that has no
    [toFixed]; either way the task is as [status_line] says. *)
Lemma logStatus_line (final : bool) (t : Task) :
  (status_line final (currentEarnings (this t)) = Status final
   /\ logStatus final t
      = (Ok tt, {| this := this t; world := emit_in (Log (Status final)) (world t) |}))
  \/ (status_line final (currentEarnings (this t)) = UpdateFailed
      /\ exists message, logStatus final t = (Throw (TypeError message), t)).
Proof.
  unfold logStatus, status_line, bind, get_state, lift.
  destruct (get_prop (currentEarnings (this t)) "total") as [a|e] eqn:Ha.
  2:{ right. split; [reflexivity|].
      destruct (currentEarnings (this t)); try discriminate;
        injection Ha as <-; eexists; reflexivity. }
  destruct (get_prop (currentEarnings (this t)) "pending") as [b|e] eqn:Hb.
  2:{ destruct (currentEarnings (this t)); discriminate. }
  destruct (get_prop (currentEarnings (this t)) "paid") as [c|e] eqn:Hc.
  2:{ destruct (currentEarnings (this t)); discriminate. }
  destruct a; try (right; split; [reflexivity|eexists; reflexivity]).
  destruct b; try (right; split; [reflexivity|eexists; reflexivity]).
  destruct c; try (right; split; [reflexivity|eexists; reflexivity]).
  left. split; reflexivity.
Qed.

(** The whole of an acknowledged update: the snapshot is replaced, the
    session is saved, and one line is printed. *)
Lemma updateBalance_acknowledged_run
      (host : Conversions) (finalUpdate : bool) (now : number) (t t2 : Task)
      (increment paid balance : jsval) :
  acknowledged_at host finalUpdate now t increment paid balance t2 ->
  let merged := merged_earnings host finalUpdate increment paid balance in
  let t3 := {| this := set_currentEarnings merged (this t); world := world t2 |} in
  updateBalance host finalUpdate now t
  = (Ok tt, {| this := this t3;
               world := emit_in (Log (status_line finalUpdate merged))
                                (world (snd (saveSession t3))) |}).
Proof.
  intros (t1 & total & response & data & success & Hcalc & Hvalid & Htotal
          & Hpaid & Hretry & Hdata & Hsucc & Htruthy & Hbal) merged t3.
  destruct (calculateEarnings_world _ _ _ _ _ Hcalc) as (Ht1 & _).
  pose proof (retryRequest_this
                (api_post (js "/update-balance")
                   (balance_payload host (wallet (this t)) total paid finalUpdate increment))
                (js "Balance update") 3 t1 (http_this _)) as Ht2.
  rewrite Hretry in Ht2. simpl in Ht2.
  rewrite (updateBalance_request _ _ _ _ _ _ _ _ Hcalc Hvalid Htotal Hpaid).
  unfold try_catch, bind at 1. rewrite Hretry.
  unfold on_reply.
  unfold bind at 1. unfold lift at 1. rewrite Hdata.
  unfold bind at 1. unfold lift at 1. rewrite Hsucc, Htruthy.
  unfold bind at 1. unfold lift at 1. rewrite Hbal.
  unfold bind at 1. unfold get_state at 1.
  unfold bind at 1. unfold lift at 1. rewrite Ht2, Ht1, Hpaid.
  unfold bind at 1. unfold set_this at 1, modify at 1.
  rewrite Ht2, Ht1.
  match goal with |- context [bind saveSession _ ?x] => change x with t3 end.
  unfold bind at 1.
  destruct (saveSession_this t3) as [Hs1 Hs2].
  destruct (saveSession t3) as [r4 t4]. cbn [fst snd] in Hs1, Hs2. subst r4. cbn [snd].
  destruct (logStatus_line finalUpdate t4) as [[Hline Hlog]|[Hline (message & Hlog)]];
    rewrite Hs2 in Hline; change (currentEarnings (this t3)) with merged in Hline;
    rewrite Hlog, Hline; [rewrite Hs2; reflexivity|].
  unfold on_update_error. cbn [error_response]. unfold console, emit, modify.
  rewrite Hs2. reflexivity.
Qed.

Lemma saveSession_refused (t : Task) :
  writable (world t) (sessionFile (this t)) = false ->
  saveSession t
  = (Ok tt, {| this := this t; world := emit_in (Log SaveSessionFailed) (world t) |}).
Proof.
  intros H. unfold saveSession, bind, get_state, try_catch, write_json.
  rewrite H. reflexivity.
Qed.

(** Up to the reply the disk is not touched. *)
Lemma acknowledged_at_disk
      (host : Conversions) (finalUpdate : bool) (now : number) (t t2 : Task)
      (increment paid balance : jsval) :
  acknowledged_at host finalUpdate now t increment paid balance t2 ->
  writable (world t2) = writable (world t)
  /\ sessions (world t2) = sessions (world t)
  /\ exists x, increment = JNum x.
Proof.
  intros (t1 & total & response & data & success & Hcalc & Hvalid & Htotal
          & Hpaid & Hretry & _).
  destruct (calculateEarnings_world _ _ _ _ _ Hcalc) as (_ & _ & _ & Hfiles & Hw & _).
  pose proof (framed_retry_loop
                (POST (js "/update-balance")
                   (balance_payload host (wallet (this t)) total paid finalUpdate increment))
                (js "Balance update") 3 ltac:(lia) 3 0 eq_refl t1)
    as (_ & _ & _ & _ & Hw2 & _).
  pose proof (retry_loop_sessions
                (http (POST (js "/update-balance")
                         (balance_payload host (wallet (this t)) total paid
                            finalUpdate increment)))
                (js "Balance update") 3 (http_sessions _) 3%nat 0%nat t1) as Hfiles2.
  change (retry_loop _ _ 3 3 0 t1)
    with (retryRequest
            (api_post (js "/update-balance")
               (balance_payload host (wallet (this t)) total paid finalUpdate increment))
            (js "Balance update") 3 t1) in Hw2, Hfiles2.
  rewrite Hretry in Hw2, Hfiles2. simpl in Hw2, Hfiles2.
  split; [congruence|]. split; [congruence|].
  apply validateEarnings_nonneg_finite in Hvalid as (x & -> & _). eauto.
Qed.

(** X6. An acknowledged update is checkpointed: when the session file can
    be written it then holds the start time, the new snapshot and the
    referral bonus, as JSON keeps them.  When it cannot be written the
    update is not undone: the new snapshot stays in memory, the files are
    as before and the failure to save is printed. *)
Theorem update_checkpoint
        (host : Conversions) (finalUpdate : bool) (now : number) (t t2 : Task)
        (increment paid balance : jsval) :
  acknowledged_at host finalUpdate now t increment paid balance t2 ->
  let merged := merged_earnings host finalUpdate increment paid balance in
  let t' := snd (updateBalance host finalUpdate now t) in
  currentEarnings (this t') = merged
  /\ (writable (world t) (sessionFile (this t)) = true ->
      sessions (world t') !! sessionFile (this t)
      = Some (Parsed (json_reparse
                        (JObj [(js "startTime", startTime (miningState (this t)));
                               (js "earnings", merged);
                               (js "referralBonus", referralBonus (this t))]))))
  /\ (writable (world t) (sessionFile (this t)) = false ->
      sessions (world t') = sessions (world t)
      /\ trace (world t')
         = trace (world t2) ++ [Log SaveSessionFailed;
                                Log (status_line finalUpdate merged)]).
Proof.
  intros Hack merged t'. unfold t'.
  destruct (acknowledged_at_disk _ _ _ _ _ _ _ _ Hack) as (Hw & Hfiles & _).
  rewrite (updateBalance_acknowledged_run _ _ _ _ _ _ _ _ Hack). fold merged.
  cbn [snd this world].
  split; [reflexivity|]. split.
  - intros Hwrite. rewrite saveSession_written by (simpl; rewrite Hw; exact Hwrite).
    simpl. apply lookup_insert_eq.
  - intros Hwrite. rewrite saveSession_refused by (simpl; rewrite Hw; exact Hwrite).
    simpl. rewrite <- app_assoc. split; [exact Hfiles|reflexivity].
Qed.

(** Runs a concrete update up to the reply. *)
Ltac run_acknowledged_at :=
  unfold acknowledged_at; do 5 eexists;
  repeat (split; [vm_compute; reflexivity|]);
  vm_compute; reflexivity.

Lemma update_checkpoint_witness :
  (exists doc,
      sessions (world (snd (updateBalance Ex.host false Ex.clock30
                              (Ex.fresh_task Ex.crediting))))
      !! sessionFile Ex.fresh_bot = Some (Parsed doc)
      /\ get_prop doc "earnings"
         = Ok (earnings_object (js_add Ex.host (JNum Ex.eighth) Ex.increment30)
                               Ex.increment30 (JNum Num.zero)))
  /\ (let t' := snd (updateBalance Ex.host false Ex.clock30
                       {| this := Ex.fresh_bot; world := Ex.read_only Ex.crediting |}) in
      sessions (world t') = ∅
      /\ get_prop (currentEarnings (this t')) "pending" = Ok Ex.increment30).
Proof.
  split.
  - edestruct (update_checkpoint Ex.host false Ex.clock30 (Ex.fresh_task Ex.crediting))
      as (_ & Hsaved & _); [run_acknowledged_at|].
    eexists. split; [apply Hsaved; reflexivity|].
    vm_compute. reflexivity.
  - edestruct (update_checkpoint Ex.host false Ex.clock30
                 {| this := Ex.fresh_bot; world := Ex.read_only Ex.crediting |})
      as (Hmem & _ & Hkept); [run_acknowledged_at|].
    destruct (Hkept eq_refl) as [Hfiles _].
    cbv zeta. rewrite Hfiles, Hmem. split; reflexivity.
Defined.

(** X7. After an acknowledged update the status is printed only when the
    balance the server returned and the new [paid] are numbers.  Otherwise
    formatting the status throws, after the snapshot was replaced and
    saved, and the update is reported as failed. *)
Theorem update_report
        (host : Conversions) (finalUpdate : bool) (now : number) (t t2 : Task)
        (increment paid balance : jsval) :
  acknowledged_at host finalUpdate now t increment paid balance t2 ->
  let merged := merged_earnings host finalUpdate increment paid balance in
  let new_paid := if finalUpdate then js_add host paid increment else paid in
  let t' := snd (updateBalance host finalUpdate now t) in
  trace (world t')
  = trace (world t2)
    ++ (if writable (world t) (sessionFile (this t)) then [] else [Log SaveSessionFailed])
    ++ [Log (status_line finalUpdate merged)]
  /\ status_line finalUpdate merged
     = (if is_number balance && is_number new_paid then Status finalUpdate
        else UpdateFailed)
  /\ currentEarnings (this t') = merged.
Proof.
  intros Hack merged new_paid t'. unfold t'.
  destruct (acknowledged_at_disk _ _ _ _ _ _ _ _ Hack) as (Hw & Hfiles & (x & Hx)).
  rewrite (updateBalance_acknowledged_run _ _ _ _ _ _ _ _ Hack). fold merged.
  cbn [snd this world].
  split; [|split; [|reflexivity]].
  - destruct (writable (world t) (sessionFile (this t))) eqn:Hwrite.
    + rewrite saveSession_written by (simpl; rewrite Hw; exact Hwrite). reflexivity.
    + rewrite saveSession_refused by (simpl; rewrite Hw; exact Hwrite).
      simpl. rewrite <- app_assoc. reflexivity.
  - unfold merged, merged_earnings, new_paid. subst increment.
    destruct finalUpdate, balance; try reflexivity;
      destruct (js_add host paid (JNum x)); try reflexivity;
      destruct paid; reflexivity.
Qed.

Lemma update_report_witness :
  let t' := snd (updateBalance Ex.host false Ex.clock30
                   (Ex.fresh_task Ex.confirming_only)) in
  trace (world t') = [Log UpdateFailed]
  /\ get_prop (currentEarnings (this t')) "total" = Ok JUndefined
  /\ get_prop (currentEarnings (this t')) "pending" = Ok Ex.increment30.
Proof.
  edestruct (update_report Ex.host false Ex.clock30 (Ex.fresh_task Ex.confirming_only))
    as (Htrace & Hline & Hmem); [run_acknowledged_at|].
  cbv zeta. rewrite Htrace, Hline, Hmem. repeat split.
Defined.

(** ** Initialization *)

Lemma initialize_registered
      (host : Conversions) (now : number) (ticks : list number) (t t1 : Task)
      (data : jsval) :
  registered t t1 data ->
  initialize host now ticks t
  = try_catch (on_registered host now ticks data) on_init_error t1.
Proof.
  intros (regResponse & isRegistered & Hreg & Hdata & Hisreg & Htruthy).
  unfold initialize, try_catch.
  unfold bind at 1. unfold get_state at 1.
  unfold bind at 1. rewrite Hreg.
  unfold bind at 1. unfold lift at 1. rewrite Hdata.
  unfold bind at 1. unfold lift at 1. rewrite Hisreg.
  unfold bind at 1. rewrite Htruthy. cbn [negb]. unfold ret at 1.
  reflexivity.
Qed.

(** The task after the registration check, whatever its outcome. *)
Lemma registration_check_world (t : Task) :
  let run := retryRequest (api_get (js "/check-registration?wallet=" ++ wallet (this t)))
                          (js "Registration check") 3 t in
  this (snd run) = this t
  /\ sessions (world (snd run)) = sessions (world t)
  /\ exists k,
      (1 <= k <= 3)%nat
      /\ sent (world (snd run)) = repeat (registration_request (this t)) k ++ sent (world t)
      /\ trace (world (snd run))
         = trace (world t) ++ retry_pauses (js "Registration check") 3 0 (k - 1).
Proof.
  cbv zeta.
  destruct (retry_loop_bounded (registration_request (this t))
              (js "Registration check") 3 3 0 t eq_refl)
    as (k & Hk & Hpos & Hsent & Htrace).
  split; [apply retryRequest_this; apply http_this|].
  split; [apply retry_loop_sessions; apply http_sessions|].
  exists k. split; [split; [apply Hpos|]; lia|]. split; assumption.
Qed.

(** X8. Unless the server confirms the registration, [initialize] leaves the
    bot as it was, so a new bot stays inactive: no session is loaded, no
    cycle runs, no balance update is sent.  Only the registration request
    went out, between one and three times, and the error line is the last
    thing printed. *)
Theorem initialize_unconfirmed
        (host : Conversions) (now : number) (ticks : list number) (t : Task) :
  (forall t1 data, ~ registered t t1 data) ->
  let t' := snd (initialize host now ticks t) in
  this t' = this t
  /\ sessions (world t') = sessions (world t)
  /\ exists k line,
      (1 <= k <= 3)%nat
      /\ sent (world t') = repeat (registration_request (this t)) k ++ sent (world t)
      /\ trace (world t')
         = trace (world t) ++ retry_pauses (js "Registration check") 3 0 (k - 1)
           ++ [Log line]
      /\ (line = InitHttpError \/ line = InitFailed).
Proof.
  intros Hno. cbv zeta.
  destruct (registration_check_world t) as (Hthis & Hfiles & k & Hk & Hsent & Htrace).
  assert (Hend : exists line,
             (line = InitHttpError \/ line = InitFailed)
             /\ initialize host now ticks t
                = (Ok tt,
                   {| this := this (snd (retryRequest
                                           (api_get (js "/check-registration?wallet="
                                                     ++ wallet (this t)))
                                           (js "Registration check") 3 t));
                      world := emit_in (Log line)
                                 (world (snd (retryRequest
                                                (api_get (js "/check-registration?wallet="
                                                          ++ wallet (this t)))
                                                (js "Registration check") 3 t))) |})).
  { unfold initialize, try_catch.
    unfold bind at 1. unfold get_state at 1.
    unfold bind at 1.
    destruct (retryRequest _ _ 3 t) as [[regResponse|e] t1] eqn:Hreg.
    2:{ cbn [snd]. destruct (error_response e);
          [exists InitHttpError|exists InitFailed]; split; auto. }
    cbn [snd].
    unfold bind at 1. unfold lift at 1.
    destruct (get_prop regResponse "data") as [data|e] eqn:Hdata.
    2:{ exists InitFailed. split; [auto|].
        destruct regResponse; try discriminate; injection Hdata as <-; reflexivity. }
    unfold bind at 1. unfold lift at 1.
    destruct (get_prop data "isRegistered") as [isRegistered|e] eqn:Hisreg.
    2:{ exists InitFailed. split; [auto|].
        destruct data; try discriminate; injection Hisreg as <-; reflexivity. }
    destruct (truthy isRegistered) eqn:Htruthy.
    - exfalso. apply (Hno t1 data). exists regResponse, isRegistered. auto.
    - exists InitFailed. split; [auto|].
      reflexivity. }
  destruct Hend as (line & Hline & Hrun). rewrite Hrun. cbn [snd this world].
  split; [exact Hthis|]. split; [exact Hfiles|].
  exists k, line. split; [exact Hk|]. split; [exact Hsent|]. split; [|exact Hline].
  unfold emit_in. cbn [trace]. rewrite Htrace, <- app_assoc. reflexivity.
Qed.

Lemma initialize_unconfirmed_witness :
  let t := {| this := new_KaleidoMiningBot Ex.wallet1 1;
              world := Ex.world_with Ex.offline ∅ |} in
  this (snd (initialize Ex.host Ex.clock0 [Ex.clock30; Ex.clock60] t))
  = new_KaleidoMiningBot Ex.wallet1 1.
Proof.
  cbv zeta.
  edestruct (initialize_unconfirmed Ex.host Ex.clock0 [Ex.clock30; Ex.clock60])
    as (H & _); [|exact H].
  intros t1 data (regResponse & isRegistered & Hreg & _).
  vm_compute in Hreg. discriminate Hreg.
Defined.

(** Runs a concrete registration check. *)
Ltac run_registered :=
  unfold registered; do 2 eexists;
  repeat (split; [vm_compute; reflexivity|]);
  vm_compute; reflexivity.

Lemma registered_world (t t1 : Task) (data : jsval) :
  registered t t1 data ->
  this t1 = this t /\ sessions (world t1) = sessions (world t).
Proof.
  intros (regResponse & isRegistered & Hreg & _).
  destruct (registration_check_world t) as (Hthis & Hfiles & _).
  rewrite Hreg in Hthis, Hfiles. split; assumption.
Qed.

(** X9. A registered wallet with a session file resumes from it: the
    snapshot and the referral bonus are those of the file (the bonus of the
    registration answer is not looked at), and the start time is that of the
    file unless it is missing or falsy, in which case the clock is taken.
    The bot is then active. *)
Theorem initialize_resumes
        (host : Conversions) (now : number) (t t1 : Task) (data doc : jsval) :
  registered t t1 data ->
  sessions (world t) !! sessionFile (this t) = Some (Parsed doc) ->
  doc <> JNull -> doc <> JUndefined ->
  exists start earnings bonus,
    get_prop doc "startTime" = Ok start
    /\ get_prop doc "earnings" = Ok earnings
    /\ get_prop doc "referralBonus" = Ok bonus
    /\ let t' := snd (initialize host now [] t) in
       currentEarnings (this t') = earnings
       /\ referralBonus (this t') = bonus
       /\ startTime (miningState (this t')) = (if truthy start then start else JNum now)
       /\ isActive (miningState (this t')) = true
       /\ trace (world t')
          = trace (world t1) ++ [Log SessionLoaded; Log (MiningStarted true)].
Proof.
  intros Hreg Hfile Hnull Hundef.
  destruct (registered_world _ _ _ Hreg) as [Hthis Hfiles].
  destruct (loadSession_parsed t1 doc) as (start & earnings & bonus & H1 & H2 & H3 & Hload);
    [rewrite Hthis, Hfiles; exact Hfile|exact Hnull|exact Hundef|].
  exists start, earnings, bonus. repeat (split; [assumption|]).
  assert (Hfinal :
            initialize host now [] t
            = (Ok tt,
               {| this := set_isActive true
                            (let b := set_referralBonus bonus
                                        (set_currentEarnings earnings
                                           (set_startTime start (this t1))) in
                             if truthy start then b else set_startTime (JNum now) b);
                  world := emit_in (Log (MiningStarted true))
                             (emit_in (Log SessionLoaded) (world t1)) |})).
  { rewrite (initialize_registered host now [] t t1 data Hreg).
    unfold try_catch, on_registered. unfold bind at 1. rewrite Hload. cbn [negb].
    unfold bind at 1. unfold bind at 1. unfold get_state at 1.
    cbn [this miningState startTime set_referralBonus set_currentEarnings set_startTime].
    destruct (truthy start); reflexivity. }
  cbv zeta. rewrite Hfinal. cbn [snd this world]. unfold emit_in. cbn [trace].
  rewrite <- app_assoc.
  destruct (truthy start); repeat split; reflexivity.
Qed.

Lemma initialize_resumes_witness :
  let t' := snd (initialize Ex.host Ex.clock0 [] Ex.resuming_task) in
  get_prop (currentEarnings (this t')) "paid" = Ok (JNum (Num.of_Z 4))
  /\ referralBonus (this t') = JNum (Num.dyadic 1 (-2))
  /\ startTime (miningState (this t')) = JNum (Num.of_Z 500000).
Proof.
  destruct (initialize_resumes Ex.host Ex.clock0 Ex.resuming_task
              (snd (retryRequest
                      (api_get (js "/check-registration?wallet=" ++ Ex.wallet1))
                      (js "Registration check") 3 Ex.resuming_task))
              (JObj [(js "isRegistered", JBool true);
                     (js "userData", JObj [(js "referralBonus", JNum Ex.eighth)])])
              Ex.earlier_session)
    as (start & earnings & bonus & H1 & H2 & H3 & He & Hb & Hs & _).
  - exists Ex.registration, (JBool true).
    repeat (split; [vm_compute; reflexivity|]); vm_compute; reflexivity.
  - vm_compute. reflexivity.
  - discriminate.
  - discriminate.
  - cbv zeta. rewrite He, Hb, Hs.
    injection H1 as <-. injection H2 as <-. injection H3 as <-.
    repeat (split; [vm_compute; reflexivity|]); vm_compute; reflexivity.
Defined.

(** X10. A registered wallet without a session needs [userData] in the
    registration answer: when it is missing, reading the bonus throws, the
    initialization is reported as failed and the bot is left as it was,
    inactive, with nothing assigned. *)
Theorem initialize_without_userData
        (host : Conversions) (now : number) (ticks : list number) (t t1 : Task)
        (data userData : jsval) :
  registered t t1 data ->
  loadSession t1 = (Ok false, t1) ->
  get_prop data "userData" = Ok userData ->
  userData = JUndefined \/ userData = JNull ->
  initialize host now ticks t
  = (Ok tt, {| this := this t; world := emit_in (Log InitFailed) (world t1) |}).
Proof.
  intros Hreg Hload Huser Hmissing.
  destruct (registered_world _ _ _ Hreg) as [Hthis _].
  rewrite (initialize_registered host now ticks t t1 data Hreg).
  unfold try_catch, on_registered. unfold bind at 1. rewrite Hload. cbn [negb].
  unfold bind at 1. unfold bind at 1. unfold lift at 1. rewrite Huser.
  unfold bind at 1. unfold lift at 1.
  rewrite <- Hthis. destruct Hmissing as [-> | ->]; reflexivity.
Qed.

Lemma initialize_without_userData_witness :
  let t := {| this := new_KaleidoMiningBot Ex.wallet1 1;
              world := Ex.world_with Ex.bare_registration ∅ |} in
  this (snd (initialize Ex.host Ex.clock0 [Ex.clock30] t))
  = new_KaleidoMiningBot Ex.wallet1 1
  /\ trace (world (snd (initialize Ex.host Ex.clock0 [Ex.clock30] t))) = [Log InitFailed].
Proof.
  cbv zeta.
  set (t := {| this := new_KaleidoMiningBot Ex.wallet1 1; world := _ |}).
  rewrite (initialize_without_userData Ex.host Ex.clock0 [Ex.clock30] t
             (snd (retryRequest
                     (api_get (js "/check-registration?wallet=" ++ Ex.wallet1))
                     (js "Registration check") 3 t))
             (JObj [(js "isRegistered", JBool true)]) JUndefined).
  - split; vm_compute; reflexivity.
  - exists (JObj [(js "data", JObj [(js "isRegistered", JBool true)])]), (JBool true).
    repeat (split; [vm_compute; reflexivity|]); vm_compute; reflexivity.
  - vm_compute. reflexivity.
  - vm_compute. reflexivity.
  - left. reflexivity.
Defined.

(** ** The mining loop *)

Lemma framed_startMiningLoop (host : Conversions) (ticks : list number) :
  framed (3 * length ticks) (length ticks) (startMiningLoop host ticks).
Proof.
  induction ticks as [|now later IH]; [apply framed_ret|].
  cbn [startMiningLoop length].
  apply (framed_weaken (0 + (3 + (0 + 3 * length later)))
                       _ (0 + (0 + (1 + length later))) _); [lia|lia|].
  apply framed_bind; [apply framed_get_state|intros t].
  destruct (isActive (miningState (this t))).
  - apply framed_bind; [apply framed_updateBalance|intros _].
    apply framed_bind; [apply (framed_sleep 30000)|intros _]. exact IH.
  - eapply framed_weaken; [| |apply framed_ret]; lia.
Qed.

Lemma startMiningLoop_step
      (host : Conversions) (now : number) (later : list number) (t : Task) :
  isActive (miningState (this t)) = true ->
  startMiningLoop host (now :: later) t
  = startMiningLoop host later
      {| this := this (snd (updateBalance host false now t));
         world := emit_in (Sleep 30000) (world (snd (updateBalance host false now t))) |}.
Proof.
  intros Hactive. cbn [startMiningLoop].
  unfold bind at 1. unfold get_state at 1. rewrite Hactive.
  unfold bind at 1.
  pose proof (updateBalance_returns host false now t) as Hok.
  destruct (updateBalance host false now t) as [r t1]. cbn [fst snd] in *. subst r.
  reflexivity.
Qed.

Lemma startMiningLoop_active (host : Conversions) (ticks : list number) :
  forall t,
    isActive (miningState (this t)) = true ->
    let run := startMiningLoop host ticks t in
    fst run = Ok tt
    /\ miningState (this (snd run)) = miningState (this t)
    /\ referralBonus (this (snd run)) = referralBonus (this t)
    /\ exists more, trace (world (snd run)) = trace (world t) ++ more
                    /\ cycles more = length ticks.
Proof.
  induction ticks as [|now later IH]; intros t Hactive.
  - simpl. repeat split. exists []. rewrite app_nil_r. split; reflexivity.
  - cbv zeta. rewrite (startMiningLoop_step host now later t Hactive).
    destruct (updateBalance_keeps host false now t) as (Hms & Hbonus).
    destruct (framed_updateBalance host false now t)
      as (_ & _ & _ & _ & _ & _ & _ & _ & (m1 & Htrace & Hquiet)).
    set (t1 := snd (updateBalance host false now t)) in *.
    destruct (IH {| this := this t1; world := emit_in (Sleep 30000) (world t1) |})
      as (H1 & H2 & H3 & (m2 & H4 & H5)).
    { cbn [this]. rewrite Hms. exact Hactive. }
    cbn [this world] in H2, H3, H4.
    split; [exact H1|]. split; [congruence|]. split; [congruence|].
    exists (m1 ++ [Sleep 30000] ++ m2). split.
    + rewrite H4. unfold emit_in. cbn [trace].
      rewrite Htrace, <- !app_assoc. reflexivity.
    + rewrite !cycles_app, H5.
      assert (cycles m1 = 0%nat) by lia.
      replace (cycles [Sleep 30000]) with 1%nat by reflexivity. simpl. lia.
Qed.

(** X11. The mining loop does nothing on a bot that is not active.  On an
    active bot it goes through every cycle, whatever the server answers and
    whatever fails: it never throws, ends as many cycles as the clock gave
    ticks, sends at most three requests per cycle, and leaves the bot
    active with its start time and referral bonus unchanged. *)
Theorem startMiningLoop_keeps_going
        (host : Conversions) (ticks : list number) (t : Task) :
  let run := startMiningLoop host ticks t in
  (isActive (miningState (this t)) = false -> run = (Ok tt, t))
  /\ (isActive (miningState (this t)) = true ->
      fst run = Ok tt
      /\ miningState (this (snd run)) = miningState (this t)
      /\ referralBonus (this (snd run)) = referralBonus (this t)
      /\ exists more, trace (world (snd run)) = trace (world t) ++ more
                      /\ cycles more = length ticks)
  /\ frame (3 * length ticks) (length ticks) t (snd run).
Proof.
  cbv zeta. split; [|split].
  - intros Hoff. destruct ticks as [|now later]; [reflexivity|].
    cbn [startMiningLoop]. unfold bind, get_state. rewrite Hoff. reflexivity.
  - apply startMiningLoop_active.
  - apply framed_startMiningLoop.
Qed.

Lemma startMiningLoop_keeps_going_witness :
  (let run := startMiningLoop Ex.host [Ex.clock30; Ex.clock60]
                {| this := new_KaleidoMiningBot Ex.wallet1 1;
                   world := Ex.world_with Ex.offline ∅ |} in
   sent (world (snd run)) = [])
  /\ (let run := startMiningLoop Ex.host [Ex.clock30; Ex.clock60]
                   (Ex.fresh_task Ex.offline) in
      cycles (trace (world (snd run))) = 2%nat
      /\ isActive (miningState (this (snd run))) = true).
Proof.
  split.
  - destruct (startMiningLoop_keeps_going Ex.host [Ex.clock30; Ex.clock60]
                {| this := new_KaleidoMiningBot Ex.wallet1 1;
                   world := Ex.world_with Ex.offline ∅ |}) as (Hoff & _).
    cbv zeta. rewrite (Hoff eq_refl). reflexivity.
  - destruct (startMiningLoop_keeps_going Ex.host [Ex.clock30; Ex.clock60]
                (Ex.fresh_task Ex.offline)) as (_ & Hon & _).
    destruct (Hon eq_refl) as (_ & Hms & _ & (more & Htrace & Hcycles)).
    cbv zeta. rewrite Htrace, Hms. split; [exact Hcycles|reflexivity].
Defined.

(** ** Stopping, in general *)

Lemma stop_state (host : Conversions) (now : number) (t : Task) :
  snd (stop host now t)
  = snd (saveSession (snd (updateBalance host true now (switched_off t)))).
Proof.
  unfold stop. unfold bind at 1. unfold set_this, modify. fold (switched_off t).
  unfold bind at 1.
  pose proof (updateBalance_returns host true now (switched_off t)) as Hr.
  destruct (updateBalance host true now (switched_off t)) as [r t2].
  simpl in Hr. subst r. cbn [snd].
  unfold bind at 1.
  destruct (saveSession_this t2) as [Hs1 _].
  destruct (saveSession t2) as [r t3]. simpl in Hs1. subst r.
  unfold bind, get_state, lift. reflexivity.
Qed.

Lemma frame_stop (host : Conversions) (now : number) (t : Task) :
  frame 3 0 t (snd (stop host now t)).
Proof.
  rewrite stop_state.
  apply (frame_trans 0 0 3 0 t (switched_off t)).
  { apply (framed_set_this (set_isActive false)). intros b. repeat split. }
  apply (frame_trans 3 0 0 0 _ (snd (updateBalance host true now (switched_off t)))).
  - apply framed_updateBalance.
  - apply framed_saveSession.
Qed.

(** X12. [stop] always switches the bot off, keeping its start time and
    referral bonus, after at most three requests; a mining loop that looks
    at the bot afterwards does nothing.  [stop] returns a value unless the
    snapshot is [undefined] or [null], in which case reading [paid] throws. *)
Theorem stop_switches_off (host : Conversions) (now : number) (t : Task) :
  let run := stop host now t in
  miningState (this (snd run))
  = {| isActive := false; startTime := startTime (miningState (this t)) |}
  /\ referralBonus (this (snd run)) = referralBonus (this t)
  /\ frame 3 0 t (snd run)
  /\ (forall ticks, startMiningLoop host ticks (snd run) = (Ok tt, snd run))
  /\ match currentEarnings (this t) with
     | JUndefined | JNull => exists message, fst run = Throw (TypeError message)
     | _ => exists paid, fst run = Ok paid
     end.
Proof.
  cbv zeta.
  assert (Hms : miningState (this (snd (stop host now t)))
                = {| isActive := false; startTime := startTime (miningState (this t)) |}
                /\ referralBonus (this (snd (stop host now t))) = referralBonus (this t)).
  { rewrite stop_state.
    destruct (saveSession_this (snd (updateBalance host true now (switched_off t))))
      as [_ ->].
    destruct (updateBalance_keeps host true now (switched_off t)) as (-> & ->).
    split; reflexivity. }
  destruct Hms as [Hms Hbonus].
  split; [exact Hms|]. split; [exact Hbonus|]. split; [apply frame_stop|]. split.
  - intros ticks. destruct ticks as [|tick later]; [reflexivity|].
    cbn [startMiningLoop]. unfold bind, get_state. rewrite Hms. reflexivity.
  - rewrite stop_result.
    destruct (updateBalance_bot host true now (switched_off t))
      as [->|(increment & paid & balance & Hack & ->)].
    + simpl. destruct (currentEarnings (this t)); eexists; reflexivity.
    + destruct (acknowledged_facts _ _ _ _ _ _ _ Hack) as [_ Hpaid].
      simpl in Hpaid.
      destruct (currentEarnings (this t)); try discriminate; eexists; reflexivity.
Qed.

(** ** Stopping and coming back *)

Lemma reparsed_paid (total pending paid : jsval) :
  get_prop (json_reparse (earnings_object total pending paid)) "paid"
  = Ok (json_reparse paid).
Proof. destruct total, pending, paid; reflexivity. Qed.

(** X13. [stop] leaves the final state on disk.  On a writable disk, for a
    bot whose snapshot has the three fields, a bot constructed later for
    the same session file loads the amount [stop] returned (as JSON keeps
    it), the start time and the referral bonus, whatever the server did
    with the final update. *)
Theorem stop_then_load
        (host : Conversions) (now : number) (t : Task) (b : Bot)
        (total pending paid : jsval) :
  currentEarnings (this t) = earnings_object total pending paid ->
  writable (world t) (sessionFile (this t)) = true ->
  sessionFile b = sessionFile (this t) ->
  let stopped := stop host now t in
  let loaded := loadSession {| this := b; world := world (snd stopped) |} in
  exists returned,
    fst stopped = Ok returned
    /\ fst loaded = Ok true
    /\ get_prop (currentEarnings (this (snd loaded))) "paid" = Ok (json_reparse returned)
    /\ startTime (miningState (this (snd loaded)))
       = json_reparse (startTime (miningState (this t)))
    /\ referralBonus (this (snd loaded)) = json_reparse (referralBonus (this t)).
Proof.
  intros Hearn Hw Hname. cbv zeta.
  rewrite stop_result, stop_state.
  set (t3 := snd (updateBalance host true now (switched_off t))).
  destruct (updateBalance_keeps host true now (switched_off t)) as (Hms & Hbonus).
  pose proof (framed_updateBalance host true now (switched_off t)) as Hframe.
  fold t3 in Hframe, Hms, Hbonus.
  destruct Hframe as (_ & _ & Hfile & _ & Hwr & _).
  cbn [switched_off this world] in Hfile, Hwr, Hms, Hbonus.
  assert (Hobj : exists a b' c, currentEarnings (this t3) = earnings_object a b' c).
  { destruct (updateBalance_bot host true now (switched_off t))
      as [H|(increment & paid' & balance & _ & H)]; fold t3 in H; rewrite H.
    - exists total, pending, paid. exact Hearn.
    - eexists _, _, _. reflexivity. }
  destruct Hobj as (a & b' & c & Hobj).
  destruct (save_then_load t3 b) as (H1 & H2 & H3 & H4).
  { rewrite Hwr, Hfile. exact Hw. }
  { rewrite Hfile. exact Hname. }
  exists c. rewrite Hobj. split; [reflexivity|]. split; [exact H1|].
  rewrite H3, Hobj, H2, H4, Hms, Hbonus.
  split; [apply reparsed_paid|]. split; reflexivity.
Qed.

Lemma stop_then_load_witness :
  let stopped := stop Ex.host Ex.clock30 (Ex.fresh_task Ex.crediting) in
  let loaded := loadSession {| this := new_KaleidoMiningBot Ex.wallet1 2;
                               world := world (snd stopped) |} in
  exists returned,
    fst stopped = Ok returned
    /\ get_prop (currentEarnings (this (snd loaded))) "paid" = Ok (json_reparse returned).
Proof.
  destruct (stop_then_load Ex.host Ex.clock30 (Ex.fresh_task Ex.crediting)
              (new_KaleidoMiningBot Ex.wallet1 2)
              (JNum Ex.eighth) (JNum Num.zero) (JNum Num.zero))
    as (returned & H1 & _ & H3 & _); [reflexivity|reflexivity|reflexivity|].
  exists returned. split; [exact H1|exact H3].
Defined.

(** ** One bot among others *)

Lemma framed_read_json (name : jsstring) : framed 0 0 (read_json name).
Proof.
  intros t. unfold read_json.
  destruct (sessions (world t) !! name) as [[| |doc]|]; apply frame_refl.
Qed.

Lemma framed_loadSession : framed 0 0 loadSession.
Proof.
  unfold loadSession.
  apply (framed_try_catch 0 0 0 0); [|intros e; apply framed_ret].
  apply (framed_bind 0 0 0 0); [apply framed_get_state|intros t].
  apply (framed_bind 0 0 0 0); [apply framed_read_json|intros session].
  apply (framed_bind 0 0 0 0); [apply framed_pure|intros v1].
  apply (framed_bind 0 0 0 0);
    [apply framed_set_this; intros b; apply setter_identity|intros _].
  apply (framed_bind 0 0 0 0); [apply framed_pure|intros v2].
  apply (framed_bind 0 0 0 0);
    [apply framed_set_this; intros b; apply setter_identity|intros _].
  apply (framed_bind 0 0 0 0); [apply framed_pure|intros v3].
  apply (framed_bind 0 0 0 0);
    [apply framed_set_this; intros b; apply setter_identity|intros _].
  apply (framed_bind 0 0 0 0); [apply framed_console|intros _; apply framed_ret].
Qed.

Lemma framed_initialize (host : Conversions) (now : number) (ticks : list number) :
  framed (3 + 3 * length ticks) (length ticks) (initialize host now ticks).
Proof.
  unfold initialize.
  apply (framed_weaken ((0 + (3 + (0 + (0 + (0 + (0 + (0 + (0 + (0 + 3 * length ticks))))))))) + 0)
                       _ ((0 + (0 + (0 + (0 + (0 + (0 + (0 + (0 + (0 + length ticks))))))))) + 0)
                       _); [lia|lia|].
  apply framed_try_catch.
  2:{ intros e. destruct (error_response e); apply framed_console. }
  apply framed_bind; [apply framed_get_state|intros t].
  apply framed_bind; [apply framed_retry_loop; lia|intros regResponse].
  apply framed_bind; [apply framed_pure|intros data].
  apply framed_bind; [apply framed_pure|intros isRegistered].
  apply framed_bind.
  { destruct (negb _); [apply framed_throw|apply framed_ret]. }
  intros _.
  apply framed_bind; [apply framed_loadSession|intros hasSession].
  apply framed_bind.
  { destruct (negb hasSession).
    - apply (framed_bind 0 0 0 0); [apply framed_pure|intros userData].
      apply (framed_bind 0 0 0 0); [apply framed_pure|intros bonus].
      apply (framed_bind 0 0 0 0);
        [apply framed_set_this; intros b; apply setter_identity|intros _].
      apply (framed_bind 0 0 0 0); [apply framed_get_state|intros t0].
      apply (framed_bind 0 0 0 0);
        [apply framed_set_this; intros b; apply setter_identity|intros _].
      apply framed_set_this; intros b; apply setter_identity.
    - apply (framed_bind 0 0 0 0); [apply framed_get_state|intros t0].
      destruct (negb _);
        [apply framed_set_this; intros b; apply setter_identity|apply framed_ret]. }
  intros _.
  apply framed_bind; [apply framed_set_this; intros b; repeat split|intros _].
  apply framed_bind; [apply framed_console|intros _].
  apply framed_startMiningLoop.
Qed.

Lemma session_name_injective (a b : jsstring) :
  js "session_" ++ a ++ js ".json" = js "session_" ++ b ++ js ".json" -> a = b.
Proof.
  intros H. apply app_inv_head in H. apply app_inv_tail in H. exact H.
Qed.

(** X14. [initialize] never throws, whatever the server, the disk and the
    registration answer are; it sends at most three registration requests
    and three balance updates per cycle, runs at most as many cycles as the
    clock gave ticks, and keeps the wallet, the index and the session file
    name of the bot. *)
Theorem initialize_contained
        (host : Conversions) (now : number) (ticks : list number) (t : Task) :
  fst (initialize host now ticks t) = Ok tt
  /\ frame (3 + 3 * length ticks) (length ticks) t (snd (initialize host now ticks t)).
Proof.
  split; [|apply framed_initialize].
  unfold initialize, try_catch.
  match goal with |- context [match ?body t with _ => _ end] =>
    destruct (body t) as [[[]|e] t'] end; [reflexivity|].
  destruct (error_response e); reflexivity.
Qed.

(** X15. The bots keep apart on disk: whatever a bot constructed for one
    wallet does (initializing, updating, looping, saving, stopping), the
    session file of any other wallet is as it was. *)
Theorem other_sessions_untouched
        (host : Conversions) (now : number) (ticks : list number)
        (finalUpdate : bool) (t : Task) (other : jsstring) :
  constructed (this t) ->
  other <> wallet (this t) ->
  let theirs := js "session_" ++ other ++ js ".json" in
  let before := sessions (world t) !! theirs in
  sessions (world (snd (initialize host now ticks t))) !! theirs = before
  /\ sessions (world (snd (updateBalance host finalUpdate now t))) !! theirs = before
  /\ sessions (world (snd (startMiningLoop host ticks t))) !! theirs = before
  /\ sessions (world (snd (saveSession t))) !! theirs = before
  /\ sessions (world (snd (stop host now t))) !! theirs = before.
Proof.
  intros Hname Hother. cbv zeta.
  assert (Hneq : js "session_" ++ other ++ js ".json" <> sessionFile (this t)).
  { rewrite Hname. intros H. apply Hother. exact (session_name_injective _ _ H). }
  assert (Hframe : forall k c t', frame k c t t' ->
            sessions (world t') !! (js "session_" ++ other ++ js ".json")
            = sessions (world t) !! (js "session_" ++ other ++ js ".json")).
  { intros k c t' (_ & _ & _ & _ & _ & _ & H & _). apply H. exact Hneq. }
  split; [exact (Hframe _ _ _ (framed_initialize host now ticks t))|].
  split; [exact (Hframe _ _ _ (framed_updateBalance host finalUpdate now t))|].
  split; [exact (Hframe _ _ _ (framed_startMiningLoop host ticks t))|].
  split; [exact (Hframe _ _ _ (framed_saveSession t))|].
  exact (Hframe _ _ _ (frame_stop host now t)).
Qed.

Lemma other_sessions_untouched_witness :
  sessions (world (snd (stop Ex.host Ex.clock30 (Ex.fresh_task Ex.crediting))))
    !! (js "session_" ++ js "0xother" ++ js ".json")
  = None.
Proof.
  destruct (other_sessions_untouched Ex.host Ex.clock30 [] true
              (Ex.fresh_task Ex.crediting) (js "0xother"))
    as (_ & _ & _ & _ & H).
  - reflexivity.
  - vm_compute. discriminate.
  - rewrite H. vm_compute. reflexivity.
Defined.

(** ** A bot without a usable bonus *)






Lemma startMiningLoop_returns (host : Conversions) (ticks : list number) (t : Task) :
  fst (startMiningLoop host ticks t) = Ok tt.
Proof.
  destruct (isActive (miningState (this t))) eqn:Hactive.
  - apply startMiningLoop_active. exact Hactive.
  - destruct ticks as [|now later]; [reflexivity|].
    cbn [startMiningLoop]. unfold bind, get_state. rewrite Hactive. reflexivity.
Qed.

(** Resuming from a session file, then mining. *)
Lemma initialize_resumed_run
      (host : Conversions) (now : number) (ticks : list number) (t t1 : Task)
      (data start earnings bonus : jsval) :
  registered t t1 data ->
  loadSession t1
  = (Ok true,
     {| this := set_referralBonus bonus
                  (set_currentEarnings earnings (set_startTime start (this t1)));
        world := emit_in (Log SessionLoaded) (world t1) |}) ->
  initialize host now ticks t
  = startMiningLoop host ticks
      {| this := set_isActive true
                   (set_startTime (if truthy start then start else JNum now)
                      (set_referralBonus bonus
                         (set_currentEarnings earnings (this t1))));
         world := emit_in (Log (MiningStarted true))
                    (emit_in (Log SessionLoaded) (world t1)) |}.
Proof.
  intros Hreg Hload.
  rewrite (initialize_registered host now ticks t t1 data Hreg).
  unfold try_catch, on_registered. unfold bind at 1. rewrite Hload. cbn [negb].
  unfold bind at 1. unfold bind at 1. unfold get_state at 1.
  cbn [this miningState startTime set_referralBonus set_currentEarnings set_startTime].
  match goal with |- _ = startMiningLoop host ticks ?T =>
    pose proof (startMiningLoop_returns host ticks T) as Hok;
    assert (Hgo : forall T', T' = T ->
              (let (r, s') := startMiningLoop host ticks T' in
               match r with
               | Ok a => (Ok a, s')
               | Throw e => on_init_error e s'
               end) = startMiningLoop host ticks T)
  end.
  { intros T' ->. destruct (startMiningLoop host ticks _) as [r s].
    cbn [fst] in Hok. subst r. reflexivity. }
  destruct (truthy start); cbn [negb]; unfold bind, set_this, modify, ret, console, emit;
    apply Hgo; reflexivity.
Qed.



(** ** The lines of [wallets.txt] *)

Lemma split_on_no_sep (sep : N) (l : jsstring) :
  ~ In sep l -> split_on sep l = [l].
Proof.
  induction l as [|c l IH]; intros H; [reflexivity|].
  cbn [split_on]. destruct (N.eqb_spec c sep) as [->|Hc].
  - exfalso. apply H. left. reflexivity.
  - rewrite IH; [reflexivity|]. intros Hin. apply H. right. exact Hin.
Qed.

Lemma split_on_app (sep : N) (l rest : jsstring) :
  ~ In sep l -> split_on sep (l ++ sep :: rest) = l :: split_on sep rest.
Proof.
  induction l as [|c l IH]; intros H.
  - cbn [app split_on]. rewrite N.eqb_refl. reflexivity.
  - cbn [app split_on]. destruct (N.eqb_spec c sep) as [->|Hc].
    + exfalso. apply H. left. reflexivity.
    + rewrite IH; [reflexivity|]. intros Hin. apply H. right. exact Hin.
Qed.

Lemma split_on_join (lines : list jsstring) :
  lines <> [] ->
  (forall l, In l lines -> ~ In 10%N l) ->
  split_on 10 (join_lines lines) = lines.
Proof.
  induction lines as [|l rest IH]; intros Hne Hall; [congruence|].
  destruct rest as [|l2 rest].
  - cbn [join_lines]. apply split_on_no_sep. apply Hall. left. reflexivity.
  - change (join_lines (l :: l2 :: rest)) with (l ++ 10%N :: join_lines (l2 :: rest)).
    rewrite split_on_app by (apply Hall; left; reflexivity).
    rewrite IH; [reflexivity|discriminate|].
    intros l' Hin. apply Hall. right. exact Hin.
Qed.

Lemma trim_start_blank (pre rest : jsstring) :
  blank pre -> trim_start (pre ++ rest) = trim_start rest.
Proof.
  induction 1 as [|c pre [Hc _] _ IH]; [reflexivity|].
  cbn [app trim_start]. rewrite Hc. exact IH.
Qed.

Lemma trim_start_head (c : N) (rest : jsstring) :
  is_space c = false -> trim_start (c :: rest) = c :: rest.
Proof. intros H. cbn [trim_start]. rewrite H. reflexivity. Qed.

Lemma blank_rev (s : jsstring) : blank s -> blank (rev s).
Proof.
  unfold blank. rewrite !List.Forall_forall. intros H c Hin.
  apply H. apply in_rev. exact Hin.
Qed.

Lemma blank_no_line_feed (s : jsstring) : blank s -> ~ In 10%N s.
Proof.
  unfold blank. rewrite List.Forall_forall. intros H Hin.
  destruct (H _ Hin) as [_ Hne]. congruence.
Qed.

Lemma hex_not_space (c : N) : In c hex_digits -> is_space c = false /\ c <> 10%N.
Proof.
  intros H. simpl in H.
  repeat (destruct H as [<-|H]; [split; [reflexivity|discriminate]|]).
  contradiction.
Qed.

Lemma address_characters (address : jsstring) :
  wallet_address address ->
  address <> [] /\ forall c, In c address -> is_space c = false /\ c <> 10%N.
Proof.
  intros (digits & -> & _ & Hhex). split; [discriminate|].
  intros c [<-|[<-|Hin]]; [split; [reflexivity|discriminate]..|].
  apply hex_not_space. rewrite List.Forall_forall in Hhex. apply Hhex. exact Hin.
Qed.

Lemma trim_address_line (pre address post : jsstring) :
  blank pre -> wallet_address address -> blank post ->
  trim (pre ++ address ++ post) = address.
Proof.
  intros Hpre Haddr Hpost.
  destruct (address_characters address Haddr) as [Hne Hchars].
  unfold trim. rewrite trim_start_blank by exact Hpre.
  destruct address as [|c rest] eqn:Ha; [congruence|]. rewrite <- Ha in *.
  assert (Hfirst : trim_start (address ++ post) = address ++ post).
  { rewrite Ha. cbn [app]. apply trim_start_head. apply Hchars. rewrite Ha. left. reflexivity. }
  rewrite Hfirst, rev_app_distr, trim_start_blank by (apply blank_rev; exact Hpost).
  assert (Hlast : trim_start (rev address) = rev address).
  { destruct (rev address) as [|d more] eqn:Hr; [reflexivity|].
    apply trim_start_head. apply Hchars. apply in_rev. rewrite Hr. left. reflexivity. }
  rewrite Hlast. apply rev_involutive.
Qed.

Lemma trim_blank_line (spaces : jsstring) : blank spaces -> trim spaces = [].
Proof.
  intros H. unfold trim.
  rewrite <- (app_nil_r spaces), trim_start_blank by exact H. reflexivity.
Qed.

Lemma line_text_no_line_feed (l : file_line) : line_ok l -> ~ In 10%N (line_text l).
Proof.
  destruct l as [pre address post|spaces]; cbn [line_ok line_text].
  - intros (Hpre & Haddr & Hpost) Hin.
    apply in_app_or in Hin as [Hin|Hin]; [exact (blank_no_line_feed _ Hpre Hin)|].
    apply in_app_or in Hin as [Hin|Hin]; [|exact (blank_no_line_feed _ Hpost Hin)].
    destruct (address_characters address Haddr) as [_ Hchars].
    destruct (Hchars _ Hin) as [_ Hne]. congruence.
  - apply blank_no_line_feed.
Qed.

Lemma kept_addresses (lines : list file_line) :
  Forall line_ok lines ->
  filter (fun line => wallet_pattern line = true) (map trim (map line_text lines))
  = addresses lines.
Proof.
  induction 1 as [|l lines Hl _ IH]; [reflexivity|].
  cbn [map addresses flat_map]. fold (addresses lines).
  destruct l as [pre address post|spaces]; cbn [line_ok line_text] in *.
  - destruct Hl as (Hpre & Haddr & Hpost).
    rewrite trim_address_line by assumption.
    rewrite filter_cons_True by (apply wallet_pattern_spec; exact Haddr).
    rewrite IH. reflexivity.
  - rewrite trim_blank_line by exact Hl.
    rewrite filter_cons_False by (cbn; discriminate).
    rewrite IH. reflexivity.
Qed.

(** X18. In a [wallets.txt] whose lines are addresses with blanks around
    them (spaces, tabs, the carriage return of a CRLF line ending) or
    blanks only (an empty last line after a final line feed), [loadWallets]
    returns exactly the addresses, stripped, in the order of the file. *)
Theorem loadWallets_padded_lines (w : World) (lines : list file_line) :
  wallets_txt w = Some (join_lines (map line_text lines)) ->
  Forall line_ok lines ->
  fst (loadWallets w) = addresses lines.
Proof.
  intros Hfile Hok. rewrite (loadWallets_read w _ Hfile). cbn [fst].
  destruct lines as [|l lines]; [reflexivity|].
  rewrite split_on_join.
  - apply kept_addresses. exact Hok.
  - discriminate.
  - intros text Hin. apply in_map_iff in Hin as (l' & <- & Hin).
    apply line_text_no_line_feed.
    rewrite List.Forall_forall in Hok. apply Hok. exact Hin.
Qed.

Lemma loadWallets_padded_lines_witness :
  fst (loadWallets
         {| server := Ex.offline; sent := []; sessions := ∅; writable := fun _ => true;
            wallets_txt := Some (js "  " ++ Ex.wallet1 ++ [13%N; 10%N]);
            trace := [] |})
  = [Ex.wallet1].
Proof.
  apply (loadWallets_padded_lines _ [AddressLine (js "  ") Ex.wallet1 [13%N]; BlankLine []]).
  - reflexivity.
  - repeat constructor; try discriminate.
    apply wallet_pattern_spec. vm_compute. reflexivity.
Defined.

(** ** Starting the fleet *)

Lemma spawn_all_world (new_bots : list Bot) (w : World) :
  trace (spawn_all new_bots w)
  = trace w ++ map (fun b => Spawn (botIndex b)) new_bots
  /\ sent (spawn_all new_bots w) = sent w
  /\ sessions (spawn_all new_bots w) = sessions w.
Proof.
  unfold spawn_all. revert w.
  induction new_bots as [|b rest IH]; intros w.
  - cbn [fold_left map]. rewrite app_nil_r. repeat split.
  - cbn [fold_left map]. destruct (IH (emit_in (Spawn (botIndex b)) w)) as (H1 & H2 & H3).
    rewrite H1, H2, H3. unfold emit_in. cbn [trace sent sessions].
    rewrite <- app_assoc. repeat split.
Qed.

Lemma make_bots_from (k : nat) (wallets : list jsstring) :
  map botIndex (imap (fun index wallet => new_KaleidoMiningBot wallet (index + k)) wallets)
  = seq k (length wallets).
Proof.
  revert k. induction wallets as [|a rest IH]; intros k; [reflexivity|].
  cbn [imap map length seq]. f_equal.
  rewrite <- (IH (S k)). f_equal. apply imap_ext. intros i x _.
  cbn. f_equal. lia.
Qed.

Lemma start_on_found (c : Coordinator) (w : World) (wallets : list jsstring) :
  isRunning c = false ->
  wallets <> [] ->
  fst (loadWallets w) = wallets ->
  start_on c w
  = ({| bots := make_bots wallets; totalPaid := totalPaid c; isRunning := true |},
     emit_in OnSigint
       (spawn_all (make_bots wallets)
          (emit_in (Log (LoadedWallets (length wallets))) (emit_in (Log Banner) w)))).
Proof.
  intros Hrun Hsome Hw. unfold start_on. rewrite Hrun.
  unfold loadWallets in *.
  change (wallets_txt (emit_in (Log Banner) w)) with (wallets_txt w).
  destruct (wallets_txt w) as [data|]; cbn [fst] in Hw; [|congruence].
  rewrite Hw. destruct wallets as [|a rest]; [congruence|]. reflexivity.
Qed.

Lemma make_bots_wallets (wallets : list jsstring) :
  map wallet (make_bots wallets) = wallets.
Proof.
  unfold make_bots. generalize 1%nat.
  induction wallets as [|x l IH]; intros k; [reflexivity|].
  cbn [imap map]. f_equal.
  rewrite <- (IH (S k)) at 2. f_equal. apply imap_ext. intros i y _.
  cbn. f_equal. lia.
Qed.

(** X19. A first [start] prints the banner and, when wallets were found,
    their count; it then starts the bots in the order of the file, numbered
    from 1, and registers the interrupt handler once, after the last bot.
    [start] itself sends no request and writes no file.  Without a wallet
    no bot is started and no handler is registered.  Once the fleet is
    running, another [start] only prints the warning: the fleet is not
    rebuilt and no second handler is registered. *)
Theorem start_launches (c : Coordinator) (w : World) :
  isRunning c = false ->
  let wallets := fst (loadWallets w) in
  let started := start_on c w in
  sent (snd started) = sent w
  /\ sessions (snd started) = sessions w
  /\ (wallets <> [] ->
      trace (snd started)
      = trace w ++ [Log Banner; Log (LoadedWallets (length wallets))]
        ++ map Spawn (seq 1 (length wallets)) ++ [OnSigint]
      /\ map wallet (bots (fst started)) = wallets
      /\ forall w', start_on (fst started) w'
                    = (fst started, emit_in (Log AlreadyRunning) w'))
  /\ (wallets = [] ->
      exists lines, trace (snd started) = trace w ++ Log Banner :: map Log lines).
Proof.
  intros Hrun. cbv zeta.
  destruct (fst (loadWallets w)) as [|a rest] eqn:Hw.
  - rewrite (start_on_no_wallet c w Hrun Hw). cbn [snd].
    unfold loadWallets.
    change (wallets_txt (emit_in (Log Banner) w)) with (wallets_txt w).
    destruct (wallets_txt w) as [data|];
      unfold emit_in; cbn [snd sent sessions trace];
      (split; [reflexivity|]); (split; [reflexivity|]);
      (split; [intros H; exfalso; apply H; reflexivity|]); intros _.
    + exists [NoValidWallets]. rewrite <- !app_assoc. reflexivity.
    + exists [WalletsUnreadable; NoValidWallets]. rewrite <- !app_assoc. reflexivity.
  - rewrite (start_on_found c w (a :: rest) Hrun ltac:(discriminate) Hw). cbn [fst snd].
    destruct (spawn_all_world (make_bots (a :: rest))
                (emit_in (Log (LoadedWallets (length (a :: rest))))
                   (emit_in (Log Banner) w)))
      as (H1 & H2 & H3).
    split; [exact H2|]. split; [exact H3|]. split; [|discriminate].
    intros _. split; [|split].
    + unfold emit_in at 1. cbn [trace]. rewrite H1.
      unfold emit_in. cbn [trace].
      rewrite <- (make_bots_from 1 (a :: rest)), map_map, <- !app_assoc.
      reflexivity.
    + apply make_bots_wallets.
    + intros w'. reflexivity.
Qed.

Lemma start_launches_witness :
  trace (snd (start_on Ex.new_coordinator Ex.two_lines))
  = [Log Banner; Log (LoadedWallets 1); Spawn 1; OnSigint].
Proof.
  destruct (start_launches Ex.new_coordinator Ex.two_lines eq_refl) as (_ & _ & H & _).
  destruct H as (H & _); [vm_compute; discriminate|].
  rewrite H. vm_compute. reflexivity.
Defined.

(** ** The total of the shutdown *)

















(** ** What the total adds up to *)

Lemma saveSession_sent (t : Task) :
  sent (world (snd (saveSession t))) = sent (world t)
  /\ server (world (snd (saveSession t))) = server (world t).
Proof.
  unfold saveSession, bind, get_state, try_catch, write_json.
  destruct (writable (world t) (sessionFile (this t))); split; reflexivity.
Qed.

(** One cycle against a crediting server. *)
Lemma credited_update
      (host : Conversions) (now : number) (t : Task) (s b T : number)
      (pending paid : jsval) :
  credits (server (world t)) ->
  startTime (miningState (this t)) = JNum s ->
  truthy (JNum s) = true ->
  referralBonus (this t) = JNum b ->
  currentEarnings (this t) = earnings_object (JNum T) pending paid ->
  validateEarnings host (JNum (increment_at s b now)) = true ->
  let t' := snd (updateBalance host false now t) in
  currentEarnings (this t')
  = earnings_object (JNum (Num.add T (increment_at s b now)))
                    (JNum (increment_at s b now)) paid
  /\ length (sent (world t')) = S (length (sent (world t)))
  /\ server (world t') = server (world t).
Proof.
  intros Hsrv Hs Htruthy Hb Hearn Hvalid.
  set (inc := increment_at s b now) in *.
  assert (Hcalc : calculateEarnings host now t = (Ok (JNum inc), t)).
  { rewrite calculateEarnings_started by (rewrite Hs; exact Htruthy).
    rewrite Hs, Hb. reflexivity. }
  set (payload := balance_payload host (wallet (this t)) (JNum T) paid false (JNum inc)).
  destruct (Hsrv (js "/update-balance") payload
                 (earnings_object (JNum (Num.add T inc)) (JNum inc) paid)
                 (JNum (Num.add T inc)) (sent (world t)) eq_refl eq_refl)
    as (response & data & success & Hreply & Hdata & Hsucc & Hyes & Hbal).
  set (t2 := {| this := this t;
                world := send_in (POST (js "/update-balance") payload) (world t) |}).
  assert (Hretry : retryRequest (api_post (js "/update-balance") payload)
                                (js "Balance update") 3 t = (Ok response, t2)).
  { unfold retryRequest, api_post. cbn [retry_loop]. unfold try_catch.
    rewrite (http_resolved _ _ _ Hreply). reflexivity. }
  assert (Hack : acknowledged_at host false now t (JNum inc) paid
                                 (JNum (Num.add T inc)) t2).
  { exists t, (JNum T), response, data, success.
    rewrite Hearn. repeat (split; [first [assumption|reflexivity]|]). assumption. }
  cbv zeta. rewrite (updateBalance_acknowledged_run _ _ _ _ _ _ _ _ Hack).
  cbn [snd this world].
  set (t3 := {| this := _; world := world t2 |}).
  destruct (saveSession_sent t3) as [Hsent Hserver].
  split; [reflexivity|]. unfold emit_in. cbn [sent server].
  rewrite Hsent, Hserver. split; reflexivity.
Qed.

Lemma last_nonempty {A} (l : list A) (a d d' : A) :
  List.last (a :: l) d = List.last (a :: l) d'.
Proof.
  revert a. induction l as [|x l IH]; intros a; [reflexivity|].
  change (List.last (x :: l) d = List.last (x :: l) d'). apply IH.
Qed.

(** X21. Each cycle adds the accrual of the whole time since the start to
    the total, not the accrual since the previous cycle.  With a server
    that credits what is proposed, a bot holding the total [T] has, after
    the cycles at [n1 ... nk], the total [T + inc(n1) + ... + inc(nk)],
    where [inc(n)] is what [calculateEarnings] gives at [n]; [pending] is
    the last increment, [paid] is as before, and one request went out per
    cycle. *)
Theorem loop_counts_from_start
        (host : Conversions) (ticks : list number) (t : Task) (s b T : number)
        (pending paid : jsval) :
  credits (server (world t)) ->
  isActive (miningState (this t)) = true ->
  startTime (miningState (this t)) = JNum s ->
  truthy (JNum s) = true ->
  referralBonus (this t) = JNum b ->
  currentEarnings (this t) = earnings_object (JNum T) pending paid ->
  Forall (fun now => validateEarnings host (JNum (increment_at s b now)) = true) ticks ->
  let t' := snd (startMiningLoop host ticks t) in
  currentEarnings (this t')
  = earnings_object (JNum (credited_total s b ticks T))
                    (List.last (map (fun now => JNum (increment_at s b now)) ticks) pending)
                    paid
  /\ length (sent (world t')) = (length ticks + length (sent (world t)))%nat.
Proof.
  intros Hsrv Hactive Hs Htruthy Hb Hearn Hvalid.
  revert t T pending Hsrv Hactive Hs Hb Hearn.
  induction Hvalid as [|now later Hnow _ IH]; intros t T pending Hsrv Hactive Hs Hb Hearn.
  - cbv zeta. cbn. split; [exact Hearn|reflexivity].
  - cbv zeta. rewrite (startMiningLoop_step host now later t Hactive).
    destruct (credited_update host now t s b T pending paid
                Hsrv Hs Htruthy Hb Hearn Hnow) as (Hnew & Hsent & Hserver).
    destruct (updateBalance_keeps host false now t) as (Hms & Hbonus).
    set (t1 := snd (updateBalance host false now t)) in *.
    destruct (IH {| this := this t1; world := emit_in (Sleep 30000) (world t1) |}
                 (Num.add T (increment_at s b now)) (JNum (increment_at s b now)))
      as (H1 & H2).
    + cbn [world emit_in server]. rewrite Hserver. exact Hsrv.
    + cbn [this]. rewrite Hms. exact Hactive.
    + cbn [this]. rewrite Hms. exact Hs.
    + cbn [this]. rewrite Hbonus. exact Hb.
    + exact Hnew.
    + rewrite H1, H2. cbn [world emit_in sent]. rewrite Hsent.
      split; [|cbn [length]; lia].
      assert (Hlast : List.last (map (fun now => JNum (increment_at s b now)) later)
                                (JNum (increment_at s b now))
                      = List.last (map (fun now => JNum (increment_at s b now))
                                       (now :: later)) pending).
      { destruct later as [|n later]; [reflexivity|].
        cbn [map]. rewrite (last_nonempty _ _ _ pending). reflexivity. }
      rewrite Hlast. reflexivity.
Qed.

Lemma loop_counts_from_start_witness :
  get_prop (currentEarnings
              (this (snd (startMiningLoop Ex.host [Ex.clock30; Ex.clock60]
                            (Ex.fresh_task Ex.crediting))))) "total"
  = Ok (JNum (Num.add (Num.add Ex.eighth
                         (increment_at (Num.of_Z 1000000) Ex.eighth Ex.clock30))
                (increment_at (Num.of_Z 1000000) Ex.eighth Ex.clock60))).
Proof.
  destruct (loop_counts_from_start Ex.host [Ex.clock30; Ex.clock60]
              (Ex.fresh_task Ex.crediting) (Num.of_Z 1000000) Ex.eighth Ex.eighth
              (JNum Num.zero) (JNum Num.zero)) as (H & _).
  - change (credits Ex.crediting).
    intros url body earnings total history He Ht.
    exists (JObj [(js "data", JObj [(js "success", JBool true); (js "balance", total)])]),
           (JObj [(js "success", JBool true); (js "balance", total)]), (JBool true).
    split; [|repeat split].
    unfold Ex.crediting, Ex.reply. cbv beta iota. rewrite He, Ht. reflexivity.
  - reflexivity.
  - reflexivity.
  - reflexivity.
  - reflexivity.
  - reflexivity.
  - apply List.Forall_cons; [vm_compute; reflexivity|].
    apply List.Forall_cons; [vm_compute; reflexivity|]. apply List.Forall_nil.
  - rewrite H. reflexivity.
Defined.

(** ** Without a confirmation nothing is kept *)

Lemma unchanged_bind_post {A B} (bot : bool) (Q : A -> Prop)
      (m : M Task A) (f : A -> M Task B) :
  (forall t a, never_confirms (server (world t)) -> fst (m t) = Ok a -> Q a) ->
  unchanged bot m -> (forall a, Q a -> unchanged bot (f a)) ->
  unchanged bot (bind m f).
Proof.
  intros HQ Hm Hf t HP. unfold bind.
  destruct (Hm t HP) as (H1 & H2 & H3). specialize (HQ t).
  destruct (m t) as [[a|e] t1]; cbn [fst snd] in *; [|exact (conj H1 (conj H2 H3))].
  destruct (Hf a (HQ a HP eq_refl) t1) as (G1 & G2 & G3); [rewrite H2; exact HP|].
  split; [congruence|]. split; [congruence|].
  intros Hb. rewrite (G3 Hb). exact (H3 Hb).
Qed.

Lemma unchanged_bind {A B} (bot : bool) (m : M Task A) (f : A -> M Task B) :
  unchanged bot m -> (forall a, unchanged bot (f a)) -> unchanged bot (bind m f).
Proof.
  intros Hm Hf.
  apply (unchanged_bind_post bot (fun _ => True)); [intros; exact I|exact Hm|].
  intros a _. apply Hf.
Qed.

Lemma unchanged_try_catch {A} (bot : bool) (body : M Task A) (handler : exn -> M Task A) :
  unchanged bot body -> (forall e, unchanged bot (handler e)) ->
  unchanged bot (try_catch body handler).
Proof.
  intros Hm Hf t HP. unfold try_catch.
  destruct (Hm t HP) as (H1 & H2 & H3).
  destruct (body t) as [[a|e] t1]; cbn [fst snd] in *; [exact (conj H1 (conj H2 H3))|].
  destruct (Hf e t1) as (G1 & G2 & G3); [rewrite H2; exact HP|].
  split; [congruence|]. split; [congruence|].
  intros Hb. rewrite (G3 Hb). exact (H3 Hb).
Qed.

Lemma unchanged_lift {A} (bot : bool) (r : result A) : unchanged bot (lift r : M Task A).
Proof. intros t _. repeat split. Qed.

Lemma unchanged_ret {A} (bot : bool) (a : A) : unchanged bot (ret a : M Task A).
Proof. intros t _. repeat split. Qed.

Lemma unchanged_throw {A} (bot : bool) (e : exn) : unchanged bot (throw e : M Task A).
Proof. intros t _. repeat split. Qed.

Lemma unchanged_get_state (bot : bool) : unchanged bot (get_state : M Task Task).
Proof. intros t _. repeat split. Qed.

Lemma unchanged_emit (bot : bool) (e : event) : unchanged bot (emit e).
Proof. intros t _. repeat split. Qed.

Lemma unchanged_set_this (f : Bot -> Bot) : unchanged false (set_this f).
Proof. intros t _. repeat split. discriminate. Qed.

Lemma unchanged_http (bot : bool) (r : request) : unchanged bot (http r).
Proof. intros t _. unfold http. destruct (server _ _); repeat split. Qed.

Lemma unchanged_read_json (bot : bool) (name : jsstring) : unchanged bot (read_json name).
Proof.
  intros t _. unfold read_json.
  destruct (sessions (world t) !! name) as [[| |doc]|]; repeat split.
Qed.

Lemma unchanged_retry_loop (bot : bool) (r : request) (name : jsstring) (retries : nat) :
  forall left i, unchanged bot (retry_loop (http r) name retries left i).
Proof.
  induction left as [|left IH]; intros i; [apply unchanged_ret|].
  cbn [retry_loop]. apply unchanged_try_catch; [apply unchanged_http|intros e].
  destruct (Nat.eqb i (retries - 1)); [apply unchanged_throw|].
  apply unchanged_bind; [apply unchanged_emit|intros _].
  apply unchanged_bind; [apply unchanged_emit|intros _]. apply IH.
Qed.

(** Whatever the retry wrapper hands back came from the server. *)
Lemma retry_loop_unconfirmed (r : request) (name : jsstring) (retries : nat) :
  forall left i t response,
    never_confirms (server (world t)) ->
    fst (retry_loop (http r) name retries left i t) = Ok response ->
    reply_success response = false.
Proof.
  induction left as [|left IH]; intros i t response HP Hrun.
  - injection Hrun as <-. reflexivity.
  - cbn [retry_loop] in Hrun. unfold try_catch in Hrun.
    unfold http at 1 in Hrun.
    destruct (server (send_in r (world t)) (sent (send_in r (world t))))
      as [answer|e] eqn:Hsrv.
    + cbn [fst] in Hrun. injection Hrun as <-. exact (HP _ _ Hsrv).
    + destruct (Nat.eqb i (retries - 1)); [discriminate Hrun|].
      unfold bind at 1, console at 1, emit at 1, modify at 1 in Hrun.
      unfold bind at 1, emit at 1, modify at 1 in Hrun.
      refine (IH _ _ _ _ Hrun). exact HP.
Qed.

Lemma unchanged_loadSession : unchanged false loadSession.
Proof.
  unfold loadSession.
  apply unchanged_try_catch; [|intros e; apply unchanged_ret].
  apply unchanged_bind; [apply unchanged_get_state|intros t].
  apply unchanged_bind; [apply unchanged_read_json|intros session].
  apply unchanged_bind; [apply unchanged_lift|intros v1].
  apply unchanged_bind; [apply unchanged_set_this|intros _].
  apply unchanged_bind; [apply unchanged_lift|intros v2].
  apply unchanged_bind; [apply unchanged_set_this|intros _].
  apply unchanged_bind; [apply unchanged_lift|intros v3].
  apply unchanged_bind; [apply unchanged_set_this|intros _].
  apply unchanged_bind; [apply unchanged_emit|intros _; apply unchanged_ret].
Qed.

Lemma unchanged_calculateEarnings (bot : bool) (host : Conversions) (now : number) :
  unchanged bot (calculateEarnings host now).
Proof.
  unfold calculateEarnings.
  apply unchanged_bind; [apply unchanged_get_state|intros t].
  destruct (negb _); [|apply unchanged_ret].
  apply unchanged_bind; [apply unchanged_emit|intros _; apply unchanged_ret].
Qed.

Lemma unchanged_updateBalance
      (bot : bool) (host : Conversions) (finalUpdate : bool) (now : number) :
  unchanged bot (updateBalance host finalUpdate now).
Proof.
  unfold updateBalance.
  apply unchanged_try_catch.
  2:{ intros e. destruct (error_response e); apply unchanged_emit. }
  apply unchanged_bind; [apply unchanged_calculateEarnings|intros newEarnings].
  destruct (negb _); [apply unchanged_emit|].
  apply unchanged_bind; [apply unchanged_get_state|intros t].
  apply unchanged_bind; [apply unchanged_lift|intros total].
  apply unchanged_bind; [apply unchanged_lift|intros paid].
  apply (unchanged_bind_post bot (fun response => reply_success response = false)).
  { intros t0 response HP Hrun. exact (retry_loop_unconfirmed _ _ _ _ _ _ _ HP Hrun). }
  { apply unchanged_retry_loop. }
  intros response Hno.
  apply (unchanged_bind_post bot (fun data => get_prop response "data" = Ok data));
    [intros t0 data _ H; exact H|apply unchanged_lift|intros data Hdata].
  apply (unchanged_bind_post bot (fun success => get_prop data "success" = Ok success));
    [intros t0 success _ H; exact H|apply unchanged_lift|intros success Hsucc].
  unfold reply_success in Hno. rewrite Hdata, Hsucc in Hno. rewrite Hno.
  apply unchanged_emit.
Qed.

Lemma unchanged_startMiningLoop (bot : bool) (host : Conversions) (ticks : list number) :
  unchanged bot (startMiningLoop host ticks).
Proof.
  induction ticks as [|now later IH]; [apply unchanged_ret|].
  cbn [startMiningLoop].
  apply unchanged_bind; [apply unchanged_get_state|intros t].
  destruct (isActive (miningState (this t))); [|apply unchanged_ret].
  apply unchanged_bind; [apply unchanged_updateBalance|intros _].
  apply unchanged_bind; [apply unchanged_emit|intros _]. exact IH.
Qed.

Lemma unchanged_initialize (host : Conversions) (now : number) (ticks : list number) :
  unchanged false (initialize host now ticks).
Proof.
  unfold initialize.
  apply unchanged_try_catch.
  2:{ intros e. destruct (error_response e); apply unchanged_emit. }
  apply unchanged_bind; [apply unchanged_get_state|intros t].
  apply unchanged_bind; [apply unchanged_retry_loop|intros regResponse].
  apply unchanged_bind; [apply unchanged_lift|intros data].
  apply unchanged_bind; [apply unchanged_lift|intros isRegistered].
  apply unchanged_bind.
  { destruct (negb _); [apply unchanged_throw|apply unchanged_ret]. }
  intros _.
  apply unchanged_bind; [apply unchanged_loadSession|intros hasSession].
  apply unchanged_bind.
  { destruct (negb hasSession).
    - apply unchanged_bind; [apply unchanged_lift|intros userData].
      apply unchanged_bind; [apply unchanged_lift|intros bonus].
      apply unchanged_bind; [apply unchanged_set_this|intros _].
      apply unchanged_bind; [apply unchanged_get_state|intros t0].
      apply unchanged_bind; [apply unchanged_set_this|intros _].
      apply unchanged_set_this.
    - apply unchanged_bind; [apply unchanged_get_state|intros t0].
      destruct (negb _); [apply unchanged_set_this|apply unchanged_ret]. }
  intros _.
  apply unchanged_bind; [apply unchanged_set_this|intros _].
  apply unchanged_bind; [apply unchanged_emit|intros _].
  apply unchanged_startMiningLoop.
Qed.

(** X22. The session file is written only by a confirmed update (or by
    [stop]).  Against a server that never confirms, neither [initialize]
    nor any number of cycles of the mining loop writes a session file, and
    the loop and [updateBalance] leave the bot as it was: the snapshot does
    not advance and a restart finds no trace of the run. *)
Theorem unconfirmed_run_leaves_no_trace
        (host : Conversions) (now : number) (ticks : list number)
        (finalUpdate : bool) (t : Task) :
  never_confirms (server (world t)) ->
  sessions (world (snd (initialize host now ticks t))) = sessions (world t)
  /\ sessions (world (snd (startMiningLoop host ticks t))) = sessions (world t)
  /\ this (snd (startMiningLoop host ticks t)) = this t
  /\ sessions (world (snd (updateBalance host finalUpdate now t))) = sessions (world t)
  /\ this (snd (updateBalance host finalUpdate now t)) = this t.
Proof.
  intros HP.
  destruct (unchanged_initialize host now ticks t HP) as (H1 & _).
  destruct (unchanged_startMiningLoop true host ticks t HP) as (H2 & _ & H3).
  destruct (unchanged_updateBalance true host finalUpdate now t HP) as (H4 & _ & H5).
  split; [exact H1|]. split; [exact H2|]. split; [exact (H3 eq_refl)|].
  split; [exact H4|exact (H5 eq_refl)].
Qed.

Lemma unconfirmed_run_leaves_no_trace_witness :
  let t := {| this := new_KaleidoMiningBot Ex.wallet1 1;
              world := Ex.world_with Ex.refusing ∅ |} in
  sessions (world (snd (initialize Ex.host Ex.clock0 [Ex.clock30; Ex.clock60] t))) = ∅.
Proof.
  cbv zeta.
  destruct (unconfirmed_run_leaves_no_trace Ex.host Ex.clock0 [Ex.clock30; Ex.clock60]
              false
              {| this := new_KaleidoMiningBot Ex.wallet1 1;
                 world := Ex.world_with Ex.refusing ∅ |})
    as (H & _); [|exact H].
  change (never_confirms Ex.refusing).
  intros history response Hsrv. unfold Ex.refusing in Hsrv.
  destruct history as [|[path|path body] rest]; try discriminate Hsrv.
  injection Hsrv as <-. reflexivity.
Defined.

(** ** Stopping a bot that never started *)






(** * Claims that rest on the further properties *)

(** ** The wallets of [wallets.txt] *)

Ltac crack H :=
  cbv beta iota in H;
  lazymatch type of H with
  | context [match ?p with xI _ => _ | xO _ => _ | xH => _ end] =>
      is_var p; destruct p; crack H
  | _ => idtac
  end.

Ltac pick := first [left; reflexivity | right; pick].

(** [is_space] holds of the white space units and of nothing else. *)
Lemma is_space_units (c : N) : is_space c = true <-> In c white_space_units.
Proof.
  split.
  - intros H. unfold is_space in H. destruct c as [|p]; [discriminate H|].
    crack H;
      first [ discriminate H
            | solve [pick]
            | apply andb_prop in H as [H1 H2]; apply N.leb_le in H1, H2;
              unfold white_space_units; cbn [In]; lia ].
  - intros H. unfold white_space_units in H. cbn [In] in H.
    repeat (destruct H as [<-|H]; [reflexivity|]). contradiction.
Qed.

Lemma white_rev (s : jsstring) : white s -> white (rev s).
Proof.
  unfold white. rewrite !List.Forall_forall. intros H c Hin.
  apply H. apply in_rev. exact Hin.
Qed.

Lemma trim_start_white (pre rest : jsstring) :
  white pre -> trim_start (pre ++ rest) = trim_start rest.
Proof.
  induction 1 as [|c pre Hc _ IH]; [reflexivity|].
  cbn [app trim_start]. apply is_space_units in Hc. rewrite Hc. exact IH.
Qed.

Lemma trim_start_decompose (s : jsstring) :
  exists pre, s = pre ++ trim_start s /\ white pre.
Proof.
  induction s as [|c s (pre & Hs & Hpre)].
  - exists []. split; [reflexivity|apply List.Forall_nil].
  - cbn [trim_start]. destruct (is_space c) eqn:Hc.
    + exists (c :: pre). split; [cbn [app]; f_equal; exact Hs|].
      apply List.Forall_cons; [apply is_space_units; exact Hc|exact Hpre].
    + exists []. split; [reflexivity|apply List.Forall_nil].
Qed.

Lemma trim_decompose (s : jsstring) :
  exists pre post, s = pre ++ trim s ++ post /\ white pre /\ white post.
Proof.
  destruct (trim_start_decompose s) as (pre & Hs & Hpre).
  destruct (trim_start_decompose (rev (trim_start s))) as (q & Hq & Hwq).
  exists pre, (rev q). split; [|split; [exact Hpre|apply white_rev; exact Hwq]].
  unfold trim. rewrite <- rev_app_distr, <- Hq, rev_involutive. exact Hs.
Qed.

Lemma trim_carries (line address : jsstring) : carries line address -> trim line = address.
Proof.
  intros (pre & post & -> & Hpre & Hpost & Haddr).
  destruct (address_characters address Haddr) as [Hne Hchars].
  unfold trim. rewrite trim_start_white by exact Hpre.
  destruct address as [|c rest] eqn:Ha; [congruence|]. rewrite <- Ha in *.
  assert (Hfirst : trim_start (address ++ post) = address ++ post).
  { rewrite Ha. cbn [app]. apply trim_start_head. apply Hchars. rewrite Ha. left. reflexivity. }
  rewrite Hfirst, rev_app_distr, trim_start_white by (apply white_rev; exact Hpost).
  assert (Hlast : trim_start (rev address) = rev address).
  { destruct (rev address) as [|d more] eqn:Hr; [reflexivity|].
    apply trim_start_head. apply Hchars. apply in_rev. rewrite Hr. left. reflexivity. }
  rewrite Hlast. apply rev_involutive.
Qed.

Lemma pattern_carries (line : jsstring) :
  wallet_pattern (trim line) = true -> carries line (trim line).
Proof.
  intros H. destruct (trim_decompose line) as (pre & post & Hline & Hpre & Hpost).
  exists pre, post. split; [exact Hline|]. split; [exact Hpre|]. split; [exact Hpost|].
  apply wallet_pattern_spec. exact H.
Qed.

Lemma carries_pattern (line address : jsstring) :
  carries line address -> wallet_pattern (trim line) = true.
Proof.
  intros H. rewrite (trim_carries line address H).
  destruct H as (_ & _ & _ & _ & _ & Haddr). apply wallet_pattern_spec. exact Haddr.
Qed.

Lemma selected_filter (lines wallets : list jsstring) :
  selected lines wallets
  <-> wallets = filter (fun line => wallet_pattern line = true) (map trim lines).
Proof.
  split.
  - induction 1 as [|line address lines wallets Hc _ IH|line lines wallets Hno _ IH].
    + reflexivity.
    + cbn [map]. rewrite filter_cons_True by (exact (carries_pattern _ _ Hc)).
      rewrite (trim_carries _ _ Hc), IH. reflexivity.
    + cbn [map]. rewrite filter_cons_False; [exact IH|].
      intros H. exact (Hno _ (pattern_carries line H)).
  - intros ->. induction lines as [|line lines IH]; [apply selected_nil|].
    cbn [map]. destruct (wallet_pattern (trim line)) eqn:Hp.
    + rewrite filter_cons_True by exact Hp.
      apply selected_keep; [apply pattern_carries; exact Hp|exact IH].
    + rewrite filter_cons_False by (rewrite Hp; discriminate).
      apply selected_drop; [|exact IH].
      intros address Hc. rewrite (carries_pattern _ _ Hc) in Hp. discriminate Hp.
Qed.

(** Every text is its lines, joined by line feeds. *)
Lemma join_split (data : jsstring) :
  split_on 10 data <> []
  /\ (forall l, In l (split_on 10 data) -> ~ In 10%N l)
  /\ data = join_lines (split_on 10 data).
Proof.
  induction data as [|c data (Hne & Hno & Hjoin)].
  - split; [discriminate|]. split; [|reflexivity].
    intros l [<-|[]] [].
  - cbn [split_on]. destruct (N.eqb_spec c 10) as [->|Hc].
    + split; [discriminate|]. split.
      * intros l [<-|Hin]; [intros []|apply Hno; exact Hin].
      * destruct (split_on 10 data) as [|l ls]; [congruence|].
        change (join_lines ([] :: l :: ls)) with ([] ++ 10%N :: join_lines (l :: ls)).
        cbn [app]. f_equal. exact Hjoin.
    + destruct (split_on 10 data) as [|l ls]; [congruence|].
      split; [discriminate|]. split.
      * intros l' [<-|Hin].
        -- intros [Heq|Hin]; [congruence|]. apply (Hno l); [left; reflexivity|exact Hin].
        -- apply Hno. right. exact Hin.
      * rewrite Hjoin at 1. destruct ls as [|l2 ls]; reflexivity.
Qed.

(** C9. Whatever [wallets.txt] holds, its lines being the stretches between
    line feeds: [loadWallets] returns, in the order of the file, the
    address of every line that is an address ("0x" and exactly 40
    hexadecimal characters) with nothing but white space around it, and
    nothing for any other line; it prints nothing.  [start] on a
    coordinator that is not running then makes exactly one bot per wallet:
    the bot at position [i] (from 0) has that wallet, the index [i + 1],
    the session file named after the wallet and the state of a new bot. *)
Theorem wallets_loaded (c : Coordinator) (w : World) (lines : list jsstring) :
  wallets_txt w = Some (join_lines lines) ->
  lines <> [] ->
  (forall l, In l lines -> ~ In 10%N l) ->
  let wallets := fst (loadWallets w) in
  (forall ws, selected lines ws <-> ws = wallets)
  /\ snd (loadWallets w) = w
  /\ (forall data : jsstring,
         exists ls, ls <> [] /\ (forall l, In l ls -> ~ In 10%N l)
                    /\ data = join_lines ls)
  /\ (isRunning c = false -> wallets <> [] ->
      let fleet := bots (fst (start_on c w)) in
      length fleet = length wallets
      /\ forall i address,
          wallets !! i = Some address ->
          exists b,
            fleet !! i = Some b
            /\ wallet b = address
            /\ botIndex b = (i + 1)%nat
            /\ sessionFile b = js "session_" ++ address ++ js ".json"
            /\ miningState b = {| isActive := false; startTime := JNull |}
            /\ currentEarnings b
               = earnings_object (JNum Num.zero) (JNum Num.zero) (JNum Num.zero)
            /\ referralBonus b = JNum Num.zero).
Proof.
  intros Hfile Hne Hlines wallets.
  assert (Hw : wallets
               = filter (fun line => wallet_pattern line = true) (map trim lines)).
  { unfold wallets. rewrite (loadWallets_read w _ Hfile). cbn [fst].
    rewrite (split_on_join lines Hne Hlines). reflexivity. }
  split; [|split; [|split]].
  - intros ws. rewrite Hw. apply selected_filter.
  - rewrite (loadWallets_read w _ Hfile). reflexivity.
  - intros data. exists (split_on 10 data). apply join_split.
  - intros Hrun Hsome fleet.
    destruct (start_on_wallets c w Hrun Hsome) as [Hbots _].
    unfold fleet. rewrite Hbots. fold wallets. unfold make_bots. split.
    + apply length_imap.
    + intros i address Hi.
      exists (new_KaleidoMiningBot address (i + 1)).
      rewrite list_lookup_imap, Hi. repeat split.
Qed.

Lemma wallets_loaded_witness :
  let lines := [Ex.short_line; Ex.wallet1; []] in
  selected lines (fst (loadWallets Ex.two_lines))
  /\ fst (loadWallets Ex.two_lines) = [Ex.wallet1]
  /\ length (bots (fst (start_on Ex.new_coordinator Ex.two_lines))) = 1%nat
  /\ exists b,
      bots (fst (start_on Ex.new_coordinator Ex.two_lines)) !! 0%nat = Some b
      /\ wallet b = Ex.wallet1 /\ botIndex b = 1%nat.
Proof.
  destruct (wallets_loaded Ex.new_coordinator Ex.two_lines
              [Ex.short_line; Ex.wallet1; []])
    as (Hsel & _ & _ & Hfleet).
  - reflexivity.
  - discriminate.
  - intros l [<-|[<-|[<-|[]]]] Hin; cbn in Hin;
      repeat (destruct Hin as [Hin|Hin]; [discriminate Hin|]); exact Hin.
  - assert (Hw : fst (loadWallets Ex.two_lines) = [Ex.wallet1])
      by (vm_compute; reflexivity).
    destruct Hfleet as [Hlen Hbot]; [reflexivity|rewrite Hw; discriminate|].
    destruct (Hbot 0%nat Ex.wallet1) as (b & Hb & Hwallet & Hindex & _);
      [rewrite Hw; reflexivity|].
    cbv zeta. split; [apply Hsel; reflexivity|]. split; [exact Hw|].
    split; [rewrite Hlen, Hw; reflexivity|].
    exists b. split; [exact Hb|]. split; [exact Hwallet|exact Hindex].
Defined.

(** ** The session store, in full *)

(** A registered wallet without a session and without [userData] in the
    registration answer: reading the bonus throws. *)
Lemma initialize_no_userData
      (host : Conversions) (now : number) (ticks : list number) (t t1 : Task)
      (data userData : jsval) :
  registered t t1 data ->
  loadSession t1 = (Ok false, t1) ->
  get_prop data "userData" = Ok userData ->
  userData = JUndefined \/ userData = JNull ->
  initialize host now ticks t
  = (Ok tt, {| this := this t; world := emit_in (Log InitFailed) (world t1) |}).
Proof.
  intros Hreg Hload Huser Hmissing.
  destruct (registered_world _ _ _ Hreg) as [Hthis _].
  rewrite (initialize_registered host now ticks t t1 data Hreg).
  unfold try_catch, on_registered. unfold bind at 1. rewrite Hload. cbn [negb].
  unfold bind at 1. unfold bind at 1. unfold lift at 1. rewrite Huser.
  unfold bind at 1. unfold lift at 1.
  rewrite <- Hthis. destruct Hmissing as [-> | ->]; reflexivity.
Qed.

Lemma lookup_missing (key : jsstring) (fields : list (jsstring * jsval)) :
  (forall v, ~ In (key, v) fields) -> lookup_field key fields = JUndefined.
Proof.
  induction fields as [|[k v] fields IH]; intros Hno; [reflexivity|].
  cbn [lookup_field]. unfold jsstring_eqb.
  destruct (bool_decide (key = k)) eqn:Hk.
  - apply bool_decide_eq_true in Hk. subst k. exfalso. apply (Hno v). left. reflexivity.
  - apply IH. intros v' Hin. apply (Hno v'). right. exact Hin.
Qed.

Lemma registered_userData (t t1 : Task) (data : jsval) :
  registered t t1 data ->
  exists userData,
    get_prop data "userData" = Ok userData
    /\ (userData = JUndefined \/ userData = JNull
        \/ exists bonus, get_prop userData "referralBonus" = Ok bonus).
Proof.
  intros (regResponse & isRegistered & _ & _ & Hisreg & _).
  assert (Hdata : exists userData, get_prop data "userData" = Ok userData)
    by (destruct data; try discriminate Hisreg; eexists; reflexivity).
  destruct Hdata as [userData Huser]. exists userData. split; [exact Huser|].
  destruct userData; auto; right; right; eexists; reflexivity.
Qed.

Lemma absent_after_registration (t t1 : Task) (data : jsval) :
  registered t t1 data ->
  sessions (world t) !! sessionFile (this t) = None
  \/ sessions (world t) !! sessionFile (this t) = Some Unreadable
  \/ sessions (world t) !! sessionFile (this t) = Some NotJson
  \/ sessions (world t) !! sessionFile (this t) = Some (Parsed JNull) ->
  loadSession t1 = (Ok false, t1).
Proof.
  intros Hreg Habsent. apply loadSession_absent.
  destruct (registered_world _ _ _ Hreg) as [Hthis Hfiles].
  rewrite Hthis, Hfiles. exact Habsent.
Qed.

(** C7, amended. Saving to a file that can be written and loading gives
    each of [startTime], the earnings snapshot and [referralBonus] back as
    JSON keeps it: a finite number (the negative zero apart) exactly, so a
    session record whose numbers are finite is restored exactly; a number
    that is not finite as [null]; the negative zero as 0.  A session file
    that is missing, cannot be read, is not JSON text or holds [null] is
    reported as no session, with the bot unchanged; a registered wallet
    then starts afresh when the registration answer carries [userData],
    and fails to initialize, the bot unchanged, when [userData] is
    [undefined] or [null].  A file holding any other JSON value is accepted
    as a session, whatever fields it has: the fields it lacks are read as
    [undefined], and a registered wallet resumes from it with no fresh
    start. *)
Theorem session_store (host : Conversions) (t : Task) :
  (forall b,
      writable (world t) (sessionFile (this t)) = true ->
      sessionFile b = sessionFile (this t) ->
      let loaded := loadSession {| this := b; world := world (snd (saveSession t)) |} in
      (fst loaded = Ok true
       /\ startTime (miningState (this (snd loaded)))
          = json_reparse (startTime (miningState (this t)))
       /\ currentEarnings (this (snd loaded)) = json_reparse (currentEarnings (this t))
       /\ referralBonus (this (snd loaded)) = json_reparse (referralBonus (this t)))
      /\ (session_record (this t) ->
          startTime (miningState (this (snd loaded))) = startTime (miningState (this t))
          /\ currentEarnings (this (snd loaded)) = currentEarnings (this t)
          /\ referralBonus (this (snd loaded)) = referralBonus (this t)))
  /\ (forall x,
         (json_number x -> json_reparse (JNum x) = JNum x)
         /\ (Num.isFinite x = false -> json_reparse (JNum x) = JNull)
         /\ (Num.isZero x = true -> json_reparse (JNum x) = JNum Num.zero))
  /\ (sessions (world t) !! sessionFile (this t) = None
      \/ sessions (world t) !! sessionFile (this t) = Some Unreadable
      \/ sessions (world t) !! sessionFile (this t) = Some NotJson
      \/ sessions (world t) !! sessionFile (this t) = Some (Parsed JNull) ->
      loadSession t = (Ok false, t)
      /\ forall now t1 data,
          registered t t1 data ->
          exists userData,
            get_prop data "userData" = Ok userData
            /\ (userData = JUndefined \/ userData = JNull
                \/ exists bonus, get_prop userData "referralBonus" = Ok bonus)
            /\ (forall bonus,
                   get_prop userData "referralBonus" = Ok bonus ->
                   let started := this (snd (initialize host now [] t)) in
                   referralBonus started = js_or bonus (JNum Num.zero)
                   /\ currentEarnings started
                      = earnings_object (js_or bonus (JNum Num.zero))
                                        (JNum Num.zero) (JNum Num.zero)
                   /\ startTime (miningState started) = JNum now
                   /\ isActive (miningState started) = true)
            /\ (userData = JUndefined \/ userData = JNull ->
                forall ticks,
                  initialize host now ticks t
                  = (Ok tt, {| this := this t;
                               world := emit_in (Log InitFailed) (world t1) |})))
  /\ (forall doc,
         sessions (world t) !! sessionFile (this t) = Some (Parsed doc) ->
         doc <> JNull -> doc <> JUndefined ->
         exists start earnings bonus,
           get_prop doc "startTime" = Ok start
           /\ get_prop doc "earnings" = Ok earnings
           /\ get_prop doc "referralBonus" = Ok bonus
           /\ loadSession t
              = (Ok true,
                 {| this := set_referralBonus bonus
                              (set_currentEarnings earnings
                                 (set_startTime start (this t)));
                    world := emit_in (Log SessionLoaded) (world t) |})
           /\ (forall fields key,
                  doc = JObj fields ->
                  (forall v, ~ In (js key, v) fields) ->
                  get_prop doc key = Ok JUndefined)
           /\ (forall now t1 data,
                  registered t t1 data ->
                  let resumed := snd (initialize host now [] t) in
                  currentEarnings (this resumed) = earnings
                  /\ referralBonus (this resumed) = bonus
                  /\ startTime (miningState (this resumed))
                     = (if truthy start then start else JNum now)
                  /\ isActive (miningState (this resumed)) = true
                  /\ trace (world resumed)
                     = trace (world t1)
                       ++ [Log SessionLoaded; Log (MiningStarted true)])).
Proof.
  split; [|split; [|split]].
  - intros b Hw Hname.
    destruct (save_then_load t b Hw Hname) as (H1 & H2 & H3 & H4).
    cbv zeta. split; [repeat split; assumption|].
    intros Hrec. destruct (session_record_exact _ Hrec) as (E1 & E2 & E3).
    rewrite H2, H3, H4, E1, E2, E3. repeat split.
  - intros x. split; [apply json_number_exact|].
    split; intros H; destruct x as [[]|[]| |s m e]; try discriminate H; reflexivity.
  - intros Habsent. split; [apply loadSession_absent; exact Habsent|].
    intros now t1 data Hreg.
    pose proof (absent_after_registration t t1 data Hreg Habsent) as Hload.
    destruct (registered_userData t t1 data Hreg) as (userData & Huser & Hcases).
    exists userData. split; [exact Huser|]. split; [exact Hcases|]. split.
    + intros bonus Hbonus. cbv zeta.
      rewrite (initialize_without_session host now t t1 data userData bonus
                 Hreg Hload Huser Hbonus).
      repeat split.
    + intros Hmissing ticks.
      exact (initialize_no_userData host now ticks t t1 data userData
               Hreg Hload Huser Hmissing).
  - intros doc Hfile Hnull Hundef.
    destruct (loadSession_parsed t doc Hfile Hnull Hundef)
      as (start & earnings & bonus & H1 & H2 & H3 & Hrun).
    exists start, earnings, bonus.
    split; [exact H1|]. split; [exact H2|]. split; [exact H3|]. split; [exact Hrun|].
    split.
    + intros fields key -> Hno. cbn [get_prop]. f_equal. apply lookup_missing. exact Hno.
    + intros now t1 data Hreg.
      destruct (registered_world _ _ _ Hreg) as [Hthis Hfiles].
      destruct (loadSession_parsed t1 doc)
        as (start' & earnings' & bonus' & G1 & G2 & G3 & Hload);
        [rewrite Hthis, Hfiles; exact Hfile|exact Hnull|exact Hundef|].
      assert (start' = start) by congruence.
      assert (earnings' = earnings) by congruence.
      assert (bonus' = bonus) by congruence. subst start' earnings' bonus'.
      cbv zeta.
      rewrite (initialize_resumed_run host now [] t t1 data start earnings bonus
                 Hreg Hload).
      cbn [startMiningLoop ret snd this world]. unfold emit_in. cbn [trace].
      rewrite <- app_assoc. repeat split.
Qed.

Lemma session_store_witness :
  (let loaded := loadSession {| this := new_KaleidoMiningBot Ex.wallet1 1;
                                world := world (snd (saveSession
                                                       (Ex.fresh_task Ex.crediting))) |} in
   fst loaded = Ok true
   /\ currentEarnings (this (snd loaded)) = currentEarnings Ex.fresh_bot)
  /\ loadSession (Ex.fresh_task Ex.crediting) = (Ok false, Ex.fresh_task Ex.crediting)
  /\ currentEarnings (this (snd (initialize Ex.host Ex.clock0 []
                                   (Ex.fresh_task Ex.crediting))))
     = earnings_object (JNum Ex.eighth) (JNum Num.zero) (JNum Num.zero)
  /\ (let t := {| this := new_KaleidoMiningBot Ex.wallet1 1;
                  world := Ex.world_with Ex.bare_registration ∅ |} in
      this (snd (initialize Ex.host Ex.clock0 [Ex.clock30] t))
      = new_KaleidoMiningBot Ex.wallet1 1)
  /\ fst (loadSession Ex.empty_object_task) = Ok true
  /\ currentEarnings (this (snd (initialize Ex.host Ex.clock0 [] Ex.resuming_task)))
     = earnings_object (JNum (Num.of_Z 5)) (JNum Num.zero) (JNum (Num.of_Z 4)).
Proof.
  destruct (session_store Ex.host (Ex.fresh_task Ex.crediting))
    as (Hround & _ & Habsent & _).
  destruct (session_store Ex.host
              {| this := new_KaleidoMiningBot Ex.wallet1 1;
                 world := Ex.world_with Ex.bare_registration ∅ |})
    as (_ & _ & Hbare & _).
  destruct (session_store Ex.host Ex.empty_object_task) as (_ & _ & _ & Hother).
  destruct (session_store Ex.host Ex.resuming_task) as (_ & _ & _ & Hresume).
  split; [|split; [|split; [|split; [|split]]]].
  - assert (Hrec : session_record (this (Ex.fresh_task Ex.crediting))).
    { split; [right; eexists; split; [reflexivity|exact I]|].
      split.
      - do 3 eexists. split; [reflexivity|]. repeat split.
      - eexists. split; [reflexivity|exact I]. }
    destruct (Hround (new_KaleidoMiningBot Ex.wallet1 1) eq_refl eq_refl)
      as ((H1 & _) & Hexact).
    destruct (Hexact Hrec) as (_ & H3 & _).
    split; assumption.
  - apply Habsent. left. reflexivity.
  - destruct Habsent as [_ Hfresh]; [left; reflexivity|].
    assert (Hreg : registered (Ex.fresh_task Ex.crediting)
                     (snd (retryRequest
                             (api_get (js "/check-registration?wallet=" ++ Ex.wallet1))
                             (js "Registration check") 3 (Ex.fresh_task Ex.crediting)))
                     (JObj [(js "isRegistered", JBool true);
                            (js "userData", JObj [(js "referralBonus", JNum Ex.eighth)])])).
    { do 2 eexists. repeat (split; [vm_compute; reflexivity|]). reflexivity. }
    destruct (Hfresh Ex.clock0 _ _ Hreg) as (userData & Huser & _ & Hstart & _).
    injection Huser as <-.
    destruct (Hstart (JNum Ex.eighth) eq_refl) as (_ & H & _).
    exact H.
  - destruct Hbare as [_ Hfail]; [left; reflexivity|].
    set (t := {| this := new_KaleidoMiningBot Ex.wallet1 1; world := _ |}) in *.
    assert (Hreg : registered t
                     (snd (retryRequest
                             (api_get (js "/check-registration?wallet=" ++ Ex.wallet1))
                             (js "Registration check") 3 t))
                     (JObj [(js "isRegistered", JBool true)])).
    { do 2 eexists. repeat (split; [vm_compute; reflexivity|]). reflexivity. }
    destruct (Hfail Ex.clock0 _ _ Hreg) as (userData & Huser & _ & _ & Hmissing).
    injection Huser as <-.
    cbv zeta. rewrite (Hmissing (or_introl eq_refl) [Ex.clock30]). reflexivity.
  - destruct (Hother (JObj [])) as (start & earnings & bonus & _ & _ & _ & Hrun & _);
      [vm_compute; reflexivity|discriminate|discriminate|].
    rewrite Hrun. reflexivity.
  - destruct (Hresume Ex.earlier_session)
      as (start & earnings & bonus & _ & Hearn & _ & _ & _ & Hinit);
      [vm_compute; reflexivity|discriminate|discriminate|].
    assert (Hreg : registered Ex.resuming_task
                     (snd (retryRequest
                             (api_get (js "/check-registration?wallet=" ++ Ex.wallet1))
                             (js "Registration check") 3 Ex.resuming_task))
                     (JObj [(js "isRegistered", JBool true);
                            (js "userData", JObj [(js "referralBonus", JNum Ex.eighth)])])).
    { do 2 eexists. repeat (split; [vm_compute; reflexivity|]). reflexivity. }
    destruct (Hinit Ex.clock0 _ _ Hreg) as (H & _).
    rewrite H. injection Hearn as <-. reflexivity.
Defined.
